(** * YAET: the cycle-based budget aggregation engine of [src/YAET.js]

    A shallow embedding of the pure core of the expense tracker: the
    frequency normaliser [calculateCycleBudget], the cycle window
    calculator [startOfCycle], the ledger filters and the [summary]
    aggregation of the [App] component, the category normalisation of the
    store listener, and the cycle-comparison series of
    [ExpenseCycleBarChart].

    Modelling conventions.
    - A JavaScript number is an exact rational ([Q]) or [NaN]; binary64
      rounding, the infinities and the sign of zero are not modelled.
      Equality of numbers is [Qeq] (written [==]).  A sum is written in
      the order in which the code adds; where two groupings of the same
      amounts are compared, rounding decides, and [Binary64] has the
      reducers of the summary on binary64 numbers for such inputs.
    - A [Date] is its time value, an integer count of milliseconds since
      the epoch, decoded with the day, year and month functions of
      ECMA-262 (sections 21.4.1.3 to 21.4.1.16).  The local time zone is a
      fixed offset [tza]; daylight saving changes and the range check
      [TimeClip] are not modelled.
    - A JavaScript object used as a dictionary is a [gmap] with string
      keys: the map of its own properties.  A key that is the name of a
      property of [Object.prototype] reads the inherited property
      instead; such keys ([objectPrototypeNames]) are excluded by
      hypothesis where a dictionary is read. *)

From Stdlib Require Import ZArith QArith Lqa Lia List Bool Ascii String.
From Stdlib Require Import Sorted Permutation PrimFloat.
From stdpp Require Import gmap strings list fin_maps pretty.

#[local] Open Scope Z_scope.

(** ** JavaScript values *)

Module JS.

(** A number: [NaN] or a rational. *)
Inductive number : Type :=
| NaN
| Num (q : Q).

(** The values that reach the core through untyped record fields. *)
Inductive value : Type :=
| JUndefined
| JNull
| JBool (b : bool)
| JNumber (n : number)
| JString (s : string).

(** [ToBoolean] on numbers: [NaN] and zero are falsy. *)
Definition truthy_number (n : number) : bool :=
match n with
| NaN => false
| Num q => negb (Qeq_bool q 0)
end.

(** [ToBoolean]. *)
Definition truthy (v : value) : bool :=
match v with
| JUndefined | JNull => false
| JBool b => b
| JNumber n => truthy_number n
| JString s => negb (String.eqb s "")
end.

(** [a || b] on values. *)
Definition or_else (a b : value) : value := if truthy a then a else b.

(** [a || b] on numbers. *)
Definition num_or (a b : number) : number := if truthy_number a then a else b.

(** [n || 0]: the result is never [NaN], so it is read as a rational. *)
Definition or0 (n : number) : Q :=
match num_or n (Num 0) with
| NaN => 0%Q
| Num q => q
end.

(** [a === b] where [b] is a string literal. *)
Definition strict_eq_string (a : value) (lit : string) : bool :=
match a with
| JString s => String.eqb s lit
| _ => false
end.

(** *** [parseFloat]

  [parseFloat] converts its argument to a string, skips leading white
  space and reads the longest prefix that is a [StrDecimalLiteral]:
  an optional sign, digits with an optional fraction (or a fraction
  alone), and an optional exponent.  No such prefix gives [NaN].  The
  literal [Infinity] has no rational value and is read as [NaN] here. *)

Definition is_digit (c : ascii) : bool :=
let n := Z.of_nat (nat_of_ascii c) in (48 <=? n) && (n <=? 57).

Definition digit_val (c : ascii) : Z := Z.of_nat (nat_of_ascii c) - 48.

Definition is_white (c : ascii) : bool :=
let n := Z.of_nat (nat_of_ascii c) in
(n =? 32) || ((9 <=? n) && (n <=? 13)).

Fixpoint skip_white (s : string) : string :=
match s with
| String c r => if is_white c then skip_white r else s
| EmptyString => s
end.

(** Reads a run of digits: its value after [acc], its length, the rest. *)
Fixpoint read_digits (s : string) (acc : Z) (len : nat) : Z * nat * string :=
match s with
| String c r =>
    if is_digit c then read_digits r (10 * acc + digit_val c) (S len)
    else (acc, len, s)
| EmptyString => (acc, len, s)
end.

(** An exponent part [e], [e+] or [e-] followed by at least one digit. *)
Definition read_exponent (s : string) : Z :=
match s with
| String c r =>
    if (Ascii.eqb c "e" || Ascii.eqb c "E")%bool then
      let '(neg, r') :=
        match r with
        | String "-" r' => (true, r')
        | String "+" r' => (false, r')
        | _ => (false, r)
        end in
      let '(e, n, _) := read_digits r' 0 0%nat in
      match n with
      | O => 0
      | S _ => if neg then - e else e
      end
    else 0
| EmptyString => 0
end.

Definition pow10 (e : Z) : Q :=
if 0 <=? e then inject_Z (10 ^ e) else / inject_Z (10 ^ (- e)).

Definition parse_decimal (s : string) : number :=
let s := skip_white s in
let '(neg, s) :=
  match s with
  | String "-" r => (true, r)
  | String "+" r => (false, r)
  | _ => (false, s)
  end in
let '(ip, ni, s) := read_digits s 0 0%nat in
let '(m, nf, s) :=
  match s with
  | String "." r => read_digits r ip 0%nat
  | _ => (ip, 0%nat, s)
  end in
match (ni + nf)%nat with
| O => NaN
| S _ =>
    let q := (inject_Z m * pow10 (- Z.of_nat nf) * pow10 (read_exponent s))%Q in
    Num (if neg then (- q)%Q else q)
end.

Definition parseFloat (v : value) : number :=
match v with
| JNumber n => n
| JString s => parse_decimal s
| JUndefined | JNull | JBool _ => NaN
end.

End JS.

Import JS.

(** ** Constants *)

(** [AVG_DAYS_PER_MONTH = 30.4375]. *)
Definition AVG_DAYS_PER_MONTH : Q := 304375 # 10000.

(** ** Frequency normaliser *)

(** [calculateCycleBudget(baseLimit, baseFrequency, cycleMonths)]. *)
Definition calculateCycleBudget (baseLimit baseFrequency : value) (cycleMonths : Q) : Q :=
  let limit := or0 (parseFloat baseLimit) in
  if Qle_bool limit 0 then 0%Q
  else if strict_eq_string baseFrequency "daily" then
    (limit * cycleMonths * AVG_DAYS_PER_MONTH)%Q
  else if strict_eq_string baseFrequency "monthly" then
    (limit * cycleMonths)%Q
  else if strict_eq_string baseFrequency "bimonthly" then
    (limit * (cycleMonths / 2))%Q
  else (limit * cycleMonths)%Q.

(** ** Calendar arithmetic of ECMA-262 *)

Module Calendar.

Definition msPerDay : Z := 86400000.

(** [Day(t)] and [TimeWithinDay(t)]. *)
Definition Day (t : Z) : Z := t / msPerDay.
Definition TimeWithinDay (t : Z) : Z := t mod msPerDay.

Definition isLeap (y : Z) : bool :=
(y mod 4 =? 0) && (negb (y mod 100 =? 0) || (y mod 400 =? 0)).

(** [DaysInYear(y)]. *)
Definition DaysInYear (y : Z) : Z := if isLeap y then 366 else 365.

(** [DayFromYear(y)]: the day number of the first day of year [y]. *)
Definition DayFromYear (y : Z) : Z :=
365 * (y - 1970) + (y - 1969) / 4 - (y - 1901) / 100 + (y - 1601) / 400.

(** The year of a day number.  ECMA-262 specifies [YearFromTime] as the
  largest [y] whose first day is not after the day; this computes it from
  the mean year length and one step of adjustment ([YearFromDay_spec]
  below shows that it meets the specification). *)
Definition YearFromDay (d : Z) : Z :=
let y := 1970 + (400 * d) / 146097 in
if d <? DayFromYear y then y - 1
else if DayFromYear (y + 1) <=? d then y + 1
else y.

Definition YearFromTime (t : Z) : Z := YearFromDay (Day t).

(** [InLeapYear(t)], as 0 or 1. *)
Definition leapDays (y : Z) : Z := if isLeap y then 1 else 0.

(** [DayWithinYear(t)]. *)
Definition DayWithinYear (t : Z) : Z := Day t - DayFromYear (YearFromTime t).

(** The number of days of a year before month [m] (0 is January). *)
Definition monthStart (m leap : Z) : Z :=
match m with
| 0 => 0
| 1 => 31
| 2 => 59 + leap
| 3 => 90 + leap
| 4 => 120 + leap
| 5 => 151 + leap
| 6 => 181 + leap
| 7 => 212 + leap
| 8 => 243 + leap
| 9 => 273 + leap
| 10 => 304 + leap
| 11 => 334 + leap
| _ => 365 + leap
end.

(** The month table of [MonthFromTime], on a day within the year. *)
Definition monthOfYearDay (d leap : Z) : Z :=
if d <? 31 then 0
else if d <? 59 + leap then 1
else if d <? 90 + leap then 2
else if d <? 120 + leap then 3
else if d <? 151 + leap then 4
else if d <? 181 + leap then 5
else if d <? 212 + leap then 6
else if d <? 243 + leap then 7
else if d <? 273 + leap then 8
else if d <? 304 + leap then 9
else if d <? 334 + leap then 10
else 11.

(** [MonthFromTime(t)]. *)
Definition MonthFromTime (t : Z) : Z :=
monthOfYearDay (DayWithinYear t) (leapDays (YearFromTime t)).

(** [DateFromTime(t)]: the day of the month, from 1. *)
Definition DateFromTime (t : Z) : Z :=
DayWithinYear t - monthStart (MonthFromTime t) (leapDays (YearFromTime t)) + 1.

(** [MakeTime(hour, min, sec, ms)]. *)
Definition MakeTime (h m s ms : Z) : Z := h * 3600000 + m * 60000 + s * 1000 + ms.

(** [MakeDay(year, month, date)]: months outside 0..11 carry into the
  year, and [date] is counted from the first of the month without any
  upper bound. *)
Definition MakeDay (year month date : Z) : Z :=
let ym := year + month / 12 in
let mn := month mod 12 in
DayFromYear ym + monthStart mn (leapDays ym) + date - 1.

(** [MakeDate(day, time)]. *)
Definition MakeDate (day time : Z) : Z := day * msPerDay + time.

(** The count of months since year 0 of the month holding time [t]. *)
Definition monthIndex (t : Z) : Z := 12 * YearFromTime t + MonthFromTime t.

(** The day number of the first day of the month with index [k]. *)
Definition firstOfMonth (k : Z) : Z := MakeDay 0 k 1.

(** The length in days of the month with index [k]. *)
Definition daysInMonth (k : Z) : Z := firstOfMonth (k + 1) - firstOfMonth k.

End Calendar.

Import Calendar.

(** ** [Date] objects *)

Module JSDate.

Section LocalZone.

(** The offset of local time from UTC, in milliseconds. *)
Variable tza : Z.

Definition LocalTime (t : Z) : Z := t + tza.
Definition UTC (t : Z) : Z := t - tza.

(** The [Date] constructor reads a year from 0 to 99 as 1900 plus it. *)
Definition fullYear (y : Z) : Z :=
  if (0 <=? y) && (y <=? 99) then 1900 + y else y.

(** [new Date(year, month, date)]: local midnight of that day. *)
Definition newDate (year month date : Z) : Z :=
  UTC (MakeDate (MakeDay (fullYear year) month date) (MakeTime 0 0 0 0)).

Definition getFullYear (d : Z) : Z := YearFromTime (LocalTime d).
Definition getMonth (d : Z) : Z := MonthFromTime (LocalTime d).
Definition getDate (d : Z) : Z := DateFromTime (LocalTime d).

(** The local time of day, in milliseconds since local midnight. *)
Definition getTimeOfDay (d : Z) : Z := TimeWithinDay (LocalTime d).

(** [d.setMonth(month)]: the value of [d] afterwards. *)
Definition setMonth (d month : Z) : Z :=
  let t := LocalTime d in
  UTC (MakeDate (MakeDay (YearFromTime t) month (DateFromTime t)) (TimeWithinDay t)).

(** [d.setDate(date)]: the value of [d] afterwards. *)
Definition setDate (d date : Z) : Z :=
  let t := LocalTime d in
  UTC (MakeDate (MakeDay (YearFromTime t) (MonthFromTime t) date) (TimeWithinDay t)).

(** The count of months since year 0 of the local month of [d]. *)
Definition localMonthIndex (d : Z) : Z := 12 * getFullYear d + getMonth d.

End LocalZone.

(** Month names of [toLocaleString(..., { month: 'short' })], in the
    [en-US] locale. *)
Definition monthShort (m : Z) : string :=
  match m with
  | 0 => "Jan" | 1 => "Feb" | 2 => "Mar" | 3 => "Apr" | 4 => "May"
  | 5 => "Jun" | 6 => "Jul" | 7 => "Aug" | 8 => "Sep" | 9 => "Oct"
  | 10 => "Nov" | _ => "Dec"
  end.

(** [s.slice(n)] for [n >= 0]. *)
Fixpoint slice (n : nat) (s : string) : string :=
  match n, s with
  | S n', String _ r => slice n' r
  | _, _ => s
  end.

End JSDate.

Import JSDate.

(** ** Cycle window calculator *)

(** [startOfCycle(cycleMonths)], with the clock reading [now] made a
    parameter. *)
Definition startOfCycle (tza now cycleMonths : Z) : Z :=
  let date := newDate tza (getFullYear tza now) (getMonth tza now) 1 in
  let date := setMonth tza date (getMonth tza now - (cycleMonths - 1)) in
  let date := setDate tza date 1 in
  date.

(** ** Records of the store *)

(** A document of the [expenses] collection as the listener delivers it:
    an expense or an income ([type] is ["expense"] or ["budget"]). *)
Module Tx.
Record t : Type := mk {
  id : string;
  amount : Q;
  type : string;
  categoryId : string;
  source : string;
  timestamp : Z
}.
End Tx.

(** A document of the [categories] collection.  Fields that may be
    missing or of any type are [value]s. *)
Module Cat.
Record t : Type := mk {
  id : string;
  name : string;
  baseLimit : value;
  budgetLimit : value;
  baseFrequency : value;
  color : value;
  icon : value
}.
End Cat.

Module Settings.
Record t : Type := mk {
  currencyCode : string;
  cycleMonths : Z
}.
End Settings.

Definition COLORS : list string :=
  ["#673AB7"; "#03A9F4"; "#009688"; "#FF9800"; "#F44336";
   "#E91E63"; "#9C27B0"; "#3F51B5"; "#00BCD4"; "#4CAF50"]%string.

(** ** Category normalisation of the store listener *)

(** One element of [sanitizedCats]: the record with [baseLimit] and
    [baseFrequency] replaced. *)
Definition sanitize (cat : Cat.t) : Cat.t :=
  {| Cat.id := Cat.id cat;
     Cat.name := Cat.name cat;
     Cat.baseLimit :=
       JNumber (Num (or0 (num_or (parseFloat (Cat.baseLimit cat))
                                 (parseFloat (Cat.budgetLimit cat)))));
     Cat.budgetLimit := Cat.budgetLimit cat;
     Cat.baseFrequency := or_else (Cat.baseFrequency cat) (JString "monthly");
     Cat.color := Cat.color cat;
     Cat.icon := Cat.icon cat |}.

Definition sanitizedCats (cats : list Cat.t) : list Cat.t := List.map sanitize cats.

(** ** Ledger view and aggregation ([App]) *)

(** [settings.cycleMonths || 1]. *)
Definition cycleMonthsOr1 (settings : Settings.t) : Z :=
  if Settings.cycleMonths settings =? 0 then 1 else Settings.cycleMonths settings.

Definition is_type (ty : string) (e : Tx.t) : bool := String.eqb (Tx.type e) ty.

(** [filterData(data, startDate)]. *)
Definition filterData (data : list Tx.t) (startDate : Z) : list Tx.t :=
  List.filter (fun item => startDate <=? Tx.timestamp item) data.

Definition currentCycleStart (tza now : Z) (settings : Settings.t) : Z :=
  startOfCycle tza now (cycleMonthsOr1 settings).

Definition cycleExpenses (tza now : Z) (expenses : list Tx.t) (settings : Settings.t)
  : list Tx.t :=
  filterData (List.filter (is_type "expense") expenses) (currentCycleStart tza now settings).

Definition cycleBudgets (tza now : Z) (expenses : list Tx.t) (settings : Settings.t)
  : list Tx.t :=
  filterData (List.filter (is_type "budget") expenses) (currentCycleStart tza now settings).

(** [reduce((sum, entry) => sum + entry.amount, 0)]. *)
Definition sumAmounts (l : list Tx.t) : Q :=
  fold_left (fun sum entry => (sum + Tx.amount entry)%Q) l 0%Q.

(** [m[k] || 0] on a dictionary of numbers. *)
Definition lookupOr0 (m : gmap string Q) (k : string) : Q :=
  match m !! k with
  | Some q => or0 (Num q)
  | None => 0%Q
  end.

(** The reducer building [expenseByCategory]. *)
Definition addExpense (acc : gmap string Q) (expense : Tx.t) : gmap string Q :=
  let categoryId := Tx.categoryId expense in
  <[categoryId := (lookupOr0 acc categoryId + Tx.amount expense)%Q]> acc.

Module ChartItem.
Record t : Type := mk {
  name : string;
  value : Q;
  color : JS.value;
  id : string;
  budgetLimit : Q;
  baseFrequency : JS.value;
  baseLimit : Q
}.
End ChartItem.

Module Summary.
Record t : Type := mk {
  totalBudgetLimit : Q;
  totalActualBudget : Q;
  totalExpenses : Q;
  remaining : Q;
  expenseByCategory : gmap string Q;
  chartData : list ChartItem.t
}.
End Summary.

Definition Qgt_bool (a b : Q) : bool := negb (Qle_bool a b).

Definition totalBudgetLimitOf (categories : list Cat.t) (cycleMonths : Z) : Q :=
  fold_left
    (fun sum cat =>
       (sum + calculateCycleBudget (Cat.baseLimit cat) (Cat.baseFrequency cat)
                (inject_Z cycleMonths))%Q)
    categories 0%Q.

Definition expenseByCategoryOf (cycleExpenses : list Tx.t) : gmap string Q :=
  fold_left addExpense cycleExpenses ∅.

(** The callback of [categories.map] in [chartData]. *)
Definition chartItem (expenseByCategory : gmap string Q) (cycleMonths : Z)
    (index : nat) (cat : Cat.t) : ChartItem.t :=
  let calculatedLimit :=
    calculateCycleBudget (Cat.baseLimit cat) (Cat.baseFrequency cat)
      (inject_Z cycleMonths) in
  {| ChartItem.name := Cat.name cat;
     ChartItem.value := lookupOr0 expenseByCategory (Cat.id cat);
     ChartItem.color :=
       or_else (Cat.color cat)
         (JString (nth (index mod length COLORS)%nat COLORS ""%string));
     ChartItem.id := Cat.id cat;
     ChartItem.budgetLimit := calculatedLimit;
     ChartItem.baseFrequency := Cat.baseFrequency cat;
     ChartItem.baseLimit := or0 (parseFloat (Cat.baseLimit cat)) |}.

(** The predicate of the [filter] closing [chartData]. *)
Definition keepItem (item : ChartItem.t) : bool :=
  Qgt_bool (ChartItem.value item) 0 || Qgt_bool (ChartItem.budgetLimit item) 0.

Definition chartDataOf (categories : list Cat.t) (expenseByCategory : gmap string Q)
    (cycleMonths : Z) : list ChartItem.t :=
  List.filter keepItem (imap (chartItem expenseByCategory cycleMonths) categories).

(** The [summary] memo of [App], from the categories, the two partitions
    of the current cycle and the settings. *)
Definition summary (categories : list Cat.t) (cycleExpenses cycleBudgets : list Tx.t)
    (settings : Settings.t) : Summary.t :=
  let cycleMonths := cycleMonthsOr1 settings in
  let totalBudgetLimit := totalBudgetLimitOf categories cycleMonths in
  let totalActualBudget := sumAmounts cycleBudgets in
  let totalExpenses := sumAmounts cycleExpenses in
  let remaining := (totalBudgetLimit - totalExpenses)%Q in
  let expenseByCategory := expenseByCategoryOf cycleExpenses in
  let chartData := chartDataOf categories expenseByCategory cycleMonths in
  {| Summary.totalBudgetLimit := totalBudgetLimit;
     Summary.totalActualBudget := totalActualBudget;
     Summary.totalExpenses := totalExpenses;
     Summary.remaining := remaining;
     Summary.expenseByCategory := expenseByCategory;
     Summary.chartData := chartData |}.

(** The summary as [App] computes it from its state: the categories, the
    whole transaction log, the settings, and the clock. *)
Definition summarize (tza now : Z) (categories : list Cat.t) (expenses : list Tx.t)
    (settings : Settings.t) : Summary.t :=
  summary categories (cycleExpenses tza now expenses settings)
    (cycleBudgets tza now expenses settings) settings.

(** [isOverActualBudget] of [OverviewTab]. *)
Definition isOverActualBudget (s : Summary.t) : bool :=
  Qgt_bool (Summary.totalExpenses s) (Summary.totalActualBudget s)
  && Qgt_bool (Summary.totalActualBudget s) 0.

(** [percentage] of a row of [ExpensesTab]. *)
Definition percentage (data : ChartItem.t) : Q :=
  let spent := or0 (Num (ChartItem.value data)) in
  let limit := or0 (Num (ChartItem.budgetLimit data)) in
  if Qgt_bool limit 0 then (spent / limit * 100)%Q else 0%Q.

(** ** Historical comparison ([ExpenseCycleBarChart]) *)

Module Bar.
Record t : Type := mk {
  name : string;
  Expenses : Q;
  isCurrent : bool
}.
End Bar.

Section CycleData.

Variable tza : Z.
Variable now : Z.
Variable cycleMonths : Z.

(** [endDate] of iteration [i]. *)
Definition cycleEndDate (i : Z) : Z :=
  let endDate := newDate tza (getFullYear tza now) (getMonth tza now) (getDate tza now) in
  setMonth tza endDate (getMonth tza now - (i * cycleMonths)).

(** [startDate] of iteration [i]. *)
Definition cycleStartDate (i : Z) : Z :=
  let startDate := newDate tza (getFullYear tza now) (getMonth tza now) 1 in
  setMonth tza startDate (getMonth tza now - ((i + 1) * cycleMonths) + 1).

Definition cycleLabel (i : Z) : string :=
  let startDate := cycleStartDate i in
  let endDate := cycleEndDate i in
  let labelStart := newDate tza (getFullYear tza startDate) (getMonth tza startDate) 1 in
  let labelEnd := newDate tza (getFullYear tza endDate) (getMonth tza endDate + 1) 0 in
  if i =? 0 then "Current"%string
  else
    (monthShort (getMonth tza labelStart) +:+ "-" +:+
     slice 2 (monthShort (getMonth tza labelEnd) +:+ " " +:+
              pretty (getFullYear tza labelEnd)))%string.

(** The expenses counted in iteration [i]. *)
Definition inCycle (i : Z) (exp : Tx.t) : bool :=
  is_type "expense" exp
  && (cycleStartDate i <=? Tx.timestamp exp)
  && (Tx.timestamp exp <=? cycleEndDate i).

(** The entry pushed by iteration [i] of the loop. *)
Definition cycleBar (expenses : list Tx.t) (i : Z) : Bar.t :=
  let cycleExpenses := List.filter (inCycle i) expenses in
  let totalExpense := sumAmounts cycleExpenses in
  {| Bar.name := cycleLabel i;
     Bar.Expenses := totalExpense;
     Bar.isCurrent := i =? 0 |}.

Definition numCycles : nat := 5.

(** [cycleData]: the loop pushes one entry for each [i] from 0 below
    [numCycles], and the array is then reversed. *)
Definition cycleData (expenses : list Tx.t) : list Bar.t :=
  if (length expenses =? 0)%nat || (cycleMonths =? 0) then []
  else
    let data :=
      fold_left (fun data i => data ++ [cycleBar expenses (Z.of_nat i)])
        (seq 0 numCycles) [] in
    rev data.

End CycleData.

(** ** Reference notions used in the statements *)

(** The sum of a list of numbers. *)
Definition Qsum (l : list Q) : Q := fold_right Qplus 0%Q l.

(** The amount spent in category [k] by the transactions of [l]. *)
Definition spentIn (k : string) (l : list Tx.t) : Q :=
  Qsum (List.map Tx.amount (List.filter (fun e => String.eqb (Tx.categoryId e) k) l)).

(** A clock reading with its month set back by [k] calendar months, the
    time of day kept: [Date.setMonth] applied to the reading itself. *)
Definition shiftBackMonths (tza now k : Z) : Z :=
  setMonth tza now (getMonth tza now - k).

(** Sample data: 15 March 2024, 10:00 UTC, a groceries category with a
    monthly limit of 200, and expenses stamped at that time. *)
Definition sampleNow : Z := 1710496800000.

Definition groceries : Cat.t :=
  {| Cat.id := "c1"; Cat.name := "Groceries";
     Cat.baseLimit := JNumber (Num 200); Cat.budgetLimit := JUndefined;
     Cat.baseFrequency := JString "monthly";
     Cat.color := JUndefined; Cat.icon := JUndefined |}.

Definition expenseAt (id : string) (amount : Q) (categoryId : string) (timestamp : Z) : Tx.t :=
  {| Tx.id := id; Tx.amount := amount; Tx.type := "expense";
     Tx.categoryId := categoryId; Tx.source := "Unknown"; Tx.timestamp := timestamp |}.

Definition incomeAt (id : string) (amount : Q) (timestamp : Z) : Tx.t :=
  {| Tx.id := id; Tx.amount := amount; Tx.type := "budget";
     Tx.categoryId := "income"; Tx.source := "Uncategorized Income";
     Tx.timestamp := timestamp |}.

(** ** Further functions of the application *)

(** *** Strings *)

(** [s.trimEnd()], for the white space of [is_white]. *)
Fixpoint trimEnd (s : string) : string :=
  match s with
  | EmptyString => EmptyString
  | String c r =>
      match trimEnd r with
      | EmptyString => if is_white c then EmptyString else String c EmptyString
      | r' => String c r'
      end
  end.

(** [s.trim()]. *)
Definition trim (s : string) : string := trimEnd (skip_white s).

(** [s || d] on strings: the empty string is falsy. *)
Definition str_or (s d : string) : string := if String.eqb s "" then d else s.

(** [isNaN(n)] on a number. *)
Definition isNaN (n : number) : bool :=
  match n with
  | NaN => true
  | Num _ => false
  end.

(** *** Frequency names *)

(** [FREQUENCIES], as pairs of [code] and [name]. *)
Definition FREQUENCIES : list (string * string) :=
  [("monthly", "Monthly"); ("bimonthly", "Bi-Monthly"); ("daily", "Daily")]%string.

(** [FREQUENCIES.find(f => f.code === baseFrequency)?.name || 'Monthly']. *)
Definition frequencyName (baseFrequency : value) : string :=
  match List.find (fun f => strict_eq_string baseFrequency (fst f)) FREQUENCIES with
  | Some f => str_or (snd f) "Monthly"
  | None => "Monthly"%string
  end.

(** *** Forms and the documents written to the store *)

(** The state of the expense and of the income form. *)
Module TxForm.
Record t : Type := mk {
  amount : value;
  categoryId : string;
  source : string
}.
End TxForm.

(** A document of the [expenses] collection as it is written. *)
Module Doc.
Record t : Type := mk {
  amount : number;
  categoryId : string;
  source : string;
  timestamp : Z;
  type : string
}.
End Doc.

(** The document [handleAddExpense(expData)] adds, the clock reading
    [now]. *)
Definition handleAddExpense (expData : TxForm.t) (now : Z) : Doc.t :=
  {| Doc.amount := parseFloat (TxForm.amount expData);
     Doc.categoryId := TxForm.categoryId expData;
     Doc.source := str_or (trim (TxForm.source expData)) "Unknown";
     Doc.timestamp := now;
     Doc.type := "expense" |}.

(** The document [handleAddBudgetEntry(budData)] adds. *)
Definition handleAddBudgetEntry (budData : TxForm.t) (now : Z) : Doc.t :=
  {| Doc.amount := parseFloat (TxForm.amount budData);
     Doc.categoryId := "income";
     Doc.source := str_or (trim (TxForm.source budData)) "Uncategorized Income";
     Doc.timestamp := now;
     Doc.type := "budget" |}.

(** One element of [exps] in the listener of the [expenses] collection:
    the document with its id and its amount parsed again.  A [Tx.t] holds
    a rational amount, so a document whose amount is [NaN] has no
    counterpart here ([None]); the listener itself delivers it with that
    amount. *)
Definition fromSnapshot (id : string) (d : Doc.t) : option Tx.t :=
  match parseFloat (JNumber (Doc.amount d)) with
  | Num q =>
      Some {| Tx.id := id; Tx.amount := q; Tx.type := Doc.type d;
              Tx.categoryId := Doc.categoryId d; Tx.source := Doc.source d;
              Tx.timestamp := Doc.timestamp d |}
  | NaN => None
  end.

(** The state of the category form. *)
Module CatForm.
Record t : Type := mk {
  name : string;
  baseLimit : value;
  baseFrequency : value;
  color : value;
  icon : value
}.
End CatForm.

(** The document [handleAddCategory(catData)] adds, as the listener of the
    [categories] collection reads it back under the id [id] given by the
    store. *)
Definition handleAddCategory (id : string) (catData : CatForm.t) : Cat.t :=
  {| Cat.id := id;
     Cat.name := trim (CatForm.name catData);
     Cat.baseLimit :=
       JNumber (parseFloat (or_else (CatForm.baseLimit catData) (JNumber (Num 0))));
     Cat.budgetLimit := JUndefined;
     Cat.baseFrequency := CatForm.baseFrequency catData;
     Cat.color := CatForm.color catData;
     Cat.icon := CatForm.icon catData |}.

(** The editing state of [AllocateTab]. *)
Module Edit.
Record t : Type := mk {
  editingCatId : string;
  editName : string;
  editLimit : value;
  editFrequency : value;
  editColor : value;
  editIcon : value
}.
End Edit.

(** [startEdit(cat)]. *)
Definition startEdit (cat : Cat.t) : Edit.t :=
  {| Edit.editingCatId := Cat.id cat;
     Edit.editName := Cat.name cat;
     Edit.editLimit := Cat.baseLimit cat;
     Edit.editFrequency := or_else (Cat.baseFrequency cat) (JString "monthly");
     Edit.editColor := Cat.color cat;
     Edit.editIcon := Cat.icon cat |}.

(** [saveEdit()]: the arguments it passes to [handleUpdateCategory], or
    [None] when it returns without saving. *)
Definition saveEdit (st : Edit.t) : option (string * CatForm.t) :=
  if String.eqb (trim (Edit.editName st)) "" || isNaN (parseFloat (Edit.editLimit st))
  then None
  else Some (Edit.editingCatId st,
             {| CatForm.name := trim (Edit.editName st);
                CatForm.baseLimit := JNumber (parseFloat (Edit.editLimit st));
                CatForm.baseFrequency := Edit.editFrequency st;
                CatForm.color := Edit.editColor st;
                CatForm.icon := Edit.editIcon st |}).

(** *** Rows of [ExpensesTab] and slices of [AnalysisTab] *)

(** [spent] and [limit] of a row. *)
Definition rowSpent (data : ChartItem.t) : Q := or0 (Num (ChartItem.value data)).
Definition rowLimit (data : ChartItem.t) : Q := or0 (Num (ChartItem.budgetLimit data)).

(** [barColor]. *)
Definition barColor (data : ChartItem.t) : string :=
  if Qgt_bool (percentage data) 100 then "bg-red-500"
  else if Qgt_bool (percentage data) 75 then "bg-yellow-500"
  else "bg-green-500".

(** [Math.min(percentage, 100)], the width of the bar in percent. *)
Definition barWidth (data : ChartItem.t) : Q :=
  if Qle_bool (percentage data) 100 then percentage data else 100%Q.

(** Whether the row shows the [OVERSPENT] line, and the amount it shows. *)
Definition showsOverspent (data : ChartItem.t) : bool := Qgt_bool (percentage data) 100.
Definition overspentBy (data : ChartItem.t) : Q := (rowSpent data - rowLimit data)%Q.

(** [chartData.filter(d => d.value > 0)], the data of the pie chart. *)
Definition pieData (chartData : list ChartItem.t) : list ChartItem.t :=
  List.filter (fun d => Qgt_bool (ChartItem.value d) 0) chartData.

(** *** Objects whose entries are listed

    An object built by a reducer and then listed with [Object.entries]:
    its own keys with their values, in the order of insertion.  Reading a
    key that was never set gives [None] (JavaScript's [undefined]); this
    is so for every key but the names of the properties of
    [Object.prototype], which an object literal inherits. *)

Module Obj.

Section Entries.

Context {V : Type}.

Fixpoint get (o : list (string * V)) (k : string) : option V :=
  match o with
  | [] => None
  | (k', v) :: r => if String.eqb k' k then Some v else get r k
  end.

(** [o[k] = v]: an existing key keeps its place, a new key goes last. *)
Fixpoint set (o : list (string * V)) (k : string) (v : V) : list (string * V) :=
  match o with
  | [] => [(k, v)]
  | (k', v') :: r => if String.eqb k' k then (k', v) :: r else (k', v') :: set r k v
  end.

(** A key is an array index when it is the decimal numeral, without
    leading zeros, of an integer from 0 to [2^32 - 2]. *)
Definition arrayIndex (k : string) : option Z :=
  match k with
  | EmptyString => None
  | String c r =>
      let '(n, _, rest) := read_digits k 0 0%nat in
      if String.eqb rest "" && (negb (Ascii.eqb c "0") || String.eqb r "")
         && (n <=? 4294967294)
      then Some n else None
  end.

Definition isIndex (e : string * V) : bool :=
  match arrayIndex (fst e) with
  | Some _ => true
  | None => false
  end.

Definition indexOf (e : string * V) : Z :=
  match arrayIndex (fst e) with
  | Some n => n
  | None => 0
  end.

Fixpoint insertIndex (x : string * V) (l : list (string * V)) : list (string * V) :=
  match l with
  | [] => [x]
  | y :: r => if indexOf x <=? indexOf y then x :: y :: r else y :: insertIndex x r
  end.

(** [Object.entries(o)]: the array-index keys in ascending numeric order,
    then the other keys in the order of insertion. *)
Definition entries (o : list (string * V)) : list (string * V) :=
  fold_right insertIndex [] (List.filter isIndex o)
  ++ List.filter (fun e => negb (isIndex e)) o.

End Entries.

End Obj.

(** The names of the properties of [Object.prototype]. *)
Definition objectPrototypeNames : list string :=
  ["constructor"; "__defineGetter__"; "__defineSetter__"; "hasOwnProperty";
   "__lookupGetter__"; "__lookupSetter__"; "isPrototypeOf"; "propertyIsEnumerable";
   "toString"; "valueOf"; "__proto__"; "toLocaleString"]%string.

(** *** Expense sources of [OverviewTab] *)

(** [acc[k] || 0] on such an object of numbers. *)
Definition getOr0 (acc : list (string * Q)) (k : string) : Q :=
  match Obj.get acc k with
  | Some q => or0 (Num q)
  | None => 0%Q
  end.

(** The reducer of the expense sources. *)
Definition addSource (acc : list (string * Q)) (exp : Tx.t) : list (string * Q) :=
  if is_type "expense" exp
  then Obj.set acc (Tx.source exp) (getOr0 acc (Tx.source exp) + Tx.amount exp)%Q
  else acc.

(** [insertDesc] and [sortDesc]: [sort(([, a], [, b]) => b - a)].
    [Array.prototype.sort] is stable, and for a comparator that orders the
    elements its result is the one sorted arrangement that keeps equal
    elements in their order; insertion from the right computes it. *)
Fixpoint insertDesc (x : string * Q) (l : list (string * Q)) : list (string * Q) :=
  match l with
  | [] => [x]
  | y :: r => if Qle_bool (snd y) (snd x) then x :: y :: r else y :: insertDesc x r
  end.

Definition sortDesc (l : list (string * Q)) : list (string * Q) :=
  fold_right insertDesc [] l.

(** The rows of the card Expense Sources, each with the name shown
    ([source || 'Unspecified']) and its amount. *)
Definition expenseSources (cycleExpenses : list Tx.t) : list (string * Q) :=
  sortDesc (Obj.entries (fold_left addSource cycleExpenses [])).

Definition sourceShown (row : string * Q) : string := str_or (fst row) "Unspecified".

(** Descending order of the amounts. *)
Definition amountDesc (a b : string * Q) : Prop := (snd b <= snd a)%Q.

(** The amount the transactions of [l] spend from source [k]. *)
Definition sourceTotal (k : string) (l : list Tx.t) : Q :=
  Qsum (List.map Tx.amount (List.filter (fun e => String.eqb (Tx.source e) k) l)).

(** *** The category of a transaction ([categoryMap], [TransactionsTab]) *)

(** [categoryMap]: the object as the map of its own properties.  A key
    that is the name of a property of [Object.prototype] reads that
    property instead; the facts below leave those keys out. *)
Definition categoryMap (categories : list Cat.t) : gmap string Cat.t :=
  fold_left (fun acc cat => <[Cat.id cat := cat]> acc) categories ∅.

(** [categoryName] of a transaction in the history. *)
Definition categoryName (categoryMap : gmap string Cat.t) (t : Tx.t) : string :=
  let isExpense := String.eqb (Tx.type t) "expense" in
  let category := categoryMap !! Tx.categoryId t in
  if isExpense then
    match category with
    | Some c => str_or (Cat.name c) "Uncategorized"
    | None => "Uncategorized"%string
    end
  else "Income"%string.

(** *** The history of [TransactionsTab] *)

(** [WeekDay(t)]: 0 is Sunday. *)
Definition WeekDay (t : Z) : Z := (Day t + 4) mod 7.

Definition weekDayShort (w : Z) : string :=
  match w with
  | 0 => "Sun" | 1 => "Mon" | 2 => "Tue" | 3 => "Wed" | 4 => "Thu" | 5 => "Fri"
  | _ => "Sat"
  end.

(** The numeral of one decimal digit. *)
Definition digitString (d : Z) : string :=
  String (ascii_of_nat (48 + Z.to_nat d)) EmptyString.

(** [ToZeroPaddedDecimalString(n, 2)] and [ToZeroPaddedDecimalString(n, 4)]
    for [n >= 0]. *)
Definition zeroPadded2 (n : Z) : string :=
  if n <? 100 then (digitString (n / 10) +:+ digitString (n mod 10))%string
  else pretty n.

Definition zeroPadded4 (n : Z) : string :=
  if n <? 10000 then
    (digitString (n / 1000) +:+ digitString (n / 100 mod 10) +:+
     digitString (n / 10 mod 10) +:+ digitString (n mod 10))%string
  else pretty n.

(** [d.toDateString()]: week day, month, day of the month and year, as in
    ["Fri Mar 15 2024"]. *)
Definition toDateString (tza d : Z) : string :=
  let t := LocalTime tza d in
  let yv := YearFromTime t in
  (weekDayShort (WeekDay t) +:+ " " +:+ monthShort (MonthFromTime t) +:+ " " +:+
   zeroPadded2 (DateFromTime t) +:+ " " +:+
   (if (yv <? 0)%Z then "-" else "") +:+ zeroPadded4 (Z.abs yv))%string.

(** [insertByTime] and [sortedTransactions]:
    [[...expenses].sort((a, b) => b.timestamp - a.timestamp)], the stable
    sort by descending time. *)
Fixpoint insertByTime (x : Tx.t) (l : list Tx.t) : list Tx.t :=
  match l with
  | [] => [x]
  | y :: r =>
      if Tx.timestamp y <=? Tx.timestamp x then x :: y :: r else y :: insertByTime x r
  end.

Definition sortedTransactions (expenses : list Tx.t) : list Tx.t :=
  fold_right insertByTime [] expenses.

(** The reducer of [groupedTransactions], for a key function [key]: a
    key read for the first time gets an empty array, and the element is
    pushed on the array of its key. *)
Definition addToGroup {A : Type} (key : A -> string) (acc : list (string * list A))
    (transaction : A) : list (string * list A) :=
  let dateKey := key transaction in
  let acc :=
    match Obj.get acc dateKey with
    | Some _ => acc
    | None => Obj.set acc dateKey []
    end in
  match Obj.get acc dateKey with
  | Some group => Obj.set acc dateKey (group ++ [transaction])
  | None => acc
  end.

Definition dateKeyOf (tza : Z) (transaction : Tx.t) : string :=
  toDateString tza (Tx.timestamp transaction).

(** [Object.entries(groupedTransactions)]: the groups of the history, each
    with its date and its transactions. *)
Definition historyGroups (tza : Z) (expenses : list Tx.t) : list (string * list Tx.t) :=
  Obj.entries (fold_left (addToGroup (dateKeyOf tza)) (sortedTransactions expenses) []).

(** The groups [acc] hold the elements of [p], in their order, each group
    under the key of its elements. *)
Definition groupsOf {A : Type} (key : A -> string) (acc : list (string * list A))
    (p : list A) : Prop :=
  concat (List.map snd acc) = p /\
  List.NoDup (List.map fst acc) /\
  (forall k g, In (k, g) acc -> g <> [] /\ forall t, In t g -> key t = k).

(** Every element of [p] with the key of [x] is followed in [p] only by
    elements with that key. *)
Definition runEnds {A : Type} (key : A -> string) (p : list A) (x : A) : Prop :=
  forall p1 t p2, p = p1 ++ t :: p2 -> key t = key x -> forall u, In u p2 -> key u = key x.

(** Descending order of the time stamps. *)
Definition timeDesc (a b : Tx.t) : Prop := Tx.timestamp b <= Tx.timestamp a.

(** *** Tabs, the action button and the modal forms of [App] *)

Module UI.
Record t : Type := mk {
  activeTab : string;
  showFabMenu : bool;
  isModalOpen : bool;
  modalType : option string;
  newExpense : TxForm.t;
  newBudget : TxForm.t;
  newCategory : CatForm.t
}.
End UI.

(** [{ amount: '', categoryId: categories[0]?.id || '', source: '' }]. *)
Definition blankTxForm (categories : list Cat.t) : TxForm.t :=
  {| TxForm.amount := JString "";
     TxForm.categoryId :=
       match categories with
       | c :: _ => str_or (Cat.id c) ""
       | [] => ""%string
       end;
     TxForm.source := "" |}.

Definition blankCatForm : CatForm.t :=
  {| CatForm.name := ""; CatForm.baseLimit := JString "";
     CatForm.baseFrequency := JString "monthly";
     CatForm.color := JString (nth 0 COLORS ""%string);
     CatForm.icon := JString "Tag" |}.

(** The state of a freshly mounted [App]. *)
Definition initialUI : UI.t :=
  {| UI.activeTab := "overview"; UI.showFabMenu := false;
     UI.isModalOpen := false; UI.modalType := None;
     UI.newExpense :=
       {| TxForm.amount := JString ""; TxForm.categoryId := ""; TxForm.source := "" |};
     UI.newBudget :=
       {| TxForm.amount := JString ""; TxForm.categoryId := ""; TxForm.source := "" |};
     UI.newCategory := blankCatForm |}.

(** [handleFabClick()]. *)
Definition handleFabClick (categories : list Cat.t) (s : UI.t) : UI.t :=
  if String.eqb (UI.activeTab s) "overview" then
    {| UI.activeTab := UI.activeTab s; UI.showFabMenu := negb (UI.showFabMenu s);
       UI.isModalOpen := UI.isModalOpen s; UI.modalType := UI.modalType s;
       UI.newExpense := UI.newExpense s; UI.newBudget := UI.newBudget s;
       UI.newCategory := UI.newCategory s |}
  else if String.eqb (UI.activeTab s) "budget" then
    {| UI.activeTab := UI.activeTab s; UI.showFabMenu := UI.showFabMenu s;
       UI.isModalOpen := true; UI.modalType := Some "expense"%string;
       UI.newExpense := blankTxForm categories; UI.newBudget := UI.newBudget s;
       UI.newCategory := UI.newCategory s |}
  else if String.eqb (UI.activeTab s) "manage" then
    {| UI.activeTab := UI.activeTab s; UI.showFabMenu := UI.showFabMenu s;
       UI.isModalOpen := true; UI.modalType := Some "category"%string;
       UI.newExpense := UI.newExpense s; UI.newBudget := UI.newBudget s;
       UI.newCategory := blankCatForm |}
  else s.

(** [handleOpenModal(type)]. *)
Definition handleOpenModal (categories : list Cat.t) (type : string) (s : UI.t) : UI.t :=
  {| UI.activeTab := UI.activeTab s; UI.showFabMenu := false;
     UI.isModalOpen := true; UI.modalType := Some type;
     UI.newExpense :=
       if String.eqb type "budget" then UI.newExpense s
       else if String.eqb type "expense" then blankTxForm categories
       else UI.newExpense s;
     UI.newBudget :=
       if String.eqb type "budget" then blankTxForm categories else UI.newBudget s;
     UI.newCategory := UI.newCategory s |}.

(** [closeModal()]. *)
Definition closeModal (s : UI.t) : UI.t :=
  {| UI.activeTab := UI.activeTab s; UI.showFabMenu := false;
     UI.isModalOpen := false; UI.modalType := None;
     UI.newExpense := UI.newExpense s; UI.newBudget := UI.newBudget s;
     UI.newCategory := UI.newCategory s |}.

(** What a submitted form adds to the store (with a store that is
    connected): a document of the [expenses] collection, or a category,
    read back under the id [id]. *)
Inductive added : Type :=
  | AddedTx (d : Doc.t)
  | AddedCategory (c : Cat.t).

(** [handleModalSubmit(e)]: what is added, and the state afterwards. *)
Definition handleModalSubmit (now : Z) (id : string) (s : UI.t) : option added * UI.t :=
  let write :=
    match UI.modalType s with
    | Some ty =>
        if String.eqb ty "expense" then Some (AddedTx (handleAddExpense (UI.newExpense s) now))
        else if String.eqb ty "budget" then
          Some (AddedTx (handleAddBudgetEntry (UI.newBudget s) now))
        else if String.eqb ty "category" then
          Some (AddedCategory (handleAddCategory id (UI.newCategory s)))
        else None
    | None => None
    end in
  (write, closeModal s).

(** The names of the five [TabButton]s. *)
Definition tabNames : list string :=
  ["overview"; "transactions"; "budget"; "manage"; "analysis"]%string.

(** The calls the rendered page makes. *)
Inductive event : Type :=
  | TabClick (name : string)
  | FabClick
  | MenuClick (type : string)
  | CloseClick
  | Submit (now : Z) (id : string)
  | EditExpense (f : TxForm.t)
  | EditBudget (f : TxForm.t)
  | EditCategory (f : CatForm.t).

Definition step (categories : list Cat.t) (s : UI.t) (ev : event) : UI.t :=
  match ev with
  | TabClick name =>
      {| UI.activeTab := name; UI.showFabMenu := UI.showFabMenu s;
         UI.isModalOpen := UI.isModalOpen s; UI.modalType := UI.modalType s;
         UI.newExpense := UI.newExpense s; UI.newBudget := UI.newBudget s;
         UI.newCategory := UI.newCategory s |}
  | FabClick => handleFabClick categories s
  | MenuClick type => handleOpenModal categories type s
  | CloseClick => closeModal s
  | Submit now id => snd (handleModalSubmit now id s)
  | EditExpense f =>
      {| UI.activeTab := UI.activeTab s; UI.showFabMenu := UI.showFabMenu s;
         UI.isModalOpen := UI.isModalOpen s; UI.modalType := UI.modalType s;
         UI.newExpense := f; UI.newBudget := UI.newBudget s;
         UI.newCategory := UI.newCategory s |}
  | EditBudget f =>
      {| UI.activeTab := UI.activeTab s; UI.showFabMenu := UI.showFabMenu s;
         UI.isModalOpen := UI.isModalOpen s; UI.modalType := UI.modalType s;
         UI.newExpense := UI.newExpense s; UI.newBudget := f;
         UI.newCategory := UI.newCategory s |}
  | EditCategory f =>
      {| UI.activeTab := UI.activeTab s; UI.showFabMenu := UI.showFabMenu s;
         UI.isModalOpen := UI.isModalOpen s; UI.modalType := UI.modalType s;
         UI.newExpense := UI.newExpense s; UI.newBudget := UI.newBudget s;
         UI.newCategory := f |}
  end.

(** The events the page can raise: a tab button carries one of the five
    names, and the two buttons of the menu open the income and the
    expense form. *)
Definition raised (ev : event) : Prop :=
  match ev with
  | TabClick name => In name tabNames
  | MenuClick type => type = "budget"%string \/ type = "expense"%string
  | _ => True
  end.

(** The states reached from [initialUI]. *)
Inductive reachable (categories : list Cat.t) : UI.t -> Prop :=
  | reach_init : reachable categories initialUI
  | reach_step s ev :
      reachable categories s -> raised ev -> reachable categories (step categories s ev).

(** ** The summary on binary64 numbers

    The definitions above take a number to be a rational.  The numbers of
    JavaScript are binary64 and every sum is rounded, so two sums of the
    same amounts formed in different groupings can differ in the last
    place.  [Binary64] has the reducers of the [summary] memo on binary64
    numbers, for the inputs on which that decides.  A category holds a
    number as [baseLimit], as the listener of the store leaves it
    ([parseFloat] gives a number back as it is), and the keys are taken
    not to be names of properties of [Object.prototype]. *)

Module Binary64.

Module Tx.
Record t : Type := mk {
  categoryId : string;
  amount : float
}.
End Tx.

Module Cat.
Record t : Type := mk {
  id : string;
  baseLimit : float;
  baseFrequency : value
}.
End Cat.

Module ChartItem.
Record t : Type := mk {
  id : string;
  value : float;
  budgetLimit : float
}.
End ChartItem.

(** [x || 0]: the zeros and [NaN] are falsy. *)
Definition or0 (x : float) : float :=
  if (x =? 0)%float || is_nan x then 0%float else x.

Definition calculateCycleBudget (baseLimit : float) (baseFrequency : value)
    (cycleMonths : float) : float :=
  let limit := or0 baseLimit in
  if (limit <=? 0)%float then 0%float
  else if strict_eq_string baseFrequency "daily" then
    (limit * cycleMonths * 30.4375)%float
  else if strict_eq_string baseFrequency "monthly" then
    (limit * cycleMonths)%float
  else if strict_eq_string baseFrequency "bimonthly" then
    (limit * (cycleMonths / 2))%float
  else (limit * cycleMonths)%float.

(** [reduce((sum, entry) => sum + entry.amount, 0)]. *)
Definition sumAmounts (l : list Tx.t) : float :=
  fold_left (fun sum entry => (sum + Tx.amount entry)%float) l 0%float.

Definition lookupOr0 (m : gmap string float) (k : string) : float :=
  match m !! k with
  | Some x => or0 x
  | None => 0%float
  end.

Definition addExpense (acc : gmap string float) (expense : Tx.t) : gmap string float :=
  let categoryId := Tx.categoryId expense in
  <[categoryId := (lookupOr0 acc categoryId + Tx.amount expense)%float]> acc.

Definition expenseByCategoryOf (cycleExpenses : list Tx.t) : gmap string float :=
  fold_left addExpense cycleExpenses ∅.

Definition chartItem (expenseByCategory : gmap string float) (cycleMonths : float)
    (cat : Cat.t) : ChartItem.t :=
  {| ChartItem.id := Cat.id cat;
     ChartItem.value := lookupOr0 expenseByCategory (Cat.id cat);
     ChartItem.budgetLimit :=
       calculateCycleBudget (Cat.baseLimit cat) (Cat.baseFrequency cat) cycleMonths |}.

Definition keepItem (item : ChartItem.t) : bool :=
  (0 <? ChartItem.value item)%float || (0 <? ChartItem.budgetLimit item)%float.

(** [totalExpenses] and [chartData] of the memo, from the categories, the
    expenses of the current cycle and the cycle length
    [settings.cycleMonths || 1]. *)
Definition totalExpenses (cycleExpenses : list Tx.t) : float := sumAmounts cycleExpenses.

Definition chartData (categories : list Cat.t) (cycleExpenses : list Tx.t)
    (cycleMonths : float) : list ChartItem.t :=
  List.filter keepItem
    (List.map (chartItem (expenseByCategoryOf cycleExpenses) cycleMonths) categories).

(** [percentage] of a row of [ExpensesTab]. *)
Definition percentage (data : ChartItem.t) : float :=
  let spent := or0 (ChartItem.value data) in
  let limit := or0 (ChartItem.budgetLimit data) in
  if (0 <? limit)%float then (spent / limit * 100)%float else 0%float.

End Binary64.

(** ** Facts about the calendar *)

Lemma DayFromYear_succ y : DayFromYear (y + 1) = DayFromYear y + DaysInYear y.
Proof.
  unfold DayFromYear, DaysInYear, isLeap.
  destruct (y mod 4 =? 0) eqn:E4; destruct (y mod 100 =? 0) eqn:E100;
    destruct (y mod 400 =? 0) eqn:E400; simpl;
    rewrite ?Z.eqb_eq, ?Z.eqb_neq in *;
    Z.div_mod_to_equations; lia.
Qed.

Lemma YearFromDay_spec d :
  DayFromYear (YearFromDay d) <= d < DayFromYear (YearFromDay d + 1).
Proof.
  unfold YearFromDay.
  destruct (Z.ltb_spec d (DayFromYear (1970 + 400 * d / 146097))) as [H1|H1].
  - replace (1970 + 400 * d / 146097 - 1 + 1) with (1970 + 400 * d / 146097) by lia.
    split; [|lia]. revert H1. unfold DayFromYear. Z.div_mod_to_equations. lia.
  - destruct (Z.leb_spec (DayFromYear (1970 + 400 * d / 146097 + 1)) d) as [H2|H2].
    + split; [lia|]. revert H1 H2. unfold DayFromYear. Z.div_mod_to_equations. lia.
    + lia.
Qed.

Lemma DaysInYear_pos y : 365 <= DaysInYear y <= 366.
Proof. unfold DaysInYear. destruct (isLeap y); lia. Qed.

Lemma DayFromYear_mono y1 y2 : y1 <= y2 -> DayFromYear y1 <= DayFromYear y2.
Proof. unfold DayFromYear. intros H. Z.div_mod_to_equations. lia. Qed.

Lemma YearFromDay_unique d y :
  DayFromYear y <= d < DayFromYear (y + 1) -> YearFromDay d = y.
Proof.
  intros [Hlo Hhi]. destruct (YearFromDay_spec d) as [Slo Shi].
  destruct (Z.lt_trichotomy (YearFromDay d) y) as [Hlt|[Heq|Hgt]]; [|exact Heq|].
  - pose proof (DayFromYear_mono (YearFromDay d + 1) y ltac:(lia)). lia.
  - pose proof (DayFromYear_mono (y + 1) (YearFromDay d) ltac:(lia)). lia.
Qed.

Lemma leapDays_DaysInYear y : DaysInYear y = 365 + leapDays y.
Proof. unfold DaysInYear, leapDays. destruct (isLeap y); reflexivity. Qed.

Lemma leapDays_range y : 0 <= leapDays y <= 1.
Proof. unfold leapDays. destruct (isLeap y); lia. Qed.

Lemma firstOfMonth_eq k :
  firstOfMonth k = DayFromYear (k / 12) + monthStart (k mod 12) (leapDays (k / 12)).
Proof. unfold firstOfMonth, MakeDay. rewrite Z.add_0_l. lia. Qed.

Lemma MakeDay_firstOfMonth y m d : MakeDay y m d = firstOfMonth (12 * y + m) + d - 1.
Proof.
  rewrite firstOfMonth_eq. unfold MakeDay.
  replace ((12 * y + m) / 12) with (y + m / 12) by (Z.div_mod_to_equations; lia).
  replace ((12 * y + m) mod 12) with (m mod 12) by (Z.div_mod_to_equations; lia).
  lia.
Qed.

(** Case analysis on a month number in 0..11. *)
Lemma month_cases m :
  0 <= m < 12 ->
  m = 0 \/ m = 1 \/ m = 2 \/ m = 3 \/ m = 4 \/ m = 5 \/ m = 6 \/ m = 7 \/
  m = 8 \/ m = 9 \/ m = 10 \/ m = 11.
Proof. lia. Qed.

Ltac each_month H :=
  destruct (month_cases _ H) as
    [?|[?|[?|[?|[?|[?|[?|[?|[?|[?|[?|?]]]]]]]]]]]; subst.

Ltac split_ltb :=
  repeat match goal with
         | |- context [?a <? ?b] => destruct (Z.ltb_spec a b)
         end.

Lemma daysInMonth_range k : 28 <= daysInMonth k <= 31.
Proof.
  unfold daysInMonth. rewrite !firstOfMonth_eq.
  assert (Hm : 0 <= k mod 12 < 12) by (apply Z.mod_pos_bound; lia).
  destruct (Z.eq_dec (k mod 12) 11) as [E|E].
  - replace ((k + 1) / 12) with (k / 12 + 1) by (Z.div_mod_to_equations; lia).
    replace ((k + 1) mod 12) with 0 by (Z.div_mod_to_equations; lia).
    rewrite E, DayFromYear_succ, leapDays_DaysInYear. simpl.
    pose proof (leapDays_range (k / 12)). lia.
  - replace ((k + 1) / 12) with (k / 12) by (Z.div_mod_to_equations; lia).
    replace ((k + 1) mod 12) with (k mod 12 + 1) by (Z.div_mod_to_equations; lia).
    pose proof (leapDays_range (k / 12)).
    remember (k mod 12) as m. clear Heqm.
    each_month Hm; simpl; lia.
Qed.

Lemma firstOfMonth_succ k : firstOfMonth (k + 1) = firstOfMonth k + daysInMonth k.
Proof. unfold daysInMonth. lia. Qed.

Lemma firstOfMonth_lt k1 k2 : k1 < k2 -> firstOfMonth k1 < firstOfMonth k2.
Proof.
  intros H. replace k2 with (k1 + 1 + (k2 - k1 - 1)) by lia.
  assert (Hn : 0 <= k2 - k1 - 1) by lia. revert Hn.
  generalize (k2 - k1 - 1). clear H k2.
  apply (natlike_ind (fun n => firstOfMonth k1 < firstOfMonth (k1 + 1 + n))).
  - rewrite Z.add_0_r. pose proof (daysInMonth_range k1).
    rewrite firstOfMonth_succ. lia.
  - intros n Hn IH. replace (k1 + 1 + Z.succ n) with (k1 + 1 + n + 1) by lia.
    rewrite firstOfMonth_succ. pose proof (daysInMonth_range (k1 + 1 + n)). lia.
Qed.

Lemma firstOfMonth_le k1 k2 : k1 <= k2 -> firstOfMonth k1 <= firstOfMonth k2.
Proof.
  intros H. destruct (Z.eq_dec k1 k2) as [->|N]; [lia|].
  pose proof (firstOfMonth_lt k1 k2 ltac:(lia)). lia.
Qed.

(** The month of a time holds its day: the decoding functions invert
    [firstOfMonth]. *)
Lemma monthIndex_spec t :
  firstOfMonth (monthIndex t) <= Day t < firstOfMonth (monthIndex t + 1).
Proof.
  unfold monthIndex, MonthFromTime, DayWithinYear, YearFromTime.
  destruct (YearFromDay_spec (Day t)) as [Hlo Hhi].
  set (y := YearFromDay (Day t)) in *.
  rewrite DayFromYear_succ, leapDays_DaysInYear in Hhi.
  pose proof (leapDays_range y) as Hl.
  set (l := leapDays y) in *.
  set (d := Day t - DayFromYear y) in *.
  assert (Hd : 0 <= d < 365 + l) by (unfold d; lia).
  assert (Hm : 0 <= monthOfYearDay d l < 12).
  { unfold monthOfYearDay. split_ltb; lia. }
  rewrite !firstOfMonth_eq.
  replace ((12 * y + monthOfYearDay d l) / 12) with y by (Z.div_mod_to_equations; lia).
  replace ((12 * y + monthOfYearDay d l) mod 12) with (monthOfYearDay d l)
    by (Z.div_mod_to_equations; lia).
  fold l.
  destruct (Z.eq_dec (monthOfYearDay d l) 11) as [E|E].
  - replace ((12 * y + monthOfYearDay d l + 1) / 12) with (y + 1)
      by (Z.div_mod_to_equations; lia).
    replace ((12 * y + monthOfYearDay d l + 1) mod 12) with 0
      by (Z.div_mod_to_equations; lia).
    rewrite E, DayFromYear_succ, leapDays_DaysInYear. fold l. simpl.
    revert E. unfold monthOfYearDay.
    split_ltb; lia.
  - replace ((12 * y + monthOfYearDay d l + 1) / 12) with y
      by (Z.div_mod_to_equations; lia).
    replace ((12 * y + monthOfYearDay d l + 1) mod 12) with (monthOfYearDay d l + 1)
      by (Z.div_mod_to_equations; lia).
    fold l. revert E Hm. unfold monthOfYearDay.
    split_ltb; simpl; lia.
Qed.

Lemma monthIndex_unique t k :
  firstOfMonth k <= Day t < firstOfMonth (k + 1) -> monthIndex t = k.
Proof.
  intros [Hlo Hhi]. destruct (monthIndex_spec t) as [Slo Shi].
  destruct (Z.lt_trichotomy (monthIndex t) k) as [Hlt|[Heq|Hgt]]; [|exact Heq|].
  - pose proof (firstOfMonth_le (monthIndex t + 1) k ltac:(lia)). lia.
  - pose proof (firstOfMonth_le (k + 1) (monthIndex t) ltac:(lia)). lia.
Qed.

Lemma MonthFromTime_range t : 0 <= MonthFromTime t < 12.
Proof.
  unfold MonthFromTime, monthOfYearDay.
  split_ltb; lia.
Qed.

Lemma DateFromTime_eq t : DateFromTime t = Day t - firstOfMonth (monthIndex t) + 1.
Proof.
  unfold DateFromTime, DayWithinYear. rewrite firstOfMonth_eq. unfold monthIndex.
  pose proof (MonthFromTime_range t).
  replace ((12 * YearFromTime t + MonthFromTime t) / 12) with (YearFromTime t)
    by (Z.div_mod_to_equations; lia).
  replace ((12 * YearFromTime t + MonthFromTime t) mod 12) with (MonthFromTime t)
    by (Z.div_mod_to_equations; lia).
  lia.
Qed.

(** ** Facts about numbers *)

Lemma Qgt_bool_true a b : Qgt_bool a b = true <-> (b < a)%Q.
Proof.
  unfold Qgt_bool. rewrite negb_true_iff. split; intros H.
  - apply Qnot_le_lt. intros Hle. apply Qle_bool_iff in Hle. congruence.
  - destruct (Qle_bool a b) eqn:E; [|reflexivity].
    apply Qle_bool_iff in E. exfalso. apply (Qlt_not_le _ _ H E).
Qed.

Lemma Qgt_bool_false a b : Qgt_bool a b = false <-> (a <= b)%Q.
Proof.
  unfold Qgt_bool. rewrite negb_false_iff. apply Qle_bool_iff.
Qed.

Lemma or0_NaN : or0 NaN = 0%Q.
Proof. reflexivity. Qed.

Lemma or0_Num q : (or0 (Num q) == q)%Q.
Proof.
  unfold or0, num_or, truthy_number.
  destruct (Qeq_bool q 0) eqn:E; simpl; [|reflexivity].
  apply Qeq_bool_iff in E. symmetry. exact E.
Qed.

Lemma or0_num_or_NaN n : or0 (num_or NaN n) = or0 n.
Proof. reflexivity. Qed.

Lemma or0_nonzero q : ~ (q == 0)%Q -> or0 (Num q) = q.
Proof.
  intros H. unfold or0, num_or, truthy_number.
  destruct (Qeq_bool q 0) eqn:E; simpl; [|reflexivity].
  apply Qeq_bool_iff in E. contradiction.
Qed.

Lemma strict_eq_string_true v lit : strict_eq_string v lit = true <-> v = JString lit.
Proof.
  destruct v; simpl; try (split; [discriminate|discriminate]).
  rewrite String.eqb_eq. split; [intros ->; reflexivity|intros [= ->]; reflexivity].
Qed.

Lemma strict_eq_string_false v lit : strict_eq_string v lit = false <-> v <> JString lit.
Proof.
  rewrite <- strict_eq_string_true. destruct (strict_eq_string v lit); split; congruence.
Qed.

(** ** The frequency normaliser *)

Lemma calculateCycleBudget_zero baseLimit baseFrequency cycleMonths :
  (or0 (parseFloat baseLimit) <= 0)%Q ->
  calculateCycleBudget baseLimit baseFrequency cycleMonths = 0%Q.
Proof.
  intros H. unfold calculateCycleBudget. apply Qle_bool_iff in H. rewrite H. reflexivity.
Qed.

Lemma calculateCycleBudget_pos baseLimit baseFrequency cycleMonths :
  (0 < or0 (parseFloat baseLimit))%Q ->
  calculateCycleBudget baseLimit baseFrequency cycleMonths =
    let limit := or0 (parseFloat baseLimit) in
    if strict_eq_string baseFrequency "daily" then
      (limit * cycleMonths * AVG_DAYS_PER_MONTH)%Q
    else if strict_eq_string baseFrequency "bimonthly" then
      (limit * (cycleMonths / 2))%Q
    else (limit * cycleMonths)%Q.
Proof.
  intros H. unfold calculateCycleBudget.
  destruct (Qle_bool (or0 (parseFloat baseLimit)) 0) eqn:E.
  - apply Qle_bool_iff in E. exfalso. apply (Qlt_not_le _ _ H E).
  - simpl. destruct (strict_eq_string baseFrequency "daily"); [reflexivity|].
    destruct (strict_eq_string baseFrequency "monthly") eqn:Em; [|reflexivity].
    apply strict_eq_string_true in Em. subst. reflexivity.
Qed.

Lemma calculateCycleBudget_nonneg baseLimit baseFrequency cycleMonths :
  (0 <= cycleMonths)%Q ->
  (0 <= calculateCycleBudget baseLimit baseFrequency cycleMonths)%Q.
Proof.
  intros Hc.
  destruct (Qlt_le_dec 0 (or0 (parseFloat baseLimit))) as [Hp|Hp].
  - rewrite (calculateCycleBudget_pos _ _ _ Hp). cbv zeta.
    set (limit := or0 (parseFloat baseLimit)) in *.
    assert (Hlc : (0 <= limit * cycleMonths)%Q)
      by (apply Qmult_le_0_compat; [apply Qlt_le_weak; exact Hp|exact Hc]).
    destruct (strict_eq_string baseFrequency "daily");
      [|destruct (strict_eq_string baseFrequency "bimonthly")].
    + apply Qmult_le_0_compat; [exact Hlc|]. unfold AVG_DAYS_PER_MONTH. lra.
    + assert (E : (limit * (cycleMonths / 2) == limit * cycleMonths / 2)%Q) by field.
      rewrite E. apply Qmult_le_0_compat; [exact Hlc|]. discriminate.
    + exact Hlc.
  - rewrite (calculateCycleBudget_zero _ _ _ Hp). lra.
Qed.

(** C1, as it holds of the code: [calculateCycleBudget] is the piecewise function of
    the parsed limit: 0 when the limit parses to [NaN] or to a number
    [<= 0]; for a limit [p > 0], [p * cycleMonths] for ['monthly'],
    [p * (cycleMonths / 2)] for ['bimonthly'],
    [p * cycleMonths * 30.4375] for ['daily'] and the monthly formula for
    any other frequency.  It is a total function, and its result is not
    negative whenever [cycleMonths] is not negative. *)
Theorem calculateCycleBudget_piecewise
    (baseLimit baseFrequency : value) (cycleMonths : Q) :
  let r := calculateCycleBudget baseLimit baseFrequency cycleMonths in
  (parseFloat baseLimit = NaN -> r == 0)%Q /\
  (forall p, parseFloat baseLimit = Num p -> p <= 0 -> r == 0)%Q /\
  (forall p, parseFloat baseLimit = Num p -> 0 < p ->
     (baseFrequency = JString "monthly" -> r == p * cycleMonths) /\
     (baseFrequency = JString "bimonthly" -> r == p * (cycleMonths / 2)) /\
     (baseFrequency = JString "daily" -> r == p * cycleMonths * (304375 # 10000)) /\
     (baseFrequency <> JString "bimonthly" -> baseFrequency <> JString "daily" ->
        r == p * cycleMonths))%Q /\
  (0 <= cycleMonths -> 0 <= r)%Q.
Proof.
  intros r. unfold r. repeat split.
  - intros E. rewrite calculateCycleBudget_zero; [reflexivity|].
    rewrite E, or0_NaN. lra.
  - intros p E Hp. rewrite calculateCycleBudget_zero; [reflexivity|].
    rewrite E, or0_Num. exact Hp.
  - intros ->. rewrite calculateCycleBudget_pos by (rewrite H, or0_Num; exact H0).
    simpl. rewrite H, or0_Num. reflexivity.
  - intros ->. rewrite calculateCycleBudget_pos by (rewrite H, or0_Num; exact H0).
    simpl. rewrite H, or0_Num. reflexivity.
  - intros ->. rewrite calculateCycleBudget_pos by (rewrite H, or0_Num; exact H0).
    simpl. rewrite H, or0_Num. reflexivity.
  - intros Nb Nd. rewrite calculateCycleBudget_pos by (rewrite H, or0_Num; exact H0).
    cbv zeta. apply strict_eq_string_false in Nb, Nd. rewrite Nb, Nd.
    rewrite H, or0_Num. reflexivity.
  - apply calculateCycleBudget_nonneg.
Qed.

(** ** Facts about [Date] objects *)

Lemma TimeWithinDay_range t : 0 <= TimeWithinDay t < msPerDay.
Proof. unfold TimeWithinDay. apply Z.mod_pos_bound. reflexivity. Qed.

Lemma MakeDate_Day t : MakeDate (Day t) (TimeWithinDay t) = t.
Proof.
  unfold MakeDate, Day, TimeWithinDay, msPerDay. Z.div_mod_to_equations. lia.
Qed.

Lemma Day_MakeDate d tm : 0 <= tm < msPerDay -> Day (MakeDate d tm) = d.
Proof.
  unfold MakeDate, Day, msPerDay. intros H. Z.div_mod_to_equations. lia.
Qed.

Lemma TimeWithinDay_MakeDate d tm : 0 <= tm < msPerDay -> TimeWithinDay (MakeDate d tm) = tm.
Proof.
  unfold MakeDate, TimeWithinDay, msPerDay. intros H. Z.div_mod_to_equations. lia.
Qed.

Lemma MakeDate_le d1 d2 t1 t2 :
  d1 <= d2 -> 0 <= t1 < msPerDay -> 0 <= t2 < msPerDay ->
  (d1 < d2 \/ t1 <= t2) -> MakeDate d1 t1 <= MakeDate d2 t2.
Proof. unfold MakeDate, msPerDay. nia. Qed.

Lemma MakeDate_lt d1 d2 t1 t2 :
  d1 < d2 -> 0 <= t1 < msPerDay -> 0 <= t2 < msPerDay -> MakeDate d1 t1 < MakeDate d2 t2.
Proof. unfold MakeDate, msPerDay. nia. Qed.

Lemma year_month_of_index t :
  YearFromTime t = monthIndex t / 12 /\ MonthFromTime t = monthIndex t mod 12.
Proof.
  unfold monthIndex. pose proof (MonthFromTime_range t).
  split; Z.div_mod_to_equations; lia.
Qed.

(** A day that is day [d] of month [k] decodes to [k] and [d]. *)
Lemma decode_day t k d :
  Day t = firstOfMonth k + d - 1 -> 1 <= d <= daysInMonth k ->
  monthIndex t = k /\ DateFromTime t = d.
Proof.
  intros E Hd.
  assert (Hk : monthIndex t = k).
  { apply monthIndex_unique. rewrite firstOfMonth_succ. lia. }
  split; [exact Hk|]. rewrite DateFromTime_eq, Hk. lia.
Qed.

(** A day at or after the first of month [k] lies in month [k] or later. *)
Lemma monthIndex_ge t k : firstOfMonth k <= Day t -> k <= monthIndex t.
Proof.
  intros H. destruct (monthIndex_spec t) as [_ Shi].
  destruct (Z_lt_le_dec (monthIndex t) k) as [Hlt|Hge]; [|exact Hge].
  pose proof (firstOfMonth_le (monthIndex t + 1) k ltac:(lia)). lia.
Qed.

Lemma DateFromTime_range t : 1 <= DateFromTime t <= daysInMonth (monthIndex t).
Proof.
  rewrite DateFromTime_eq. destruct (monthIndex_spec t) as [Slo Shi].
  rewrite firstOfMonth_succ in Shi. lia.
Qed.

Lemma MakeDay_of_time t m d :
  MakeDay (YearFromTime t) m d = firstOfMonth (monthIndex t - MonthFromTime t + m) + d - 1.
Proof. rewrite MakeDay_firstOfMonth. unfold monthIndex. f_equal. f_equal. f_equal. lia. Qed.

Section DateFacts.

Variable tza : Z.

Lemma LocalTime_UTC x : LocalTime tza (UTC tza x) = x.
Proof. unfold LocalTime, UTC. lia. Qed.

Lemma fullYear_id y : 100 <= y -> fullYear y = y.
Proof.
  intros H. unfold fullYear.
  destruct (Z.leb_spec 0 y); destruct (Z.leb_spec y 99); simpl; lia.
Qed.

Lemma LocalTime_newDate y m d :
  100 <= y ->
  LocalTime tza (newDate tza y m d) = MakeDate (firstOfMonth (12 * y + m) + d - 1) 0.
Proof.
  intros H. unfold newDate. rewrite LocalTime_UTC, fullYear_id by exact H.
  rewrite MakeDay_firstOfMonth. reflexivity.
Qed.

Lemma LocalTime_setMonth x m :
  LocalTime tza (setMonth tza x m) =
    MakeDate (firstOfMonth (localMonthIndex tza x - getMonth tza x + m) + getDate tza x - 1)
             (getTimeOfDay tza x).
Proof.
  unfold setMonth. cbv zeta. rewrite LocalTime_UTC, MakeDay_of_time. reflexivity.
Qed.

Lemma LocalTime_setDate x d :
  LocalTime tza (setDate tza x d) =
    MakeDate (firstOfMonth (localMonthIndex tza x) + d - 1) (getTimeOfDay tza x).
Proof.
  unfold setDate. cbv zeta. rewrite LocalTime_UTC, MakeDay_of_time.
  unfold localMonthIndex, getFullYear, getMonth, getTimeOfDay, monthIndex.
  replace (12 * YearFromTime (LocalTime tza x) + MonthFromTime (LocalTime tza x)
           - MonthFromTime (LocalTime tza x) + MonthFromTime (LocalTime tza x))
    with (12 * YearFromTime (LocalTime tza x) + MonthFromTime (LocalTime tza x)) by lia.
  reflexivity.
Qed.

(** The fields of a date that is local midnight on day [d] of month [k]. *)
Lemma fields_of_day x k d :
  LocalTime tza x = MakeDate (firstOfMonth k + d - 1) 0 ->
  1 <= d <= daysInMonth k ->
  localMonthIndex tza x = k /\ getDate tza x = d /\ getTimeOfDay tza x = 0 /\
  getFullYear tza x = k / 12 /\ getMonth tza x = k mod 12.
Proof.
  intros E Hd.
  assert (Hday : Day (LocalTime tza x) = firstOfMonth k + d - 1)
    by (rewrite E; apply Day_MakeDate; unfold msPerDay; lia).
  destruct (decode_day _ _ _ Hday Hd) as [Hk Hdate].
  destruct (year_month_of_index (LocalTime tza x)) as [Hy Hm].
  unfold localMonthIndex, getDate, getTimeOfDay, getFullYear, getMonth.
  fold (monthIndex (LocalTime tza x)).
  rewrite Hy, Hm, Hk, Hdate, E.
  rewrite TimeWithinDay_MakeDate by (unfold msPerDay; lia).
  repeat split; reflexivity.
Qed.

Lemma fields_of_first x k :
  LocalTime tza x = MakeDate (firstOfMonth k) 0 ->
  localMonthIndex tza x = k /\ getDate tza x = 1 /\ getTimeOfDay tza x = 0 /\
  getFullYear tza x = k / 12 /\ getMonth tza x = k mod 12.
Proof.
  intros E. apply fields_of_day.
  - rewrite E. f_equal. lia.
  - pose proof (daysInMonth_range k). lia.
Qed.

Lemma getMonth_range x : 0 <= getMonth tza x < 12.
Proof. apply MonthFromTime_range. Qed.

Lemma getDate_range x : 1 <= getDate tza x <= daysInMonth (localMonthIndex tza x).
Proof. apply DateFromTime_range. Qed.

(** Setting the month of a first-of-month midnight gives the first of the
    month [m] of the same year, at midnight. *)
Lemma setMonth_of_first x k m :
  LocalTime tza x = MakeDate (firstOfMonth k) 0 ->
  LocalTime tza (setMonth tza x m) = MakeDate (firstOfMonth (k - k mod 12 + m)) 0.
Proof.
  intros E. destruct (fields_of_first x k E) as (Hk & Hd & Ht & _ & Hm).
  rewrite LocalTime_setMonth, Hk, Hd, Ht, Hm. f_equal. lia.
Qed.

Lemma setDate_of_first x k :
  LocalTime tza x = MakeDate (firstOfMonth k) 0 ->
  LocalTime tza (setDate tza x 1) = MakeDate (firstOfMonth k) 0.
Proof.
  intros E. destruct (fields_of_first x k E) as (Hk & Hd & Ht & _ & Hm).
  rewrite LocalTime_setDate, Hk, Ht. f_equal. lia.
Qed.

Lemma newDate_first_of_now now :
  100 <= getFullYear tza now ->
  LocalTime tza (newDate tza (getFullYear tza now) (getMonth tza now) 1) =
    MakeDate (firstOfMonth (localMonthIndex tza now)) 0.
Proof.
  intros H. rewrite LocalTime_newDate by exact H. unfold localMonthIndex. f_equal. lia.
Qed.

(** The start of the cycle in local time. *)
Lemma LocalTime_startOfCycle now cycleMonths :
  100 <= getFullYear tza now ->
  LocalTime tza (startOfCycle tza now cycleMonths) =
    MakeDate (firstOfMonth (localMonthIndex tza now - (cycleMonths - 1))) 0.
Proof.
  intros H. unfold startOfCycle. cbv zeta.
  apply setDate_of_first.
  rewrite (setMonth_of_first _ _ _ (newDate_first_of_now now H)).
  f_equal. f_equal. unfold localMonthIndex at 2.
  pose proof (getMonth_range now).
  replace ((12 * getFullYear tza now + getMonth tza now) mod 12) with (getMonth tza now)
    by (Z.div_mod_to_equations; lia).
  unfold localMonthIndex. lia.
Qed.

Lemma local_order x y : x <= y <-> LocalTime tza x <= LocalTime tza y.
Proof. unfold LocalTime. lia. Qed.

Lemma localMonthIndex_eq x : localMonthIndex tza x = monthIndex (LocalTime tza x).
Proof. reflexivity. Qed.

Lemma local_lt x y : LocalTime tza x < LocalTime tza y -> x < y.
Proof. unfold LocalTime. lia. Qed.

Lemma first_of_own_month_le now :
  MakeDate (firstOfMonth (localMonthIndex tza now)) 0 <= LocalTime tza now.
Proof.
  destruct (monthIndex_spec (LocalTime tza now)) as [Slo _].
  pose proof (TimeWithinDay_range (LocalTime tza now)) as Ht.
  pose proof (MakeDate_Day (LocalTime tza now)) as E.
  rewrite <- E.
  apply MakeDate_le; [exact Slo|unfold msPerDay; lia|exact Ht|right; lia].
Qed.

(** The cycle start is never after the clock reading it is taken from. *)
Lemma startOfCycle_le_now now cycleMonths :
  100 <= getFullYear tza now -> 1 <= cycleMonths ->
  startOfCycle tza now cycleMonths <= now.
Proof.
  intros Hy Hc. apply local_order. rewrite LocalTime_startOfCycle by exact Hy.
  etransitivity; [|apply first_of_own_month_le].
  apply MakeDate_le; unfold msPerDay; try lia.
  apply firstOfMonth_le. lia.
Qed.

End DateFacts.

(** C3: for every clock reading [now] and every [cycleMonths >= 1],
    [startOfCycle] is the first day of a month at local midnight, and that
    month is the month of [now] stepped back by [cycleMonths - 1] whole
    calendar months.  ([now] is a reading of the clock, so its year is not
    one of the years 0 to 99 that the [Date] constructor remaps.) *)
Theorem startOfCycle_first_of_month (tza now cycleMonths : Z) :
  100 <= getFullYear tza now ->
  1 <= cycleMonths ->
  let start := startOfCycle tza now cycleMonths in
  getDate tza start = 1 /\
  getTimeOfDay tza start = 0 /\
  localMonthIndex tza start = localMonthIndex tza now - (cycleMonths - 1) /\
  start <= now.
Proof.
  intros Hy Hc start.
  destruct (fields_of_first tza start _ (LocalTime_startOfCycle tza now cycleMonths Hy))
    as (Hk & Hd & Ht & _).
  repeat split; try assumption.
  apply startOfCycle_le_now; assumption.
Qed.

(** ** The cycle-comparison series *)

Section CycleWindows.

Variable tza : Z.
Variable now : Z.
Variable cycleMonths : Z.
Hypothesis Hyear : 100 <= getFullYear tza now.

Lemma LocalTime_cycleStartDate i :
  LocalTime tza (cycleStartDate tza now cycleMonths i) =
    MakeDate (firstOfMonth (localMonthIndex tza now - ((i + 1) * cycleMonths - 1))) 0.
Proof.
  unfold cycleStartDate. cbv zeta.
  rewrite (setMonth_of_first _ _ _ _ (newDate_first_of_now tza now Hyear)).
  f_equal. f_equal. unfold localMonthIndex.
  pose proof (getMonth_range tza now).
  replace ((12 * getFullYear tza now + getMonth tza now) mod 12) with (getMonth tza now)
    by (Z.div_mod_to_equations; lia).
  lia.
Qed.

Lemma LocalTime_cycleEndDate i :
  LocalTime tza (cycleEndDate tza now cycleMonths i) =
    MakeDate (firstOfMonth (localMonthIndex tza now - i * cycleMonths) + getDate tza now - 1) 0.
Proof.
  unfold cycleEndDate. cbv zeta.
  assert (E : LocalTime tza (newDate tza (getFullYear tza now) (getMonth tza now) (getDate tza now))
              = MakeDate (firstOfMonth (localMonthIndex tza now) + getDate tza now - 1) 0).
  { rewrite LocalTime_newDate by exact Hyear. reflexivity. }
  destruct (fields_of_day tza _ _ _ E (getDate_range tza now)) as (Hk & Hd & Ht & _ & Hm).
  rewrite LocalTime_setMonth, Hk, Hd, Ht, Hm.
  pose proof (getMonth_range tza now).
  replace ((localMonthIndex tza now) mod 12) with (getMonth tza now)
    by (unfold localMonthIndex; Z.div_mod_to_equations; lia).
  do 2 f_equal. f_equal. f_equal. lia.
Qed.

Lemma cycleStartDate_fields i :
  getDate tza (cycleStartDate tza now cycleMonths i) = 1 /\
  getTimeOfDay tza (cycleStartDate tza now cycleMonths i) = 0 /\
  localMonthIndex tza (cycleStartDate tza now cycleMonths i) =
    localMonthIndex tza now - ((i + 1) * cycleMonths - 1).
Proof.
  destruct (fields_of_first tza _ _ (LocalTime_cycleStartDate i)) as (Hk & Hd & Ht & _).
  repeat split; assumption.
Qed.

Lemma cycleEndDate_day i :
  getTimeOfDay tza (cycleEndDate tza now cycleMonths i) = 0 /\
  Day (LocalTime tza (cycleEndDate tza now cycleMonths i)) =
    firstOfMonth (localMonthIndex tza now - i * cycleMonths) + getDate tza now - 1.
Proof.
  unfold getTimeOfDay. rewrite LocalTime_cycleEndDate.
  rewrite TimeWithinDay_MakeDate, Day_MakeDate by (unfold msPerDay; lia).
  split; reflexivity.
Qed.

Lemma cycleEndDate_fields i :
  getDate tza now <= daysInMonth (localMonthIndex tza now - i * cycleMonths) ->
  localMonthIndex tza (cycleEndDate tza now cycleMonths i) =
    localMonthIndex tza now - i * cycleMonths /\
  getDate tza (cycleEndDate tza now cycleMonths i) = getDate tza now.
Proof.
  intros Hd. pose proof (getDate_range tza now) as Hr.
  destruct (fields_of_day tza _ _ _ (LocalTime_cycleEndDate i) ltac:(lia)) as (Hk & Hdt & _).
  split; assumption.
Qed.

Lemma cycleStartDate_decreasing i :
  1 <= cycleMonths -> 0 <= i ->
  cycleStartDate tza now cycleMonths (i + 1) < cycleStartDate tza now cycleMonths i.
Proof.
  intros Hc Hi.
  apply (local_lt tza). rewrite !LocalTime_cycleStartDate.
  apply MakeDate_lt; unfold msPerDay; try lia.
  apply firstOfMonth_lt. generalize (localMonthIndex tza now). intros K. nia.
Qed.

Lemma cycleEndDate_decreasing i :
  1 <= cycleMonths -> 0 <= i ->
  cycleEndDate tza now cycleMonths (i + 1) < cycleEndDate tza now cycleMonths i.
Proof.
  intros Hc Hi.
  apply (local_lt tza). rewrite !LocalTime_cycleEndDate.
  apply MakeDate_lt; unfold msPerDay; try lia.
  generalize (getDate tza now). generalize (localMonthIndex tza now). intros K d.
  pose proof (firstOfMonth_lt (K - (i + 1) * cycleMonths) (K - i * cycleMonths) ltac:(nia)).
  lia.
Qed.

(** No whole month lies between the end of a window and the start of the
    next newer one. *)
Lemma cycle_windows_adjacent i :
  localMonthIndex tza (cycleStartDate tza now cycleMonths i) <=
    localMonthIndex tza (cycleEndDate tza now cycleMonths (i + 1)) + 1.
Proof.
  destruct (cycleStartDate_fields i) as (_ & _ & ->).
  destruct (cycleEndDate_day (i + 1)) as [_ Hday].
  pose proof (getDate_range tza now) as [Hr _].
  assert (Hge : localMonthIndex tza now - (i + 1) * cycleMonths <=
                monthIndex (LocalTime tza (cycleEndDate tza now cycleMonths (i + 1)))).
  { apply monthIndex_ge. rewrite Hday. revert Hr.
    generalize (getDate tza now), (firstOfMonth (localMonthIndex tza now - (i + 1) * cycleMonths)).
    intros; lia. }
  rewrite (localMonthIndex_eq tza (cycleEndDate tza now cycleMonths (i + 1))).
  revert Hge.
  generalize (monthIndex (LocalTime tza (cycleEndDate tza now cycleMonths (i + 1)))).
  generalize (localMonthIndex tza now). intros; lia.
Qed.

End CycleWindows.

Lemma cycleData_unfold tza now cycleMonths expenses :
  expenses <> [] -> cycleMonths <> 0 ->
  cycleData tza now cycleMonths expenses =
    [cycleBar tza now cycleMonths expenses 4; cycleBar tza now cycleMonths expenses 3;
     cycleBar tza now cycleMonths expenses 2; cycleBar tza now cycleMonths expenses 1;
     cycleBar tza now cycleMonths expenses 0].
Proof.
  intros He Hc. unfold cycleData.
  destruct expenses as [|e l]; [contradiction|].
  destruct (Z.eqb_spec cycleMonths 0) as [->|_]; [contradiction|].
  reflexivity.
Qed.

(** C4, as it holds of the code: [cycleData] is the empty sequence exactly when the
    transaction list is empty or [cycleMonths] is 0; it is a total
    function, so neither case raises an error. *)
Theorem cycleData_empty_iff (tza now cycleMonths : Z) (expenses : list Tx.t) :
  cycleData tza now cycleMonths expenses = [] <-> expenses = [] \/ cycleMonths = 0.
Proof.
  split.
  - intros E. destruct expenses as [|e l]; [left; reflexivity|].
    destruct (Z.eq_dec cycleMonths 0) as [->|N]; [right; reflexivity|].
    rewrite cycleData_unfold in E by (congruence || assumption). discriminate.
  - intros [->| ->].
    + reflexivity.
    + unfold cycleData. rewrite Z.eqb_refl, orb_true_r. reflexivity.
Qed.

(** The series as the code computes it: for every clock reading [now],
    every [cycleMonths >= 1] and a transaction list that is not empty,
    [cycleData] has exactly 5 entries, the entries of the iterations 4, 3,
    2, 1, 0 in this order, so the oldest window comes first and the last
    entry is the current one, named ["Current"].  For the iteration [i]:
    [startDate] is local midnight on the first of the month
    [(i + 1) * cycleMonths - 1] months before the month of [now];
    [endDate] is local midnight at the start of the day whose number in the
    month [i * cycleMonths] months before the month of [now] is the day of
    the month of [now] (the same day of that month when the month has it,
    a day of the following month otherwise); both dates get strictly
    earlier as [i] grows; and the month of the start of a window is at most
    one after the month of the end of the window before it. *)
Theorem cycleData_five_windows (tza now cycleMonths : Z) (expenses : list Tx.t) :
  100 <= getFullYear tza now ->
  1 <= cycleMonths ->
  expenses <> [] ->
  let K := localMonthIndex tza now in
  let bar := cycleBar tza now cycleMonths expenses in
  let startDate := cycleStartDate tza now cycleMonths in
  let endDate := cycleEndDate tza now cycleMonths in
  cycleData tza now cycleMonths expenses = [bar 4; bar 3; bar 2; bar 1; bar 0] /\
  length (cycleData tza now cycleMonths expenses) = 5%nat /\
  Bar.name (bar 0) = "Current"%string /\
  Bar.isCurrent (bar 0) = true /\
  (forall i, 0 < i -> Bar.isCurrent (bar i) = false) /\
  forall i, 0 <= i ->
    (getTimeOfDay tza (endDate i) = 0 /\
     Day (LocalTime tza (endDate i)) =
       firstOfMonth (K - i * cycleMonths) + getDate tza now - 1 /\
     (getDate tza now <= daysInMonth (K - i * cycleMonths) ->
        localMonthIndex tza (endDate i) = K - i * cycleMonths /\
        getDate tza (endDate i) = getDate tza now)) /\
    (getDate tza (startDate i) = 1 /\
     getTimeOfDay tza (startDate i) = 0 /\
     localMonthIndex tza (startDate i) = K - ((i + 1) * cycleMonths - 1)) /\
    startDate (i + 1) < startDate i /\
    endDate (i + 1) < endDate i /\
    localMonthIndex tza (startDate i) <= localMonthIndex tza (endDate (i + 1)) + 1.
Proof.
  intros Hy Hc He K bar startDate endDate.
  assert (Hdata := cycleData_unfold tza now cycleMonths expenses He ltac:(lia)).
  split; [exact Hdata|]. split; [rewrite Hdata; reflexivity|].
  split; [reflexivity|]. split; [reflexivity|]. split.
  - intros i Hi. unfold bar, cycleBar. simpl.
    destruct (Z.eqb_spec i 0); [lia|reflexivity].
  - intros i Hi. split; [|split; [|split; [|split]]].
    + destruct (cycleEndDate_day tza now cycleMonths Hy i) as [Ht Hd].
      split; [exact Ht|]. split; [exact Hd|].
      apply cycleEndDate_fields. exact Hy.
    + apply cycleStartDate_fields. exact Hy.
    + apply cycleStartDate_decreasing; assumption.
    + apply cycleEndDate_decreasing; assumption.
    + apply cycle_windows_adjacent. exact Hy.
Qed.

(** ** Sums and dictionaries *)

Lemma fold_left_Qsum {A : Type} (f : A -> Q) (l : list A) (a : Q) :
  (fold_left (fun sum x => sum + f x) l a == a + Qsum (List.map f l))%Q.
Proof.
  revert a. induction l as [|e l IH]; intros a; simpl.
  - lra.
  - rewrite IH. lra.
Qed.

Lemma sumAmounts_Qsum l : (sumAmounts l == Qsum (List.map Tx.amount l))%Q.
Proof. unfold sumAmounts. rewrite fold_left_Qsum. lra. Qed.

Lemma totalBudgetLimitOf_Qsum categories cycleMonths :
  (totalBudgetLimitOf categories cycleMonths ==
   Qsum (List.map (fun cat => calculateCycleBudget (Cat.baseLimit cat) (Cat.baseFrequency cat)
                                (inject_Z cycleMonths)) categories))%Q.
Proof.
  unfold totalBudgetLimitOf.
  rewrite (fold_left_Qsum (fun cat => calculateCycleBudget (Cat.baseLimit cat)
                             (Cat.baseFrequency cat) (inject_Z cycleMonths))).
  lra.
Qed.

Lemma Qsum_app l1 l2 : (Qsum (l1 ++ l2) == Qsum l1 + Qsum l2)%Q.
Proof.
  induction l1 as [|x l1 IH]; simpl.
  - lra.
  - rewrite IH. lra.
Qed.

Lemma Qsum_nonneg l : (forall x, In x l -> 0 <= x)%Q -> (0 <= Qsum l)%Q.
Proof.
  induction l as [|x l IH]; intros H; simpl.
  - lra.
  - pose proof (H x (or_introl eq_refl)).
    pose proof (IH (fun y Hy => H y (or_intror Hy))). lra.
Qed.

Lemma filter_filter_andb {A : Type} (p q : A -> bool) (l : list A) :
  List.filter q (List.filter p l) = List.filter (fun x => p x && q x) l.
Proof.
  induction l as [|x l IH]; simpl; [reflexivity|].
  destruct (p x); simpl; [destruct (q x)|]; rewrite ?IH; reflexivity.
Qed.

Lemma lookupOr0_empty k : lookupOr0 ∅ k = 0%Q.
Proof. unfold lookupOr0. rewrite lookup_empty. reflexivity. Qed.

Lemma spentIn_cons k e l :
  spentIn k (e :: l) =
    if String.eqb (Tx.categoryId e) k then (Tx.amount e + spentIn k l)%Q else spentIn k l.
Proof. unfold spentIn. simpl. destruct (String.eqb (Tx.categoryId e) k); reflexivity. Qed.

Lemma lookupOr0_addExpense_same acc e :
  (lookupOr0 (addExpense acc e) (Tx.categoryId e) ==
   lookupOr0 acc (Tx.categoryId e) + Tx.amount e)%Q.
Proof.
  unfold addExpense. cbv zeta. unfold lookupOr0 at 1.
  rewrite lookup_insert_eq. apply or0_Num.
Qed.

Lemma lookupOr0_addExpense_other acc e k :
  Tx.categoryId e <> k -> lookupOr0 (addExpense acc e) k = lookupOr0 acc k.
Proof.
  intros N. unfold addExpense. cbv zeta. unfold lookupOr0 at 1 3.
  rewrite lookup_insert_ne by exact N. reflexivity.
Qed.

(** An entry of the dictionary is the sum of the amounts recorded under
    its key. *)
Lemma lookupOr0_fold l acc k :
  (lookupOr0 (fold_left addExpense l acc) k == lookupOr0 acc k + spentIn k l)%Q.
Proof.
  revert acc. induction l as [|e l IH]; intros acc.
  - simpl. unfold spentIn. simpl. lra.
  - simpl fold_left. rewrite IH, spentIn_cons.
    destruct (String.eqb_spec (Tx.categoryId e) k) as [<-|N].
    + rewrite lookupOr0_addExpense_same. lra.
    + rewrite lookupOr0_addExpense_other by exact N. lra.
Qed.

Lemma lookupOr0_expenseByCategoryOf l k :
  (lookupOr0 (expenseByCategoryOf l) k == spentIn k l)%Q.
Proof.
  unfold expenseByCategoryOf. rewrite lookupOr0_fold, lookupOr0_empty. lra.
Qed.

Lemma spentIn_nonneg k l :
  (forall e, In e l -> 0 <= Tx.amount e)%Q -> (0 <= spentIn k l)%Q.
Proof.
  intros H. unfold spentIn. apply Qsum_nonneg. intros x Hx.
  apply in_map_iff in Hx. destruct Hx as (e & <- & He).
  apply filter_In in He. apply H. tauto.
Qed.

Lemma Qsum_filter_le {A : Type} (f : A -> Q) (p : A -> bool) (l : list A) :
  (forall x, In x l -> 0 <= f x)%Q ->
  (Qsum (List.map f (List.filter p l)) <= Qsum (List.map f l))%Q.
Proof.
  induction l as [|x l IH]; intros H; simpl.
  - lra.
  - pose proof (H x (or_introl eq_refl)).
    pose proof (IH (fun y Hy => H y (or_intror Hy))).
    destruct (p x); simpl; lra.
Qed.

Lemma filter_all {A : Type} (p : A -> bool) (l : list A) :
  (forall x, In x l -> p x = true) -> List.filter p l = l.
Proof.
  induction l as [|x l IH]; intros H; simpl; [reflexivity|].
  rewrite (H x (or_introl eq_refl)), (IH (fun y Hy => H y (or_intror Hy))). reflexivity.
Qed.

Lemma filter_none {A : Type} (p : A -> bool) (l : list A) :
  (forall x, In x l -> p x = false) -> List.filter p l = [].
Proof.
  induction l as [|x l IH]; intros H; simpl; [reflexivity|].
  rewrite (H x (or_introl eq_refl)). apply IH. intros y Hy. apply H. right. exact Hy.
Qed.

(** ** Rows of the chart *)

Lemma map_filter_imap {A B C : Type} (f : nat -> A -> B) (p : B -> bool) (q : A -> bool)
    (h : B -> C) (g : A -> C) (l : list A) :
  (forall i x, p (f i x) = q x) -> (forall i x, h (f i x) = g x) ->
  List.map h (List.filter p (imap f l)) = List.map g (List.filter q l).
Proof.
  intros Hp Hh. revert f Hp Hh. induction l as [|x l IH]; intros f Hp Hh; simpl.
  - reflexivity.
  - rewrite Hp. destruct (q x); simpl; rewrite ?Hh; [f_equal|];
      apply IH; intros; unfold compose; auto.
Qed.

Lemma In_imap_inv {A B : Type} (f : nat -> A -> B) (l : list A) (y : B) :
  In y (imap f l) -> exists i x, In x l /\ y = f i x.
Proof.
  revert f. induction l as [|a l IH]; intros f; simpl.
  - contradiction.
  - intros [<-|H].
    + exists 0%nat, a. split; [left|]; reflexivity.
    + destruct (IH _ H) as (i & x & Hx & ->).
      exists (S i), x. split; [right; exact Hx|reflexivity].
Qed.

Lemma In_imap_intro {A B : Type} (f : nat -> A -> B) (l : list A) (x : A) :
  In x l -> exists i, In (f i x) (imap f l).
Proof.
  revert f. induction l as [|a l IH]; intros f; simpl.
  - contradiction.
  - intros [->|H].
    + exists 0%nat. left. reflexivity.
    + destruct (IH (f ∘ S) H) as (i & Hi). exists (S i). right. exact Hi.
Qed.

Lemma Qgt_bool_comp a b c : (a == b)%Q -> Qgt_bool a c = Qgt_bool b c.
Proof.
  intros E. destruct (Qgt_bool b c) eqn:Eb.
  - apply Qgt_bool_true in Eb. apply Qgt_bool_true. rewrite E. exact Eb.
  - apply Qgt_bool_false in Eb. apply Qgt_bool_false. rewrite E. exact Eb.
Qed.

Lemma keepItem_true item :
  keepItem item = true <-> (0 < ChartItem.value item \/ 0 < ChartItem.budgetLimit item)%Q.
Proof. unfold keepItem. rewrite orb_true_iff, !Qgt_bool_true. reflexivity. Qed.

Lemma percentage_pos data :
  (0 < ChartItem.budgetLimit data ->
   percentage data == ChartItem.value data / ChartItem.budgetLimit data * 100)%Q.
Proof.
  intros H. unfold percentage. cbv zeta.
  rewrite (Qgt_bool_comp _ _ 0 (or0_Num (ChartItem.budgetLimit data))).
  apply Qgt_bool_true in H. rewrite H. rewrite !or0_Num. reflexivity.
Qed.

Lemma percentage_zero data :
  (ChartItem.budgetLimit data <= 0 -> percentage data == 0)%Q.
Proof.
  intros H. unfold percentage. cbv zeta.
  rewrite (Qgt_bool_comp _ _ 0 (or0_Num (ChartItem.budgetLimit data))).
  apply Qgt_bool_false in H. rewrite H. reflexivity.
Qed.

(** ** The current cycle *)

Lemma In_filterData data startDate e :
  In e (filterData data startDate) <-> In e data /\ startDate <= Tx.timestamp e.
Proof. unfold filterData. rewrite filter_In, Z.leb_le. reflexivity. Qed.

Lemma is_type_true ty e : is_type ty e = true <-> Tx.type e = ty.
Proof. unfold is_type. apply String.eqb_eq. Qed.

Lemma In_cycleExpenses tza now expenses settings e :
  In e (cycleExpenses tza now expenses settings) <->
  In e expenses /\ Tx.type e = "expense"%string /\
  currentCycleStart tza now settings <= Tx.timestamp e.
Proof.
  unfold cycleExpenses. rewrite In_filterData, filter_In, is_type_true. tauto.
Qed.

Lemma In_cycleBudgets tza now expenses settings e :
  In e (cycleBudgets tza now expenses settings) <->
  In e expenses /\ Tx.type e = "budget"%string /\
  currentCycleStart tza now settings <= Tx.timestamp e.
Proof.
  unfold cycleBudgets. rewrite In_filterData, filter_In, is_type_true. tauto.
Qed.

Lemma cycleMonthsOr1_id settings :
  Settings.cycleMonths settings <> 0 -> cycleMonthsOr1 settings = Settings.cycleMonths settings.
Proof.
  intros H. unfold cycleMonthsOr1.
  destruct (Z.eqb_spec (Settings.cycleMonths settings) 0); [contradiction|reflexivity].
Qed.

(** ** The summary *)

Lemma summarize_totals_general tza now categories expenses settings :
  Settings.cycleMonths settings <> 0 ->
  let s := summarize tza now categories expenses settings in
  let start := startOfCycle tza now (Settings.cycleMonths settings) in
  (Summary.totalBudgetLimit s ==
     Qsum (List.map (fun cat => calculateCycleBudget (Cat.baseLimit cat) (Cat.baseFrequency cat)
                                  (inject_Z (Settings.cycleMonths settings))) categories))%Q /\
  (Summary.totalExpenses s ==
     Qsum (List.map Tx.amount
             (List.filter (fun e => String.eqb (Tx.type e) "expense" && (start <=? Tx.timestamp e))
                expenses)))%Q /\
  (Summary.remaining s == Summary.totalBudgetLimit s - Summary.totalExpenses s)%Q.
Proof.
  intros Hc s start. unfold s, summarize, summary. cbn [Summary.totalBudgetLimit
    Summary.totalExpenses Summary.remaining].
  split; [|split].
  - rewrite totalBudgetLimitOf_Qsum, (cycleMonthsOr1_id _ Hc). reflexivity.
  - rewrite sumAmounts_Qsum. unfold cycleExpenses, filterData, currentCycleStart.
    rewrite filter_filter_andb, (cycleMonthsOr1_id _ Hc). reflexivity.
  - reflexivity.
Qed.

Lemma cycleExpenses_all tza now expenses settings :
  (forall e, In e expenses ->
     Tx.type e = "expense"%string /\ currentCycleStart tza now settings <= Tx.timestamp e) ->
  cycleExpenses tza now expenses settings = expenses.
Proof.
  intros H. unfold cycleExpenses, filterData.
  rewrite (filter_all (is_type "expense")) by (intros e He; apply is_type_true, (H e He)).
  apply filter_all. intros e He. apply Z.leb_le, (H e He).
Qed.

Lemma summarize_scenario tza now id1 id2 :
  100 <= getFullYear tza now ->
  let s := summarize tza now [groceries]
             [expenseAt id1 50 "c1" now; expenseAt id2 30 "c1" now]
             {| Settings.currencyCode := "USD"; Settings.cycleMonths := 1 |} in
  (Summary.totalBudgetLimit s == 200 /\ Summary.totalExpenses s == 80 /\
   Summary.remaining s == 120)%Q.
Proof.
  intros Hy s.
  assert (Hcur : cycleExpenses tza now
                   [expenseAt id1 50 "c1" now; expenseAt id2 30 "c1" now]
                   {| Settings.currencyCode := "USD"; Settings.cycleMonths := 1 |}
                 = [expenseAt id1 50 "c1" now; expenseAt id2 30 "c1" now]).
  { apply cycleExpenses_all. intros e He. unfold currentCycleStart.
    change (cycleMonthsOr1 {| Settings.currencyCode := "USD"; Settings.cycleMonths := 1 |})
      with 1.
    pose proof (startOfCycle_le_now tza now 1 Hy ltac:(lia)) as Hle.
    destruct He as [<-|[<-|[]]]; split; try reflexivity; exact Hle. }
  assert (Hl : (Summary.totalBudgetLimit s == 200)%Q).
  { unfold s, summarize, summary. cbn [Summary.totalBudgetLimit].
    vm_compute. reflexivity. }
  assert (He : (Summary.totalExpenses s == 80)%Q).
  { unfold s, summarize, summary. cbn [Summary.totalExpenses].
    rewrite Hcur. vm_compute. reflexivity. }
  split; [exact Hl|]. split; [exact He|].
  destruct (summarize_totals_general tza now [groceries]
              [expenseAt id1 50 "c1" now; expenseAt id2 30 "c1" now]
              {| Settings.currencyCode := "USD"; Settings.cycleMonths := 1 |}
              ltac:(discriminate)) as (_ & _ & Hr).
  fold s in Hr. rewrite Hr, Hl, He. reflexivity.
Qed.

(** C2: for every list of categories, every transaction log and every
    settings record (whose [cycleMonths] is a cycle length, so not 0),
    the summary has [totalBudgetLimit] equal to the sum over the categories
    of [calculateCycleBudget(cat.baseLimit, cat.baseFrequency,
    settings.cycleMonths)], [totalExpenses] equal to the sum of the amounts
    of the expense-type transactions stamped at or after the start of the
    current cycle, and [remaining] equal to their difference.  For the one
    category Groceries with a monthly limit of 200, [cycleMonths = 1] and
    two Groceries expenses of 50 and 30 stamped [now], the three figures
    are 200, 80 and 120. *)
Theorem summarize_totals (tza now : Z) (categories : list Cat.t) (expenses : list Tx.t)
    (settings : Settings.t) :
  Settings.cycleMonths settings <> 0 ->
  100 <= getFullYear tza now ->
  let s := summarize tza now categories expenses settings in
  let start := startOfCycle tza now (Settings.cycleMonths settings) in
  ((Summary.totalBudgetLimit s ==
      Qsum (List.map (fun cat => calculateCycleBudget (Cat.baseLimit cat) (Cat.baseFrequency cat)
                                   (inject_Z (Settings.cycleMonths settings))) categories))%Q /\
   (Summary.totalExpenses s ==
      Qsum (List.map Tx.amount
              (List.filter (fun e => String.eqb (Tx.type e) "expense" && (start <=? Tx.timestamp e))
                 expenses)))%Q /\
   (Summary.remaining s == Summary.totalBudgetLimit s - Summary.totalExpenses s)%Q) /\
  (forall id1 id2,
     let s' := summarize tza now [groceries]
                 [expenseAt id1 50 "c1" now; expenseAt id2 30 "c1" now]
                 {| Settings.currencyCode := "USD"; Settings.cycleMonths := 1 |} in
     Summary.totalBudgetLimit s' == 200 /\ Summary.totalExpenses s' == 80 /\
     Summary.remaining s' == 120)%Q.
Proof.
  intros Hc Hy s start. split.
  - apply summarize_totals_general. exact Hc.
  - intros id1 id2. apply summarize_scenario. exact Hy.
Qed.

(** C6: for every transaction log and every cycle start, the selection
    [filterData] keeps exactly the transactions stamped at or after the
    start, in their order, whatever the size of the stamp; the expenses and
    the incomes of the current cycle are the expense-type and the
    budget-type transactions of the log stamped at or after
    [currentCycleStart]. *)
Theorem current_cycle_selection (tza now : Z) (expenses : list Tx.t) (settings : Settings.t) :
  let start := currentCycleStart tza now settings in
  (forall data startDate e,
     In e (filterData data startDate) <-> In e data /\ startDate <= Tx.timestamp e) /\
  cycleExpenses tza now expenses settings =
    List.filter (fun e => String.eqb (Tx.type e) "expense" && (start <=? Tx.timestamp e))
      expenses /\
  cycleBudgets tza now expenses settings =
    List.filter (fun e => String.eqb (Tx.type e) "budget" && (start <=? Tx.timestamp e))
      expenses /\
  (forall e, In e (cycleExpenses tza now expenses settings) <->
             In e expenses /\ Tx.type e = "expense"%string /\ start <= Tx.timestamp e) /\
  (forall e, In e (cycleBudgets tza now expenses settings) <->
             In e expenses /\ Tx.type e = "budget"%string /\ start <= Tx.timestamp e).
Proof.
  intros start. split; [|split; [|split; [|split]]].
  - intros data startDate e. apply In_filterData.
  - unfold cycleExpenses, filterData. apply filter_filter_andb.
  - unfold cycleBudgets, filterData. apply filter_filter_andb.
  - intros e. apply In_cycleExpenses.
  - intros e. apply In_cycleBudgets.
Qed.

Lemma isOverActualBudget_true s :
  isOverActualBudget s = true <->
  (Summary.totalActualBudget s < Summary.totalExpenses s /\ 0 < Summary.totalActualBudget s)%Q.
Proof. unfold isOverActualBudget. rewrite andb_true_iff, !Qgt_bool_true. reflexivity. Qed.

Lemma isOverActualBudget_no_income s :
  (Summary.totalActualBudget s == 0)%Q -> isOverActualBudget s = false.
Proof.
  intros E. destruct (isOverActualBudget s) eqn:Hs; [|reflexivity].
  apply isOverActualBudget_true in Hs. destruct Hs as [_ Hs]. rewrite E in Hs.
  exfalso. apply (Qlt_irrefl 0 Hs).
Qed.

(** C7: for every summary, the flag [isOverActualBudget] is true if and
    only if [totalExpenses > totalIncome] and [totalIncome > 0]; when the
    recorded income is 0 the flag is false whatever the expenses, and so
    it is for the summary of a log without any income entry. *)
Theorem isOverActualBudget_iff (tza now : Z) (categories : list Cat.t)
    (expenses : list Tx.t) (settings : Settings.t) :
  (forall s : Summary.t,
     (isOverActualBudget s = true <->
      (Summary.totalActualBudget s < Summary.totalExpenses s /\
       0 < Summary.totalActualBudget s)%Q) /\
     ((Summary.totalActualBudget s == 0)%Q -> isOverActualBudget s = false)) /\
  ((forall e, In e expenses -> Tx.type e <> "budget"%string) ->
   isOverActualBudget (summarize tza now categories expenses settings) = false).
Proof.
  split.
  - intros s. split; [apply isOverActualBudget_true|apply isOverActualBudget_no_income].
  - intros H. apply isOverActualBudget_no_income.
    unfold summarize, summary. cbn [Summary.totalActualBudget].
    unfold cycleBudgets. rewrite (filter_none (is_type "budget")).
    + reflexivity.
    + intros e He. destruct (is_type "budget" e) eqn:E; [|reflexivity].
      apply is_type_true in E. exfalso. exact (H e He E).
Qed.

Lemma chartItem_value ebc c i cat :
  ChartItem.value (chartItem ebc c i cat) = lookupOr0 ebc (Cat.id cat).
Proof. reflexivity. Qed.

Lemma chartItem_budgetLimit ebc c i cat :
  ChartItem.budgetLimit (chartItem ebc c i cat) =
    calculateCycleBudget (Cat.baseLimit cat) (Cat.baseFrequency cat) (inject_Z c).
Proof. reflexivity. Qed.

Lemma keepItem_chartItem l c i cat :
  keepItem (chartItem (expenseByCategoryOf l) c i cat) =
    Qgt_bool (spentIn (Cat.id cat) l) 0
    || Qgt_bool (calculateCycleBudget (Cat.baseLimit cat) (Cat.baseFrequency cat) (inject_Z c)) 0.
Proof.
  unfold keepItem. rewrite chartItem_value, chartItem_budgetLimit.
  rewrite (Qgt_bool_comp _ _ 0 (lookupOr0_expenseByCategoryOf l (Cat.id cat))).
  reflexivity.
Qed.

(** C8: for every input whose category ids, which the store gives, are
    not names of properties of [Object.prototype] (for such a name
    [expenseByCategory[cat.id]] reads the inherited property), the rows
    of [chartData] are, in the order of the categories, the rows of
    exactly those categories whose spending in the current cycle is
    positive or whose cycle limit is positive; each row
    carries the name, the spending and the cycle limit of its category;
    and the percentage shown for a row is [spent / cycleLimit * 100] when
    the cycle limit is positive and 0 otherwise. *)
Theorem chartData_rows (tza now : Z) (categories : list Cat.t) (expenses : list Tx.t)
    (settings : Settings.t) :
  (forall cat, In cat categories -> ~ In (Cat.id cat) objectPrototypeNames) ->
  let s := summarize tza now categories expenses settings in
  let spent cat := spentIn (Cat.id cat) (cycleExpenses tza now expenses settings) in
  let cycleLimit cat :=
    calculateCycleBudget (Cat.baseLimit cat) (Cat.baseFrequency cat)
      (inject_Z (cycleMonthsOr1 settings)) in
  List.map ChartItem.id (Summary.chartData s) =
    List.map Cat.id
      (List.filter (fun cat => Qgt_bool (spent cat) 0 || Qgt_bool (cycleLimit cat) 0)
         categories) /\
  (forall row, In row (Summary.chartData s) ->
     exists cat, In cat categories /\
       ChartItem.id row = Cat.id cat /\ ChartItem.name row = Cat.name cat /\
       (ChartItem.value row == spent cat)%Q /\ ChartItem.budgetLimit row = cycleLimit cat /\
       (0 < spent cat \/ 0 < cycleLimit cat)%Q) /\
  (forall cat, In cat categories -> (0 < spent cat \/ 0 < cycleLimit cat)%Q ->
     exists row, In row (Summary.chartData s) /\
       ChartItem.id row = Cat.id cat /\
       (ChartItem.value row == spent cat)%Q /\ ChartItem.budgetLimit row = cycleLimit cat) /\
  (forall row : ChartItem.t,
     (0 < ChartItem.budgetLimit row ->
      percentage row == ChartItem.value row / ChartItem.budgetLimit row * 100)%Q /\
     (ChartItem.budgetLimit row <= 0 -> percentage row == 0)%Q).
Proof.
  intros _ s spent cycleLimit.
  unfold s, summarize, summary. cbn [Summary.chartData]. unfold chartDataOf.
  set (l := cycleExpenses tza now expenses settings) in *.
  set (c := cycleMonthsOr1 settings) in *.
  split; [|split; [|split]].
  - apply map_filter_imap.
    + intros i cat. apply keepItem_chartItem.
    + intros i cat. reflexivity.
  - intros row Hrow. apply filter_In in Hrow. destruct Hrow as [Hin Hkeep].
    apply In_imap_inv in Hin. destruct Hin as (i & cat & Hcat & ->).
    exists cat. split; [exact Hcat|]. split; [reflexivity|]. split; [reflexivity|].
    split; [apply lookupOr0_expenseByCategoryOf|]. split; [reflexivity|].
    rewrite keepItem_chartItem, orb_true_iff, !Qgt_bool_true in Hkeep. exact Hkeep.
  - intros cat Hcat Hpos.
    destruct (In_imap_intro (chartItem (expenseByCategoryOf l) c) categories cat Hcat)
      as (i & Hi).
    exists (chartItem (expenseByCategoryOf l) c i cat).
    split; [|split; [reflexivity|split; [apply lookupOr0_expenseByCategoryOf|reflexivity]]].
    apply filter_In. split; [exact Hi|].
    rewrite keepItem_chartItem, orb_true_iff, !Qgt_bool_true. exact Hpos.
  - intros row. split; [apply percentage_pos|apply percentage_zero].
Qed.

(** ** Category normalisation *)

(** C9: for every category record delivered by the store, [sanitize]
    gives it a numeric [baseLimit]: the parsed [baseLimit] when that is a
    number other than 0; otherwise, and so when [baseLimit] is absent, the
    parsed value of the deprecated [budgetLimit]; and 0 when neither field
    parses to a number.  A missing [baseFrequency] becomes ['monthly'], a
    frequency that is present is kept, and the other fields are left as
    they are. *)
Theorem sanitize_fallback (cat : Cat.t) :
  (exists q, Cat.baseLimit (sanitize cat) = JNumber (Num q)) /\
  (forall p, parseFloat (Cat.baseLimit cat) = Num p -> ~ (p == 0)%Q ->
     Cat.baseLimit (sanitize cat) = JNumber (Num p)) /\
  (Cat.baseLimit cat = JUndefined ->
     Cat.baseLimit (sanitize cat) = JNumber (Num (or0 (parseFloat (Cat.budgetLimit cat)))) /\
     (forall p, parseFloat (Cat.budgetLimit cat) = Num p -> ~ (p == 0)%Q ->
        Cat.baseLimit (sanitize cat) = JNumber (Num p))) /\
  (parseFloat (Cat.baseLimit cat) = NaN -> parseFloat (Cat.budgetLimit cat) = NaN ->
     Cat.baseLimit (sanitize cat) = JNumber (Num 0)) /\
  (Cat.baseFrequency cat = JUndefined ->
     Cat.baseFrequency (sanitize cat) = JString "monthly") /\
  (truthy (Cat.baseFrequency cat) = true ->
     Cat.baseFrequency (sanitize cat) = Cat.baseFrequency cat) /\
  Cat.id (sanitize cat) = Cat.id cat /\ Cat.name (sanitize cat) = Cat.name cat.
Proof.
  unfold sanitize. cbn [Cat.baseLimit Cat.baseFrequency Cat.id Cat.name].
  split; [eexists; reflexivity|].
  split.
  { intros p E N. rewrite E. unfold num_or, truthy_number.
    destruct (Qeq_bool p 0) eqn:Ep; [apply Qeq_bool_iff in Ep; contradiction|].
    simpl. rewrite or0_nonzero by exact N. reflexivity. }
  split.
  { intros E. rewrite E. simpl parseFloat. rewrite or0_num_or_NaN.
    split; [reflexivity|]. intros p Ep N. rewrite Ep, or0_nonzero by exact N. reflexivity. }
  split.
  { intros E1 E2. rewrite E1, E2. reflexivity. }
  split.
  { intros E. rewrite E. reflexivity. }
  split.
  { intros E. unfold or_else. rewrite E. reflexivity. }
  split; reflexivity.
Qed.

(** ** Expenses without a category *)

Lemma totalExpenses_split l1 e l2 :
  (sumAmounts (l1 ++ e :: l2) == Tx.amount e + sumAmounts (l1 ++ l2))%Q.
Proof.
  rewrite !sumAmounts_Qsum, !map_app, !Qsum_app. simpl. lra.
Qed.

Lemma spentIn_app k l1 l2 : (spentIn k (l1 ++ l2) == spentIn k l1 + spentIn k l2)%Q.
Proof. unfold spentIn. rewrite List.filter_app, map_app, Qsum_app. reflexivity. Qed.

Lemma spentIn_split l1 e l2 :
  (spentIn (Tx.categoryId e) (l1 ++ e :: l2) ==
   Tx.amount e + spentIn (Tx.categoryId e) (l1 ++ l2))%Q.
Proof.
  rewrite !spentIn_app, spentIn_cons, String.eqb_refl. lra.
Qed.

Lemma chartDataOf_row_cat categories ebc c row :
  In row (chartDataOf categories ebc c) ->
  exists cat, In cat categories /\ ChartItem.id row = Cat.id cat.
Proof.
  intros Hrow. apply filter_In in Hrow. destruct Hrow as [Hin _].
  apply In_imap_inv in Hin. destruct Hin as (i & cat & Hcat & ->).
  exists cat. split; [exact Hcat|reflexivity].
Qed.

Lemma sumAmounts_insert l1 e l2 :
  sumAmounts (l1 ++ e :: l2) =
  fold_left (fun sum entry => (sum + Tx.amount entry)%Q) l2 (sumAmounts l1 + Tx.amount e)%Q.
Proof. unfold sumAmounts. rewrite fold_left_app. reflexivity. Qed.

Lemma lookupOr0_sumAmounts l k :
  (lookupOr0 (expenseByCategoryOf l) k ==
   sumAmounts (List.filter (fun x => String.eqb (Tx.categoryId x) k) l))%Q.
Proof. rewrite lookupOr0_expenseByCategoryOf, sumAmounts_Qsum. reflexivity. Qed.

Lemma spentIn_le_sumAmounts k l :
  (forall e, In e l -> 0 <= Tx.amount e)%Q -> (spentIn k l <= sumAmounts l)%Q.
Proof.
  intros H. rewrite sumAmounts_Qsum. unfold spentIn.
  induction l as [|e l IH]; simpl; [lra|].
  pose proof (H e (or_introl eq_refl)) as He.
  pose proof (IH (fun x Hx => H x (or_intror Hx))) as IH'.
  destruct (String.eqb (Tx.categoryId e) k); simpl; lra.
Qed.

Lemma amount_le_spentIn l e :
  (forall x, In x l -> 0 <= Tx.amount x)%Q -> In e l ->
  (Tx.amount e <= spentIn (Tx.categoryId e) l)%Q.
Proof.
  intros H He. destruct (in_split _ _ He) as (l1 & l2 & ->).
  rewrite spentIn_split.
  assert (0 <= spentIn (Tx.categoryId e) (l1 ++ l2))%Q.
  { apply spentIn_nonneg. intros x Hx. apply H.
    apply in_app_or in Hx. apply in_or_app. destruct Hx; [left|right; right]; assumption. }
  lra.
Qed.

(** C10: for amounts that are not negative and keys that are not names of
    properties of [Object.prototype], an expense of the current cycle
    whose [categoryId] is the id of no category still counts in full in
    [totalExpenses] and in its entry of [expenseByCategory]: each is the
    sum, in the order of the log, in which its amount is added at its
    place, and each is at least its amount.  No row of [chartData] has
    its id: the spending of a row is the sum, in the order of the log, of
    the expenses of the cycle filed under the category of the row, and is
    at most [totalExpenses].  The spending of the rows can sum to
    strictly less than [totalExpenses], as for a log holding a positive
    expense of a deleted category. *)
Theorem orphan_expense_counts (tza now : Z) (categories : list Cat.t)
    (expenses : list Tx.t) (settings : Settings.t) :
  (forall cat, In cat categories -> ~ In (Cat.id cat) objectPrototypeNames) ->
  (forall e, In e expenses -> 0 <= Tx.amount e)%Q ->
  let s := summarize tza now categories expenses settings in
  let l := cycleExpenses tza now expenses settings in
  let add := fun (sum : Q) (entry : Tx.t) => (sum + Tx.amount entry)%Q in
  let under := fun k => List.filter (fun x : Tx.t => String.eqb (Tx.categoryId x) k) in
  (forall e, In e l ->
     ~ In (Tx.categoryId e) (List.map Cat.id categories) ->
     ~ In (Tx.categoryId e) objectPrototypeNames ->
     (forall row, In row (Summary.chartData s) -> ChartItem.id row <> Tx.categoryId e) /\
     (Tx.amount e <= Summary.totalExpenses s)%Q /\
     (Tx.amount e <= lookupOr0 (Summary.expenseByCategory s) (Tx.categoryId e))%Q /\
     exists l1 l2,
       l = l1 ++ e :: l2 /\
       Summary.totalExpenses s = fold_left add l2 (sumAmounts l1 + Tx.amount e)%Q /\
       (lookupOr0 (Summary.expenseByCategory s) (Tx.categoryId e) ==
        fold_left add (under (Tx.categoryId e) l2)
          (sumAmounts (under (Tx.categoryId e) l1) + Tx.amount e))%Q) /\
  (forall row, In row (Summary.chartData s) ->
     exists cat, In cat categories /\ ChartItem.id row = Cat.id cat /\
       (ChartItem.value row == sumAmounts (under (Cat.id cat) l))%Q /\
       (ChartItem.value row <= Summary.totalExpenses s)%Q) /\
  (let s' := summarize 0 sampleNow [groceries]
               [expenseAt "t1" 50 "c1" sampleNow; expenseAt "t2" 30 "c0" sampleNow]
               {| Settings.currencyCode := "USD"; Settings.cycleMonths := 1 |} in
   Qsum (List.map ChartItem.value (Summary.chartData s')) < Summary.totalExpenses s')%Q.
Proof.
  intros _ Ha s l add under.
  assert (Hl : forall e, In e l -> (0 <= Tx.amount e)%Q).
  { intros e He. apply Ha. apply In_cycleExpenses in He. tauto. }
  assert (Htot : Summary.totalExpenses s = sumAmounts l) by reflexivity.
  assert (Hmap : Summary.expenseByCategory s = expenseByCategoryOf l) by reflexivity.
  assert (Hrows : Summary.chartData s =
                  chartDataOf categories (expenseByCategoryOf l) (cycleMonthsOr1 settings))
    by reflexivity.
  rewrite Htot, Hmap, Hrows. clearbody l. clear Htot Hmap Hrows s.
  split; [|split].
  - intros e He Horphan _. split; [|split; [|split]].
    + intros row Hrow E.
      destruct (chartDataOf_row_cat _ _ _ _ Hrow) as (cat & Hcat & Hid).
      apply Horphan. rewrite <- E, Hid. apply in_map. exact Hcat.
    + eapply Qle_trans; [apply (amount_le_spentIn l e Hl He)|].
      apply spentIn_le_sumAmounts. exact Hl.
    + rewrite lookupOr0_expenseByCategoryOf. apply amount_le_spentIn; assumption.
    + destruct (in_split _ _ He) as (l1 & l2 & Hsplit).
      exists l1, l2. split; [exact Hsplit|]. rewrite Hsplit.
      split; [apply sumAmounts_insert|].
      rewrite lookupOr0_sumAmounts. unfold under.
      rewrite List.filter_app. simpl. rewrite String.eqb_refl.
      rewrite sumAmounts_insert. reflexivity.
  - intros row Hrow. apply filter_In in Hrow. destruct Hrow as [Hin _].
    apply In_imap_inv in Hin. destruct Hin as (i & cat & Hcat & ->).
    exists cat. split; [exact Hcat|]. split; [reflexivity|].
    rewrite chartItem_value. split; [apply lookupOr0_sumAmounts|].
    rewrite lookupOr0_expenseByCategoryOf. apply spentIn_le_sumAmounts. exact Hl.
  - vm_compute. reflexivity.
Qed.

(** C10, counterexample: on binary64 numbers, with the categories A and B
    and the expenses 0.3 (A), 0.2 (B) and 0.1 (A) in the current cycle,
    [totalExpenses] is 0.6 and the rows spend 0.4 and 0.2; the sum of the
    spending of the rows is greater than [totalExpenses].  The numbers
    are written in hexadecimal, as the binary64 numbers nearest to these
    decimals: 0.1 is [0x1.999999999999ap-4], 0.2 is [0x1.999999999999ap-3],
    0.3 is [0x1.3333333333333p-2], 0.4 is [0x1.999999999999ap-2] and 0.6
    is [0x1.3333333333333p-1]. *)
Lemma rows_sum_exceeds_totalExpenses :
  let categories :=
    [Binary64.Cat.mk "A" 0 (JString "monthly"); Binary64.Cat.mk "B" 0 (JString "monthly")] in
  let cycleExpenses :=
    [Binary64.Tx.mk "A" 0x1.3333333333333p-2; Binary64.Tx.mk "B" 0x1.999999999999ap-3;
     Binary64.Tx.mk "A" 0x1.999999999999ap-4] in
  let rows := Binary64.chartData categories cycleExpenses 1 in
  Binary64.totalExpenses cycleExpenses = 0x1.3333333333333p-1%float /\
  List.map Binary64.ChartItem.value rows = [0x1.999999999999ap-2; 0x1.999999999999ap-3]%float /\
  (Binary64.totalExpenses cycleExpenses
   <? fold_left PrimFloat.add (List.map Binary64.ChartItem.value rows) 0)%float = true.
Proof. repeat split; vm_compute; reflexivity. Qed.

(** ** Concrete instances *)

(** C1, counterexample: a monthly limit of 100 over a cycle of -1 months
    gives -100, a negative result. *)
Lemma calculateCycleBudget_negative_cycle :
  (calculateCycleBudget (JNumber (Num 100)) (JString "monthly") (-1) == -100 /\
   calculateCycleBudget (JNumber (Num 100)) (JString "monthly") (-1) < 0)%Q.
Proof. split; vm_compute; reflexivity. Qed.

(** C1, witness: a daily limit given as the string ["100"] over a cycle of
    2 months. *)
Lemma calculateCycleBudget_piecewise_witness :
  (calculateCycleBudget (JString "100") (JString "daily") 2 == 100 * 2 * (304375 # 10000) /\
   0 <= calculateCycleBudget (JString "100") (JString "daily") 2)%Q.
Proof.
  destruct (calculateCycleBudget_piecewise (JString "100") (JString "daily") 2)
    as (_ & _ & Hpos & Hnonneg).
  split.
  - destruct (Hpos 100%Q) as (_ & _ & Hdaily & _).
    + vm_compute. reflexivity.
    + vm_compute. reflexivity.
    + apply Hdaily. reflexivity.
  - apply Hnonneg. vm_compute. discriminate.
Defined.

(** C2, witness: the Groceries scenario on 15 March 2024. *)
Lemma summarize_totals_witness :
  let settings := {| Settings.currencyCode := "USD"; Settings.cycleMonths := 1 |} in
  let log := [expenseAt "t1" 50 "c1" sampleNow; expenseAt "t2" 30 "c1" sampleNow] in
  Settings.cycleMonths settings <> 0 /\
  100 <= getFullYear 0 sampleNow /\
  (Summary.totalBudgetLimit (summarize 0 sampleNow [groceries] log settings) == 200 /\
   Summary.totalExpenses (summarize 0 sampleNow [groceries] log settings) == 80 /\
   Summary.remaining (summarize 0 sampleNow [groceries] log settings) == 120)%Q.
Proof.
  intros settings log.
  assert (H1 : Settings.cycleMonths settings <> 0) by (vm_compute; discriminate).
  assert (H2 : 100 <= getFullYear 0 sampleNow) by (vm_compute; discriminate).
  split; [exact H1|]. split; [exact H2|].
  exact (proj2 (summarize_totals 0 sampleNow [groceries] log settings H1 H2) "t1" "t2"
         : _ /\ _ /\ _)%string.
Defined.

(** C3, witness: on 15 March 2024 a cycle of 3 months starts on the first
    of a month at midnight, two months before March. *)
Lemma startOfCycle_first_of_month_witness :
  100 <= getFullYear 0 sampleNow /\ 1 <= 3 /\
  getDate 0 (startOfCycle 0 sampleNow 3) = 1 /\
  getTimeOfDay 0 (startOfCycle 0 sampleNow 3) = 0 /\
  localMonthIndex 0 (startOfCycle 0 sampleNow 3) = localMonthIndex 0 sampleNow - (3 - 1) /\
  startOfCycle 0 sampleNow 3 <= sampleNow.
Proof.
  assert (H1 : 100 <= getFullYear 0 sampleNow) by (vm_compute; discriminate).
  assert (H2 : 1 <= 3) by lia.
  split; [exact H1|]. split; [exact H2|].
  exact (startOfCycle_first_of_month 0 sampleNow 3 H1 H2).
Defined.

(** C4, counterexample: with [cycleMonths = -1] and one transaction the
    series has five entries, so it is not empty. *)
Lemma cycleData_negative_cycle_not_empty :
  -1 <= 0 /\
  length (cycleData 0 sampleNow (-1) [expenseAt "t1" 50 "c1" sampleNow]) = 5%nat /\
  cycleData 0 sampleNow (-1) [expenseAt "t1" 50 "c1" sampleNow] <> [].
Proof.
  split; [lia|]. split.
  - vm_compute. reflexivity.
  - vm_compute. discriminate.
Qed.

(** C4, witness: a cycle length of 0 gives the empty series. *)
Lemma cycleData_empty_iff_witness :
  cycleData 0 sampleNow 0 [expenseAt "t1" 50 "c1" sampleNow] = [].
Proof.
  apply (proj2 (cycleData_empty_iff 0 sampleNow 0 [expenseAt "t1" 50 "c1" sampleNow])).
  right. reflexivity.
Defined.

(** At 10:00 on 15 March 2024 the end of the current window (iteration 0)
    is midnight at the start of that day, not the clock reading shifted
    back by 0 months, which is the reading itself. *)
Lemma cycleEndDate_not_now_shifted :
  cycleEndDate 0 sampleNow 1 0 = 1710460800000 /\
  shiftBackMonths 0 sampleNow (0 * 1) = 1710496800000 /\
  cycleEndDate 0 sampleNow 1 0 <> shiftBackMonths 0 sampleNow (0 * 1).
Proof.
  split; [vm_compute; reflexivity|]. split; [vm_compute; reflexivity|].
  vm_compute. discriminate.
Qed.

(** C5, at the failing input: at 10:00 on 15 March 2024, with a cycle of 1
    month and two expenses of 50 and 30 logged at that time, the window of
    the iteration 0 does not end at the clock reading shifted back by 0
    months, which is the reading itself, but at midnight at the start of
    that day.  Both expenses are outside the window, so the current entry,
    the last one, shows 0, while the summary of the same log counts 80. *)
Theorem cycleData_current_misses_today :
  let log := [expenseAt "t1" 50 "c1" sampleNow; expenseAt "t2" 30 "c1" sampleNow] in
  let settings := {| Settings.currencyCode := "USD"; Settings.cycleMonths := 1 |} in
  shiftBackMonths 0 sampleNow (0 * 1) = sampleNow /\
  cycleEndDate 0 sampleNow 1 0 = sampleNow - 36000000 /\
  (forall e, In e log -> inCycle 0 sampleNow 1 0 e = false) /\
  List.map (fun b => (Bar.isCurrent b, Bar.Expenses b)) (cycleData 0 sampleNow 1 log)
  = [(false, 0); (false, 0); (false, 0); (false, 0); (true, 0)]%Q /\
  (Summary.totalExpenses (summarize 0 sampleNow [groceries] log settings) == 80)%Q.
Proof.
  intros log settings.
  split; [vm_compute; reflexivity|]. split; [vm_compute; reflexivity|].
  split; [intros e [<-|[<-|[]]]; vm_compute; reflexivity|].
  split; vm_compute; reflexivity.
Qed.

(** An instance: the series of 15 March 2024 with a cycle of 1 month. *)
Lemma cycleData_five_windows_witness :
  100 <= getFullYear 0 sampleNow /\ 1 <= 1 /\
  [expenseAt "t1" 50 "c1" sampleNow] <> [] /\
  length (cycleData 0 sampleNow 1 [expenseAt "t1" 50 "c1" sampleNow]) = 5%nat.
Proof.
  assert (H1 : 100 <= getFullYear 0 sampleNow) by (vm_compute; discriminate).
  assert (H2 : 1 <= 1) by lia.
  assert (H3 : [expenseAt "t1" 50 "c1" sampleNow] <> []) by discriminate.
  split; [exact H1|]. split; [exact H2|]. split; [exact H3|].
  exact (proj1 (proj2 (cycleData_five_windows 0 sampleNow 1
                         [expenseAt "t1" 50 "c1" sampleNow] H1 H2 H3))).
Defined.

(** C6, witness: an expense stamped a century after the clock reading is
    still in the current cycle. *)
Lemma current_cycle_selection_witness :
  let late := expenseAt "t1" 50 "c1" (sampleNow + 3155760000000) in
  let settings := {| Settings.currencyCode := "USD"; Settings.cycleMonths := 1 |} in
  In late (cycleExpenses 0 sampleNow [late; incomeAt "t2" 500 sampleNow] settings).
Proof.
  intros late settings.
  destruct (current_cycle_selection 0 sampleNow [late; incomeAt "t2" 500 sampleNow] settings)
    as (_ & _ & _ & Hexp & _).
  assert (Hstart : currentCycleStart 0 sampleNow settings <= Tx.timestamp late)
    by (vm_compute; discriminate).
  exact (proj2 (Hexp late) (conj (or_introl eq_refl) (conj eq_refl Hstart))).
Defined.

(** C7, witness: expenses of 50 and no income entry. *)
Lemma isOverActualBudget_iff_witness :
  isOverActualBudget
    (summarize 0 sampleNow [groceries] [expenseAt "t1" 50 "c1" sampleNow]
       {| Settings.currencyCode := "USD"; Settings.cycleMonths := 1 |}) = false.
Proof.
  apply (proj2 (isOverActualBudget_iff 0 sampleNow [groceries]
                  [expenseAt "t1" 50 "c1" sampleNow]
                  {| Settings.currencyCode := "USD"; Settings.cycleMonths := 1 |})).
  intros e [<-|[]]. discriminate.
Defined.

(** C8, witness: the scenario has a Groceries row, and a row with 80
    spent of a limit of 200 shows 40 percent. *)
Lemma chartData_rows_witness :
  let settings := {| Settings.currencyCode := "USD"; Settings.cycleMonths := 1 |} in
  let log := [expenseAt "t1" 50 "c1" sampleNow; expenseAt "t2" 30 "c1" sampleNow] in
  let row := {| ChartItem.name := "Groceries"; ChartItem.value := 80;
                ChartItem.color := JString "#673AB7"; ChartItem.id := "c1";
                ChartItem.budgetLimit := 200;
                ChartItem.baseFrequency := JString "monthly";
                ChartItem.baseLimit := 200 |} in
  (forall cat, In cat [groceries] -> ~ In (Cat.id cat) objectPrototypeNames) /\
  (exists r, In r (Summary.chartData (summarize 0 sampleNow [groceries] log settings)) /\
             ChartItem.id r = "c1"%string) /\
  (percentage row == 40)%Q.
Proof.
  intros settings log row.
  assert (H : forall cat, In cat [groceries] -> ~ In (Cat.id cat) objectPrototypeNames).
  { intros cat [<-|[]] Hin; vm_compute in Hin;
      repeat (destruct Hin as [Hin|Hin]; [discriminate Hin|]); exact Hin. }
  split; [exact H|].
  destruct (chartData_rows 0 sampleNow [groceries] log settings H)
    as (_ & _ & Hkept & Hpct).
  split.
  - destruct (Hkept groceries) as (r & Hr & Hid & _).
    + left. reflexivity.
    + right. vm_compute. reflexivity.
    + exists r. split; [exact Hr|exact Hid].
  - rewrite (proj1 (Hpct row)).
    + vm_compute. reflexivity.
    + vm_compute. reflexivity.
Defined.

(** C9, witness: a legacy record with only [budgetLimit = "75"]. *)
Lemma sanitize_fallback_witness :
  let legacy := {| Cat.id := "c9"; Cat.name := "Rent";
                   Cat.baseLimit := JUndefined; Cat.budgetLimit := JString "75";
                   Cat.baseFrequency := JUndefined;
                   Cat.color := JUndefined; Cat.icon := JUndefined |} in
  Cat.baseLimit (sanitize legacy) = JNumber (Num 75) /\
  Cat.baseFrequency (sanitize legacy) = JString "monthly".
Proof.
  intros legacy.
  destruct (sanitize_fallback legacy) as (_ & _ & Habsent & _ & Hfreq & _).
  split.
  - destruct (Habsent eq_refl) as [_ Hp]. apply Hp.
    + vm_compute. reflexivity.
    + vm_compute. discriminate.
  - apply Hfreq. reflexivity.
Defined.

(** C10, witness: a log with an expense of the deleted category [c0]. *)
Lemma orphan_expense_counts_witness :
  let log := [expenseAt "t1" 50 "c1" sampleNow; expenseAt "t2" 30 "c0" sampleNow] in
  let settings := {| Settings.currencyCode := "USD"; Settings.cycleMonths := 1 |} in
  let orphan := expenseAt "t2" 30 "c0" sampleNow in
  (forall cat, In cat [groceries] -> ~ In (Cat.id cat) objectPrototypeNames) /\
  (forall e, In e log -> 0 <= Tx.amount e)%Q /\
  In orphan (cycleExpenses 0 sampleNow log settings) /\
  ~ In (Tx.categoryId orphan) (List.map Cat.id [groceries]) /\
  ~ In (Tx.categoryId orphan) objectPrototypeNames /\
  (forall row, In row (Summary.chartData (summarize 0 sampleNow [groceries] log settings)) ->
     ChartItem.id row <> Tx.categoryId orphan) /\
  (Tx.amount orphan <= Summary.totalExpenses (summarize 0 sampleNow [groceries] log settings))%Q.
Proof.
  intros log settings orphan.
  assert (H1 : forall cat, In cat [groceries] -> ~ In (Cat.id cat) objectPrototypeNames).
  { intros cat [<-|[]] Hin; vm_compute in Hin;
      repeat (destruct Hin as [Hin|Hin]; [discriminate Hin|]); exact Hin. }
  assert (H2 : (forall e, In e log -> 0 <= Tx.amount e)%Q).
  { intros e [<-|[<-|[]]]; vm_compute; discriminate. }
  assert (Hstart : currentCycleStart 0 sampleNow settings <= Tx.timestamp orphan)
    by (vm_compute; discriminate).
  assert (H3 : In orphan (cycleExpenses 0 sampleNow log settings)).
  { exact (proj2 (In_cycleExpenses 0 sampleNow log settings orphan)
             (conj (or_intror (or_introl eq_refl)) (conj eq_refl Hstart))). }
  assert (H4 : ~ In (Tx.categoryId orphan) (List.map Cat.id [groceries])).
  { simpl. intros [H|[]]. discriminate H. }
  assert (H5 : ~ In (Tx.categoryId orphan) objectPrototypeNames).
  { intros Hin; vm_compute in Hin;
      repeat (destruct Hin as [Hin|Hin]; [discriminate Hin|]); exact Hin. }
  split; [exact H1|]. split; [exact H2|]. split; [exact H3|]. split; [exact H4|].
  split; [exact H5|].
  pose proof (orphan_expense_counts 0 sampleNow [groceries] log settings H1 H2) as T.
  cbv zeta in T. destruct T as (Horphan & _).
  destruct (Horphan orphan H3 H4 H5) as (Hrow & Hle & _).
  split; [exact Hrow|exact Hle].
Defined.

(** ** Checks of the model on known values *)

Example epoch_fields : getFullYear 0 0 = 1970 /\ getMonth 0 0 = 0 /\ getDate 0 0 = 1.
Proof. repeat split; vm_compute; reflexivity. Qed.

Example sampleNow_fields :
  getFullYear 0 sampleNow = 2024 /\ getMonth 0 sampleNow = 2 /\ getDate 0 sampleNow = 15 /\
  getTimeOfDay 0 sampleNow = 36000000.
Proof. repeat split; vm_compute; reflexivity. Qed.

Example leap_day_2024 :
  getMonth 0 (newDate 0 2024 1 29) = 1 /\ getDate 0 (newDate 0 2024 1 29) = 29 /\
  getMonth 0 (newDate 0 2023 1 29) = 2 /\ getDate 0 (newDate 0 2023 1 29) = 1.
Proof. repeat split; vm_compute; reflexivity. Qed.

Example two_digit_year : getFullYear 0 (newDate 0 50 0 1) = 1950.
Proof. vm_compute. reflexivity. Qed.

Example setMonth_rolls_over :
  getMonth 0 (setMonth 0 (newDate 0 2024 2 31) 1) = 2 /\
  getDate 0 (setMonth 0 (newDate 0 2024 2 31) 1) = 2.
Proof. repeat split; vm_compute; reflexivity. Qed.

Example zone_offset_shifts_the_day :
  getDate 19800000 (newDate 0 2024 2 15 + 72000000) = 16.
Proof. vm_compute. reflexivity. Qed.

Example startOfCycle_quarter : startOfCycle 0 sampleNow 3 = newDate 0 2024 0 1.
Proof. vm_compute. reflexivity. Qed.

Example parseFloat_prefix :
  exists q, parseFloat (JString "  12.5e1abc") = Num q /\ (q == 125)%Q.
Proof. eexists. split; [vm_compute; reflexivity|vm_compute; reflexivity]. Qed.

Example parseFloat_not_numeric :
  parseFloat (JString "abc") = NaN /\ parseFloat (JString ".") = NaN /\
  parseFloat (JString "") = NaN /\ parseFloat JUndefined = NaN.
Proof. repeat split; vm_compute; reflexivity. Qed.

Example calculateCycleBudget_daily :
  (calculateCycleBudget (JNumber (Num 100)) (JString "daily") 2 == 60875 # 10)%Q.
Proof. vm_compute. reflexivity. Qed.

Example calculateCycleBudget_bimonthly :
  (calculateCycleBudget (JNumber (Num 150)) (JString "bimonthly") 2 == 150)%Q.
Proof. vm_compute. reflexivity. Qed.

Example calculateCycleBudget_negative_limit :
  (calculateCycleBudget (JNumber (Num (-5))) (JString "monthly") 1 == 0)%Q.
Proof. vm_compute. reflexivity. Qed.

Example current_bar_misses_today :
  List.map Bar.Expenses
    (cycleData 0 sampleNow 1
       [expenseAt "t1" 50 "c1" sampleNow; expenseAt "t2" 30 "c1" sampleNow])
  = [0; 0; 0; 0; 0]%Q.
Proof. vm_compute. reflexivity. Qed.

Example bar_names :
  List.map Bar.name (cycleData 0 sampleNow 1 [expenseAt "t1" 50 "c1" sampleNow])
  = ["Nov-v 2023"; "Dec-c 2023"; "Jan-n 2024"; "Feb-b 2024"; "Current"]%string.
Proof. vm_compute. reflexivity. Qed.

(** ** The current cycle as a span of months *)

Lemma MakeDate_midnight_le d t : MakeDate d 0 <= t <-> d <= Day t.
Proof.
  unfold MakeDate, Day, msPerDay. split; intros H; Z.div_mod_to_equations; lia.
Qed.

Lemma monthIndex_ge_iff t k : firstOfMonth k <= Day t <-> k <= monthIndex t.
Proof.
  split; [apply monthIndex_ge|]. intros H.
  destruct (monthIndex_spec t) as [Slo _].
  pose proof (firstOfMonth_le k (monthIndex t) H). lia.
Qed.

Lemma startOfCycle_le_iff tza now cycleMonths ts :
  100 <= getFullYear tza now ->
  startOfCycle tza now cycleMonths <= ts <->
  localMonthIndex tza now - (cycleMonths - 1) <= localMonthIndex tza ts.
Proof.
  intros Hy. rewrite (local_order tza), (LocalTime_startOfCycle tza now cycleMonths Hy).
  rewrite MakeDate_midnight_le, monthIndex_ge_iff, <- localMonthIndex_eq. reflexivity.
Qed.

(** X1: the current cycle is the month of the clock reading and the
    [cycleMonths - 1] months before it: a time is at or after
    [startOfCycle] exactly when its month is at most [cycleMonths - 1]
    months before the month of [now]; so the expenses of the current cycle
    are the expense-type transactions of those months and of any later
    month. *)
Theorem current_cycle_by_month (tza now : Z) (expenses : list Tx.t) (settings : Settings.t) :
  100 <= getFullYear tza now ->
  (forall cycleMonths ts,
     startOfCycle tza now cycleMonths <= ts <->
     localMonthIndex tza now - (cycleMonths - 1) <= localMonthIndex tza ts) /\
  (forall e,
     In e (cycleExpenses tza now expenses settings) <->
     In e expenses /\ Tx.type e = "expense"%string /\
     localMonthIndex tza now - (cycleMonthsOr1 settings - 1)
       <= localMonthIndex tza (Tx.timestamp e)).
Proof.
  intros Hy. split.
  - intros cycleMonths ts. apply startOfCycle_le_iff. exact Hy.
  - intros e. rewrite In_cycleExpenses. unfold currentCycleStart.
    rewrite (startOfCycle_le_iff tza now _ _ Hy). reflexivity.
Qed.

(** ** The cycle budget grows with the cycle *)

Lemma calculateCycleBudget_mono baseLimit baseFrequency c1 c2 :
  (c1 <= c2)%Q ->
  (calculateCycleBudget baseLimit baseFrequency c1 <=
   calculateCycleBudget baseLimit baseFrequency c2)%Q.
Proof.
  intros Hc. unfold calculateCycleBudget. cbv zeta.
  destruct (Qle_bool (or0 (parseFloat baseLimit)) 0) eqn:E; [lra|].
  assert (Hp : (0 < or0 (parseFloat baseLimit))%Q).
  { apply Qnot_le_lt. intros H. apply Qle_bool_iff in H. congruence. }
  generalize dependent (or0 (parseFloat baseLimit)). intros p _ Hp.
  assert (H1 : (p * c1 <= p * c2)%Q) by (apply Qmult_le_l; assumption).
  assert (H2 : (p * (c1 / 2) <= p * (c2 / 2))%Q).
  { apply Qmult_le_l; [assumption|]. unfold Qdiv.
    apply Qmult_le_compat_r; [assumption|discriminate]. }
  destruct (strict_eq_string baseFrequency "daily").
  { apply Qmult_le_compat_r; [exact H1|discriminate]. }
  destruct (strict_eq_string baseFrequency "monthly"); [exact H1|].
  destruct (strict_eq_string baseFrequency "bimonthly"); [exact H2|exact H1].
Qed.

Lemma Qsum_map_le {A : Type} (f g : A -> Q) (l : list A) :
  (forall x, In x l -> f x <= g x)%Q ->
  (Qsum (List.map f l) <= Qsum (List.map g l))%Q.
Proof.
  induction l as [|x l IH]; intros H; simpl; [lra|].
  pose proof (H x (or_introl eq_refl)).
  pose proof (IH (fun y Hy => H y (or_intror Hy))). lra.
Qed.

(** X2: the cycle budget never shrinks when the cycle gets longer, and so
    neither does [totalBudgetLimit]; for a cycle that is not negative, a
    limit budgets least when it is read per two months, more per month,
    and most per day; and a limit per two months over a cycle of 2 months
    is the limit per month over 1 month. *)
Theorem cycle_budget_monotone (baseLimit : value) (categories : list Cat.t) :
  (forall baseFrequency c1 c2, (c1 <= c2)%Q ->
     (calculateCycleBudget baseLimit baseFrequency c1 <=
      calculateCycleBudget baseLimit baseFrequency c2)%Q) /\
  (forall m n, m <= n ->
     (totalBudgetLimitOf categories m <= totalBudgetLimitOf categories n)%Q) /\
  (forall c, (0 <= c)%Q ->
     (calculateCycleBudget baseLimit (JString "bimonthly") c <=
      calculateCycleBudget baseLimit (JString "monthly") c /\
      calculateCycleBudget baseLimit (JString "monthly") c <=
      calculateCycleBudget baseLimit (JString "daily") c)%Q) /\
  (calculateCycleBudget baseLimit (JString "bimonthly") 2 ==
   calculateCycleBudget baseLimit (JString "monthly") 1)%Q.
Proof.
  split; [intros bf c1 c2; apply calculateCycleBudget_mono|].
  split.
  { intros m n Hmn. rewrite !totalBudgetLimitOf_Qsum. apply Qsum_map_le.
    intros cat _. apply calculateCycleBudget_mono.
    rewrite <- Zle_Qle. exact Hmn. }
  unfold calculateCycleBudget. cbv zeta. cbn [strict_eq_string String.eqb Ascii.eqb Bool.eqb].
  destruct (Qle_bool (or0 (parseFloat baseLimit)) 0) eqn:E.
  { split; [intros c Hc; split; lra|reflexivity]. }
  assert (Hp : (0 < or0 (parseFloat baseLimit))%Q).
  { apply Qnot_le_lt. intros H. apply Qle_bool_iff in H. congruence. }
  generalize dependent (or0 (parseFloat baseLimit)). intros p _ Hp.
  split; [|field].
  intros c Hc.
  assert (H0 : (0 <= p * c)%Q) by (apply Qmult_le_0_compat; lra).
  split.
  - assert (E2 : (p * (c / 2) == p * c * (1 # 2))%Q) by field. rewrite E2.
    generalize dependent (p * c)%Q. intros x Hx. lra.
  - unfold AVG_DAYS_PER_MONTH. generalize dependent (p * c)%Q. intros x Hx. lra.
Qed.

(** ** The name shown for a frequency *)

Lemma frequencyName_cases baseFrequency :
  (baseFrequency = JString "daily" /\ frequencyName baseFrequency = "Daily"%string) \/
  (baseFrequency = JString "bimonthly" /\ frequencyName baseFrequency = "Bi-Monthly"%string) \/
  (baseFrequency <> JString "daily" /\ baseFrequency <> JString "bimonthly" /\
   frequencyName baseFrequency = "Monthly"%string).
Proof.
  unfold frequencyName, FREQUENCIES. cbn [List.find fst snd].
  destruct (strict_eq_string baseFrequency "monthly") eqn:Em.
  { apply strict_eq_string_true in Em. subst. right. right.
    repeat split; try discriminate. }
  destruct (strict_eq_string baseFrequency "bimonthly") eqn:Eb.
  { apply strict_eq_string_true in Eb. subst. right. left. split; reflexivity. }
  destruct (strict_eq_string baseFrequency "daily") eqn:Ed.
  { apply strict_eq_string_true in Ed. subst. left. split; reflexivity. }
  apply strict_eq_string_false in Eb, Ed. right. right. repeat split; assumption.
Qed.

(** X3: the frequency name shown beside a category agrees with the formula
    its budget is computed with: for a positive limit [p], the name is
    "Daily" and the budget [p * cycleMonths * 30.4375], or the name is
    "Bi-Monthly" and the budget [p * (cycleMonths / 2)], or the name is
    "Monthly" and the budget [p * cycleMonths]; a frequency that is
    missing or unknown is shown as "Monthly". *)
Theorem frequencyName_matches_formula (baseLimit baseFrequency : value)
    (cycleMonths p : Q) :
  parseFloat baseLimit = Num p -> (0 < p)%Q ->
  let r := calculateCycleBudget baseLimit baseFrequency cycleMonths in
  (baseFrequency = JString "daily" /\ frequencyName baseFrequency = "Daily"%string /\
   (r == p * cycleMonths * (304375 # 10000))%Q) \/
  (baseFrequency = JString "bimonthly" /\
   frequencyName baseFrequency = "Bi-Monthly"%string /\
   (r == p * (cycleMonths / 2))%Q) \/
  (baseFrequency <> JString "daily" /\ baseFrequency <> JString "bimonthly" /\
   frequencyName baseFrequency = "Monthly"%string /\ (r == p * cycleMonths)%Q).
Proof.
  intros Hp Hpos r. unfold r.
  rewrite calculateCycleBudget_pos by (rewrite Hp, or0_Num; exact Hpos).
  cbv zeta. rewrite Hp.
  destruct (frequencyName_cases baseFrequency) as [[-> Hn]|[[-> Hn]|(Nd & Nb & Hn)]].
  - left. split; [reflexivity|]. split; [exact Hn|].
    cbn [strict_eq_string String.eqb]. simpl. rewrite or0_Num. reflexivity.
  - right. left. split; [reflexivity|]. split; [exact Hn|].
    simpl. rewrite or0_Num. reflexivity.
  - right. right. split; [exact Nd|]. split; [exact Nb|]. split; [exact Hn|].
    apply strict_eq_string_false in Nd, Nb. rewrite Nd, Nb, or0_Num. reflexivity.
Qed.

(** ** Trimming *)

Lemma trimEnd_idem s : trimEnd (trimEnd s) = trimEnd s.
Proof.
  induction s as [|c r IH]; simpl; [reflexivity|].
  destruct (trimEnd r) as [|c' r'] eqn:E.
  - destruct (is_white c) eqn:W; simpl; [reflexivity|]. rewrite W. reflexivity.
  - simpl. simpl in IH. rewrite IH. reflexivity.
Qed.

Lemma skip_white_head c r : is_white c = false -> skip_white (String c r) = String c r.
Proof. intros W. simpl. rewrite W. reflexivity. Qed.

Lemma skip_white_stable s : skip_white (skip_white s) = skip_white s.
Proof.
  induction s as [|c r IH]; simpl; [reflexivity|].
  destruct (is_white c) eqn:W; [exact IH|]. simpl. rewrite W. reflexivity.
Qed.

Lemma skip_white_length s : (String.length (skip_white s) <= String.length s)%nat.
Proof.
  induction s as [|a r IH]; simpl; [lia|]. destruct (is_white a); simpl; lia.
Qed.

Lemma skip_white_fixed c r : skip_white (String c r) = String c r -> is_white c = false.
Proof.
  simpl. destruct (is_white c); [|reflexivity]. intros E.
  pose proof (skip_white_length r) as L. rewrite E in L. simpl in L. lia.
Qed.

Lemma skip_white_trimEnd s : skip_white s = s -> skip_white (trimEnd s) = trimEnd s.
Proof.
  destruct s as [|c r]; [reflexivity|]. intros E.
  pose proof (skip_white_fixed c r E) as W. simpl.
  destruct (trimEnd r); rewrite ?W; apply skip_white_head; exact W.
Qed.

Lemma trim_idem s : trim (trim s) = trim s.
Proof.
  unfold trim. rewrite (skip_white_trimEnd (skip_white s) (skip_white_stable s)).
  apply trimEnd_idem.
Qed.

(** A trimmed string does not begin with white space. *)
Lemma trim_no_leading s c r : trim s = String c r -> is_white c = false.
Proof.
  intros E. pose proof (skip_white_trimEnd (skip_white s) (skip_white_stable s)) as H.
  fold (trim s) in H. rewrite E in H. apply (skip_white_fixed c r H).
Qed.

(** ** Normalised categories *)

Lemma sanitize_baseLimit_number cat :
  Cat.baseLimit (sanitize cat) =
    JNumber (Num (or0 (num_or (parseFloat (Cat.baseLimit cat))
                              (parseFloat (Cat.budgetLimit cat))))).
Proof. reflexivity. Qed.

Lemma or0_num_or_idem a b : or0 (num_or (Num (or0 (num_or a b))) b) = or0 (num_or a b).
Proof.
  unfold or0 at 1. unfold num_or at 1 2.
  destruct (truthy_number (Num (or0 (num_or a b)))) eqn:T.
  - rewrite T. reflexivity.
  - destruct (truthy_number a) eqn:Ta.
    + exfalso. unfold num_or, or0 in T. rewrite Ta in T. unfold num_or in T.
      rewrite Ta in T. destruct a; simpl in *; congruence.
    + unfold num_or. rewrite Ta. reflexivity.
Qed.

Lemma truthy_or_else v d : truthy d = true -> truthy (or_else v d) = true.
Proof. intros H. unfold or_else. destruct (truthy v) eqn:E; assumption. Qed.

Lemma sanitize_idem cat : sanitize (sanitize cat) = sanitize cat.
Proof.
  unfold sanitize. cbn [Cat.id Cat.name Cat.baseLimit Cat.budgetLimit
    Cat.baseFrequency Cat.color Cat.icon parseFloat].
  rewrite or0_num_or_idem. unfold or_else at 1.
  rewrite (truthy_or_else (Cat.baseFrequency cat) (JString "monthly") eq_refl).
  reflexivity.
Qed.

(** X4: normalising a category twice is the same as normalising it once;
    a normalised category has a numeric [baseLimit] and a truthy
    [baseFrequency]; and a [baseLimit] that parses to 0 counts as missing:
    the deprecated [budgetLimit], when it parses to a number other than 0,
    takes its place. *)
Theorem sanitize_idempotent (cat : Cat.t) :
  sanitize (sanitize cat) = sanitize cat /\
  sanitizedCats (sanitizedCats [cat]) = sanitizedCats [cat] /\
  (exists q, Cat.baseLimit (sanitize cat) = JNumber (Num q)) /\
  truthy (Cat.baseFrequency (sanitize cat)) = true /\
  (forall z b, parseFloat (Cat.baseLimit cat) = Num z -> (z == 0)%Q ->
     parseFloat (Cat.budgetLimit cat) = Num b -> ~ (b == 0)%Q ->
     Cat.baseLimit (sanitize cat) = JNumber (Num b)).
Proof.
  split; [apply sanitize_idem|]. split.
  { unfold sanitizedCats. simpl. rewrite sanitize_idem. reflexivity. }
  split; [eexists; apply sanitize_baseLimit_number|]. split.
  { unfold sanitize. cbn [Cat.baseFrequency]. apply truthy_or_else. reflexivity. }
  intros z b Ez Hz Eb Hb. rewrite sanitize_baseLimit_number, Ez, Eb.
  unfold num_or, truthy_number. apply Qeq_bool_iff in Hz. rewrite Hz. simpl.
  rewrite or0_nonzero by exact Hb. reflexivity.
Qed.

(** ** Adding and editing a category *)

Lemma or0_parseFloat_or_else v :
  (or0 (parseFloat (or_else v (JNumber (Num 0)))) == or0 (parseFloat v))%Q.
Proof.
  unfold or_else. destruct (truthy v) eqn:T; [reflexivity|].
  destruct v as [| |b|n|s]; simpl in *; try reflexivity.
  - destruct n as [|q]; [reflexivity|]. simpl in T.
    apply negb_false_iff, Qeq_bool_iff in T. rewrite !or0_Num. symmetry. exact T.
  - apply negb_false_iff, String.eqb_eq in T. subst. reflexivity.
Qed.

Lemma calculateCycleBudget_ext b1 b2 baseFrequency cycleMonths :
  (or0 (parseFloat b1) == or0 (parseFloat b2))%Q ->
  (calculateCycleBudget b1 baseFrequency cycleMonths ==
   calculateCycleBudget b2 baseFrequency cycleMonths)%Q.
Proof.
  intros E. unfold calculateCycleBudget. cbv zeta.
  assert (Eb : Qle_bool (or0 (parseFloat b1)) 0 = Qle_bool (or0 (parseFloat b2)) 0).
  { destruct (Qle_bool (or0 (parseFloat b2)) 0) eqn:H.
    - apply Qle_bool_iff. apply Qle_bool_iff in H. rewrite E. exact H.
    - destruct (Qle_bool (or0 (parseFloat b1)) 0) eqn:H1; [|reflexivity].
      apply Qle_bool_iff in H1. rewrite E in H1. apply Qle_bool_iff in H1. congruence. }
  rewrite Eb. destruct (Qle_bool (or0 (parseFloat b2)) 0); [reflexivity|].
  destruct (strict_eq_string baseFrequency "daily"); [rewrite E; reflexivity|].
  destruct (strict_eq_string baseFrequency "monthly"); [rewrite E; reflexivity|].
  destruct (strict_eq_string baseFrequency "bimonthly"); rewrite E; reflexivity.
Qed.

Lemma or0_num_or_NaN_r n : (or0 (num_or n NaN) == or0 n)%Q.
Proof.
  destruct n as [|q]; [reflexivity|].
  unfold num_or. destruct (truthy_number (Num q)) eqn:T; [reflexivity|].
  simpl in T. apply negb_false_iff, Qeq_bool_iff in T.
  rewrite or0_NaN, or0_Num. symmetry. exact T.
Qed.

Lemma or0_idem n : (or0 (Num (or0 n)) == or0 n)%Q.
Proof. apply or0_Num. Qed.

(** X5: a category added through the form and read back through the
    listener keeps what was typed: its name is the trimmed name (trimming
    it again changes nothing), its limit is the number the typed limit
    parses to, or 0 when that is not a number, and its cycle budget is the
    budget of the typed limit. *)
Theorem handleAddCategory_roundtrip (id : string) (catData : CatForm.t) (cycleMonths : Q) :
  let cat := sanitize (handleAddCategory id catData) in
  Cat.id cat = id /\
  Cat.name cat = trim (CatForm.name catData) /\
  trim (Cat.name cat) = Cat.name cat /\
  (exists q, Cat.baseLimit cat = JNumber (Num q) /\
             (q == or0 (parseFloat (CatForm.baseLimit catData)))%Q) /\
  (calculateCycleBudget (Cat.baseLimit cat) (Cat.baseFrequency cat) cycleMonths ==
   calculateCycleBudget (CatForm.baseLimit catData)
     (or_else (CatForm.baseFrequency catData) (JString "monthly")) cycleMonths)%Q.
Proof.
  intros cat. unfold cat.
  assert (Hq : (or0 (num_or (parseFloat (Cat.baseLimit (handleAddCategory id catData)))
                            (parseFloat (Cat.budgetLimit (handleAddCategory id catData))))
                == or0 (parseFloat (CatForm.baseLimit catData)))%Q).
  { unfold handleAddCategory. cbn [Cat.baseLimit Cat.budgetLimit parseFloat].
    rewrite <- or0_parseFloat_or_else.
    apply or0_num_or_NaN_r. }
  split; [reflexivity|]. split; [reflexivity|]. split; [apply trim_idem|]. split.
  - eexists. split; [apply sanitize_baseLimit_number|exact Hq].
  - rewrite sanitize_baseLimit_number.
    apply calculateCycleBudget_ext. cbn [parseFloat]. rewrite or0_Num. exact Hq.
Qed.

Lemma sanitize_or_else_frequency cat :
  or_else (Cat.baseFrequency (sanitize cat)) (JString "monthly") =
    Cat.baseFrequency (sanitize cat).
Proof.
  unfold sanitize. cbn [Cat.baseFrequency]. unfold or_else at 1.
  rewrite (truthy_or_else (Cat.baseFrequency cat) (JString "monthly") eq_refl).
  reflexivity.
Qed.

Lemma sanitize_parse_baseLimit cat :
  JNumber (parseFloat (Cat.baseLimit (sanitize cat))) = Cat.baseLimit (sanitize cat).
Proof. reflexivity. Qed.

Lemma saveEdit_Some st id u :
  saveEdit st = Some (id, u) <->
  trim (Edit.editName st) <> ""%string /\
  parseFloat (Edit.editLimit st) <> NaN /\
  id = Edit.editingCatId st /\
  u = {| CatForm.name := trim (Edit.editName st);
         CatForm.baseLimit := JNumber (parseFloat (Edit.editLimit st));
         CatForm.baseFrequency := Edit.editFrequency st;
         CatForm.color := Edit.editColor st;
         CatForm.icon := Edit.editIcon st |}.
Proof.
  unfold saveEdit.
  destruct (String.eqb_spec (trim (Edit.editName st)) "") as [E|N].
  - simpl. split; [discriminate|]. intros (H & _). contradiction.
  - destruct (parseFloat (Edit.editLimit st)) as [|q] eqn:P; simpl.
    + split; [discriminate|]. intros (_ & H & _). contradiction.
    + split.
      * intros [= <- <-]. repeat split; [exact N|discriminate].
      * intros (_ & _ & -> & ->). reflexivity.
Qed.

(** X6: [saveEdit] saves nothing when the trimmed name is empty or the
    limit does not parse to a number, and otherwise passes on the trimmed
    name and the parsed limit with the other fields untouched, so a saved
    limit is always a number (which may be negative); opening a normalised
    category for editing and saving it unchanged passes on its own limit,
    frequency, colour and icon. *)
Theorem saveEdit_validates (st : Edit.t) (cat : Cat.t) :
  (saveEdit st = None <->
   trim (Edit.editName st) = ""%string \/ parseFloat (Edit.editLimit st) = NaN) /\
  (forall id u, saveEdit st = Some (id, u) ->
     id = Edit.editingCatId st /\
     CatForm.name u = trim (Edit.editName st) /\ CatForm.name u <> ""%string /\
     (exists q, CatForm.baseLimit u = JNumber (Num q) /\
                parseFloat (Edit.editLimit st) = Num q) /\
     CatForm.baseFrequency u = Edit.editFrequency st /\
     CatForm.color u = Edit.editColor st /\ CatForm.icon u = Edit.editIcon st) /\
  (trim (Cat.name cat) <> ""%string ->
   saveEdit (startEdit (sanitize cat)) =
     Some (Cat.id cat,
           {| CatForm.name := trim (Cat.name cat);
              CatForm.baseLimit := Cat.baseLimit (sanitize cat);
              CatForm.baseFrequency := Cat.baseFrequency (sanitize cat);
              CatForm.color := Cat.color cat;
              CatForm.icon := Cat.icon cat |})).
Proof.
  split; [|split].
  - unfold saveEdit.
    destruct (String.eqb_spec (trim (Edit.editName st)) "") as [E|N]; simpl.
    + split; [intros _; left; exact E|reflexivity].
    + destruct (parseFloat (Edit.editLimit st)) as [|q]; simpl.
      * split; [intros _; right; reflexivity|reflexivity].
      * split; [discriminate|]. intros [H|H]; [contradiction|discriminate].
  - intros id u H. apply saveEdit_Some in H. destruct H as (Hn & Hp & -> & ->).
    cbn [CatForm.name CatForm.baseLimit CatForm.baseFrequency CatForm.color CatForm.icon].
    split; [reflexivity|]. split; [reflexivity|]. split; [exact Hn|]. split.
    + destruct (parseFloat (Edit.editLimit st)) as [|q]; [contradiction|].
      exists q. split; reflexivity.
    + repeat split; reflexivity.
  - intros Hn. apply saveEdit_Some.
    unfold startEdit. cbn [Edit.editName Edit.editLimit Edit.editingCatId
      Edit.editFrequency Edit.editColor Edit.editIcon].
    rewrite sanitize_or_else_frequency, sanitize_parse_baseLimit.
    split; [exact Hn|]. split; [rewrite sanitize_baseLimit_number; discriminate|].
    split; reflexivity.
Qed.

(** ** Logging a transaction *)

Lemma cycleExpenses_app tza now l1 l2 settings :
  cycleExpenses tza now (l1 ++ l2) settings =
    cycleExpenses tza now l1 settings ++ cycleExpenses tza now l2 settings.
Proof. unfold cycleExpenses, filterData. rewrite !List.filter_app. reflexivity. Qed.

Lemma cycleBudgets_app tza now l1 l2 settings :
  cycleBudgets tza now (l1 ++ l2) settings =
    cycleBudgets tza now l1 settings ++ cycleBudgets tza now l2 settings.
Proof. unfold cycleBudgets, filterData. rewrite !List.filter_app. reflexivity. Qed.

Lemma cycleExpenses_one tza now tx settings :
  cycleExpenses tza now [tx] settings =
    if is_type "expense" tx && (currentCycleStart tza now settings <=? Tx.timestamp tx)
    then [tx] else [].
Proof.
  unfold cycleExpenses, filterData. cbn [List.filter].
  destruct (is_type "expense" tx); [|reflexivity]. cbn [List.filter andb].
  destruct (currentCycleStart tza now settings <=? Tx.timestamp tx); reflexivity.
Qed.

Lemma cycleBudgets_one tza now tx settings :
  cycleBudgets tza now [tx] settings =
    if is_type "budget" tx && (currentCycleStart tza now settings <=? Tx.timestamp tx)
    then [tx] else [].
Proof.
  unfold cycleBudgets, filterData. cbn [List.filter].
  destruct (is_type "budget" tx); [|reflexivity]. cbn [List.filter andb].
  destruct (currentCycleStart tza now settings <=? Tx.timestamp tx); reflexivity.
Qed.

Lemma cycleMonthsOr1_pos settings :
  0 <= Settings.cycleMonths settings -> 1 <= cycleMonthsOr1 settings.
Proof.
  intros H. unfold cycleMonthsOr1.
  destruct (Z.eqb_spec (Settings.cycleMonths settings) 0); lia.
Qed.

Lemma currentCycleStart_le_now tza now settings :
  100 <= getFullYear tza now -> 0 <= Settings.cycleMonths settings ->
  (currentCycleStart tza now settings <=? now) = true.
Proof.
  intros Hy Hc. apply Z.leb_le. unfold currentCycleStart.
  apply startOfCycle_le_now; [exact Hy|apply cycleMonthsOr1_pos; exact Hc].
Qed.

Lemma str_or_nonempty s d : d <> ""%string -> str_or s d <> ""%string.
Proof.
  intros Hd. unfold str_or. destruct (String.eqb_spec s ""); assumption.
Qed.

Lemma lookupOr0_expenseByCategoryOf_insert l1 tx l2 k :
  (lookupOr0 (expenseByCategoryOf (l1 ++ tx :: l2)) k ==
   lookupOr0 (expenseByCategoryOf (l1 ++ l2)) k +
   (if String.eqb (Tx.categoryId tx) k then Tx.amount tx else 0))%Q.
Proof.
  rewrite !lookupOr0_expenseByCategoryOf, !spentIn_app, spentIn_cons.
  destruct (String.eqb (Tx.categoryId tx) k); lra.
Qed.

(** X7: an expense logged at the clock reading [now], with an amount that
    parses to the number [q] and a category id that is not the name of a
    property of [Object.prototype], is delivered as a transaction with a
    source that is not empty and belongs to the current cycle at once,
    wherever the store places it in the log: the expenses of the cycle
    are those of before with the new one at its place, and
    [totalExpenses] is their sum in that order.  The income, the total of
    the limits and the spending under every other key stay as they were.
    When no expense of the cycle comes after the new one, [totalExpenses]
    is the total of before plus [q], and when none of its category does,
    so is the spending under its category.  In any place, for [q] not
    negative, [totalExpenses] and the spending under its category do not
    shrink and [remaining] does not grow. *)
Theorem handleAddExpense_counts (tza now : Z) (id : string) (expData : TxForm.t) (q : Q)
    (categories : list Cat.t) (l1 l2 : list Tx.t) (settings : Settings.t) :
  100 <= getFullYear tza now ->
  0 <= Settings.cycleMonths settings ->
  parseFloat (TxForm.amount expData) = Num q ->
  ~ In (TxForm.categoryId expData) objectPrototypeNames ->
  exists tx,
    fromSnapshot id (handleAddExpense expData now) = Some tx /\
    Tx.amount tx = q /\ Tx.source tx <> ""%string /\
    cycleExpenses tza now (l1 ++ tx :: l2) settings =
      cycleExpenses tza now l1 settings ++ tx :: cycleExpenses tza now l2 settings /\
    cycleBudgets tza now (l1 ++ tx :: l2) settings =
      cycleBudgets tza now (l1 ++ l2) settings /\
    let before := summarize tza now categories (l1 ++ l2) settings in
    let after := summarize tza now categories (l1 ++ tx :: l2) settings in
    let category := TxForm.categoryId expData in
    Summary.totalExpenses after =
      fold_left (fun sum entry => sum + Tx.amount entry)%Q
        (cycleExpenses tza now l2 settings)
        (sumAmounts (cycleExpenses tza now l1 settings) + q)%Q /\
    Summary.totalActualBudget after = Summary.totalActualBudget before /\
    Summary.totalBudgetLimit after = Summary.totalBudgetLimit before /\
    (forall k, k <> category -> ~ In k objectPrototypeNames ->
       lookupOr0 (Summary.expenseByCategory after) k ==
       lookupOr0 (Summary.expenseByCategory before) k)%Q /\
    (cycleExpenses tza now l2 settings = [] ->
       Summary.totalExpenses after == Summary.totalExpenses before + q /\
       Summary.remaining after ==
         Summary.totalBudgetLimit before - (Summary.totalExpenses before + q))%Q /\
    ((forall e, In e (cycleExpenses tza now l2 settings) -> Tx.categoryId e <> category) ->
       lookupOr0 (Summary.expenseByCategory after) category ==
       lookupOr0 (Summary.expenseByCategory before) category + q)%Q /\
    ((0 <= q)%Q ->
       Summary.totalExpenses before <= Summary.totalExpenses after /\
       Summary.remaining after <= Summary.remaining before /\
       lookupOr0 (Summary.expenseByCategory before) category <=
       lookupOr0 (Summary.expenseByCategory after) category)%Q.
Proof.
  intros Hy Hc Hq _.
  set (tx := {| Tx.id := id; Tx.amount := q; Tx.type := "expense";
                Tx.categoryId := TxForm.categoryId expData;
                Tx.source := str_or (trim (TxForm.source expData)) "Unknown";
                Tx.timestamp := now |}).
  exists tx.
  assert (Hone : cycleExpenses tza now [tx] settings = [tx]).
  { rewrite cycleExpenses_one. cbn [Tx.timestamp tx].
    rewrite (currentCycleStart_le_now tza now settings Hy Hc). reflexivity. }
  assert (Hexp : cycleExpenses tza now (l1 ++ tx :: l2) settings =
                 cycleExpenses tza now l1 settings ++ tx :: cycleExpenses tza now l2 settings).
  { change (tx :: l2) with ([tx] ++ l2). rewrite !cycleExpenses_app, Hone. reflexivity. }
  assert (Hbud : cycleBudgets tza now (l1 ++ tx :: l2) settings =
                 cycleBudgets tza now (l1 ++ l2) settings).
  { change (tx :: l2) with ([tx] ++ l2). rewrite !cycleBudgets_app, cycleBudgets_one.
    reflexivity. }
  split.
  { unfold fromSnapshot, handleAddExpense. cbn [Doc.amount parseFloat]. rewrite Hq.
    reflexivity. }
  split; [reflexivity|]. split; [apply str_or_nonempty; discriminate|].
  split; [exact Hexp|]. split; [exact Hbud|].
  intros before after category. unfold before, after, category, summarize, summary.
  cbn [Summary.totalExpenses Summary.remaining Summary.totalActualBudget
       Summary.totalBudgetLimit Summary.expenseByCategory].
  rewrite Hbud, Hexp, cycleExpenses_app.
  generalize (cycleExpenses tza now l1 settings) (cycleExpenses tza now l2 settings).
  intros c1 c2.
  assert (Ht : (sumAmounts (c1 ++ tx :: c2) == sumAmounts (c1 ++ c2) + q)%Q).
  { rewrite totalExpenses_split. cbn [Tx.amount tx]. lra. }
  assert (Hk : forall k, (lookupOr0 (expenseByCategoryOf (c1 ++ tx :: c2)) k ==
                          lookupOr0 (expenseByCategoryOf (c1 ++ c2)) k +
                          (if String.eqb (TxForm.categoryId expData) k then q else 0))%Q).
  { intros k. apply (lookupOr0_expenseByCategoryOf_insert c1 tx c2 k). }
  split; [apply (sumAmounts_insert c1 tx c2)|]. split; [reflexivity|].
  split; [reflexivity|]. split.
  { intros k Hne _. rewrite Hk.
    destruct (String.eqb_spec (TxForm.categoryId expData) k) as [E|_];
      [exfalso; apply Hne; symmetry; exact E|lra]. }
  split.
  { intros _. rewrite Ht. split; reflexivity. }
  split.
  { intros _. rewrite Hk, String.eqb_refl. reflexivity. }
  intros Hq0. rewrite Ht, Hk, String.eqb_refl.
  generalize (lookupOr0 (expenseByCategoryOf (c1 ++ c2)) (TxForm.categoryId expData)).
  generalize (sumAmounts (c1 ++ c2)).
  generalize (totalBudgetLimitOf categories (cycleMonthsOr1 settings)).
  intros x y z. repeat split; lra.
Qed.

(** X8: an income logged at the clock reading [now], with an amount that
    parses to the number [q], is delivered under the category id "income"
    with a source that is not empty, and belongs to the current cycle at
    once, wherever the store places it in the log: the income entries of
    the cycle are those of before with the new one at its place, and
    [totalActualBudget] is their sum in that order.  When no income of
    the cycle comes after the new one, that is the income of before plus
    [q]; in any place, for [q] not negative, the income does not shrink.
    Nothing else changes: the expenses of the cycle, [totalExpenses],
    [remaining], the spending by category and the rows of the chart are
    the same as before. *)
Theorem handleAddBudgetEntry_counts (tza now : Z) (id : string) (budData : TxForm.t) (q : Q)
    (categories : list Cat.t) (l1 l2 : list Tx.t) (settings : Settings.t) :
  100 <= getFullYear tza now ->
  0 <= Settings.cycleMonths settings ->
  parseFloat (TxForm.amount budData) = Num q ->
  exists tx,
    fromSnapshot id (handleAddBudgetEntry budData now) = Some tx /\
    Tx.amount tx = q /\ Tx.source tx <> ""%string /\
    Tx.categoryId tx = "income"%string /\
    cycleBudgets tza now (l1 ++ tx :: l2) settings =
      cycleBudgets tza now l1 settings ++ tx :: cycleBudgets tza now l2 settings /\
    cycleExpenses tza now (l1 ++ tx :: l2) settings =
      cycleExpenses tza now (l1 ++ l2) settings /\
    let before := summarize tza now categories (l1 ++ l2) settings in
    let after := summarize tza now categories (l1 ++ tx :: l2) settings in
    Summary.totalActualBudget after =
      fold_left (fun sum entry => sum + Tx.amount entry)%Q
        (cycleBudgets tza now l2 settings)
        (sumAmounts (cycleBudgets tza now l1 settings) + q)%Q /\
    (cycleBudgets tza now l2 settings = [] ->
       Summary.totalActualBudget after == Summary.totalActualBudget before + q)%Q /\
    ((0 <= q)%Q ->
       Summary.totalActualBudget before <= Summary.totalActualBudget after)%Q /\
    Summary.totalExpenses after = Summary.totalExpenses before /\
    Summary.remaining after = Summary.remaining before /\
    Summary.expenseByCategory after = Summary.expenseByCategory before /\
    Summary.chartData after = Summary.chartData before.
Proof.
  intros Hy Hc Hq.
  set (tx := {| Tx.id := id; Tx.amount := q; Tx.type := "budget";
                Tx.categoryId := "income";
                Tx.source := str_or (trim (TxForm.source budData)) "Uncategorized Income";
                Tx.timestamp := now |}).
  exists tx.
  assert (Hone : cycleBudgets tza now [tx] settings = [tx]).
  { rewrite cycleBudgets_one. cbn [Tx.timestamp tx].
    rewrite (currentCycleStart_le_now tza now settings Hy Hc). reflexivity. }
  assert (Hbud : cycleBudgets tza now (l1 ++ tx :: l2) settings =
                 cycleBudgets tza now l1 settings ++ tx :: cycleBudgets tza now l2 settings).
  { change (tx :: l2) with ([tx] ++ l2). rewrite !cycleBudgets_app, Hone. reflexivity. }
  assert (Hexp : cycleExpenses tza now (l1 ++ tx :: l2) settings =
                 cycleExpenses tza now (l1 ++ l2) settings).
  { change (tx :: l2) with ([tx] ++ l2). rewrite !cycleExpenses_app, cycleExpenses_one.
    reflexivity. }
  split.
  { unfold fromSnapshot, handleAddBudgetEntry. cbn [Doc.amount parseFloat]. rewrite Hq.
    reflexivity. }
  split; [reflexivity|]. split; [apply str_or_nonempty; discriminate|].
  split; [reflexivity|]. split; [exact Hbud|]. split; [exact Hexp|].
  intros before after. unfold before, after, summarize, summary.
  cbn [Summary.totalExpenses Summary.remaining Summary.totalActualBudget
       Summary.expenseByCategory Summary.chartData].
  rewrite Hexp, Hbud, cycleBudgets_app.
  generalize (cycleBudgets tza now l1 settings) (cycleBudgets tza now l2 settings).
  intros b1 b2.
  assert (Ht : (sumAmounts (b1 ++ tx :: b2) == sumAmounts (b1 ++ b2) + q)%Q).
  { rewrite totalExpenses_split. cbn [Tx.amount tx]. lra. }
  split; [apply (sumAmounts_insert b1 tx b2)|].
  split; [intros _; exact Ht|].
  split; [intros Hq0; rewrite Ht; lra|].
  repeat split; reflexivity.
Qed.

(** ** The comparison series and the summary *)

Lemma LocalTime_inj tza x y : LocalTime tza x = LocalTime tza y -> x = y.
Proof. unfold LocalTime. lia. Qed.

Lemma cycleStartDate_0 tza now cycleMonths :
  100 <= getFullYear tza now ->
  cycleStartDate tza now cycleMonths 0 = startOfCycle tza now cycleMonths.
Proof.
  intros Hy. apply (LocalTime_inj tza).
  rewrite (LocalTime_cycleStartDate tza now cycleMonths Hy),
          (LocalTime_startOfCycle tza now cycleMonths Hy).
  do 2 f_equal. generalize (localMonthIndex tza now). intros K. lia.
Qed.

Lemma Qsum_filter_mono {A : Type} (f : A -> Q) (p q : A -> bool) (l : list A) :
  (forall x, In x l -> 0 <= f x)%Q ->
  (forall x, In x l -> p x = true -> q x = true) ->
  (Qsum (List.map f (List.filter p l)) <= Qsum (List.map f (List.filter q l)))%Q.
Proof.
  induction l as [|x l IH]; intros Hf Hpq; simpl.
  - lra.
  - pose proof (Hf x (or_introl eq_refl)) as Hx.
    pose proof (IH (fun y Hy => Hf y (or_intror Hy))
                   (fun y Hy => Hpq y (or_intror Hy))) as Hrec.
    destruct (p x) eqn:Px.
    + rewrite (Hpq x (or_introl eq_refl) Px). simpl. lra.
    + destruct (q x); simpl; lra.
Qed.

Lemma filter_ext_in {A : Type} (p q : A -> bool) (l : list A) :
  (forall x, In x l -> p x = q x) -> List.filter p l = List.filter q l.
Proof.
  induction l as [|x l IH]; intros H; simpl; [reflexivity|].
  rewrite (H x (or_introl eq_refl)), (IH (fun y Hy => H y (or_intror Hy))). reflexivity.
Qed.

Lemma cycleExpenses_filter tza now expenses settings :
  cycleExpenses tza now expenses settings =
    List.filter (fun e => is_type "expense" e
                          && (currentCycleStart tza now settings <=? Tx.timestamp e))
      expenses.
Proof. unfold cycleExpenses, filterData. apply filter_filter_andb. Qed.

(** X9: the window of the entry named "Current" starts at the start of the
    current cycle of the summary; as it also ends, at local midnight at
    the start of the day of [now], its total is at most [totalExpenses]
    when no amount is negative, and equal to it when no expense is stamped
    after that midnight. *)
Theorem current_bar_within_summary (tza now : Z) (categories : list Cat.t)
    (expenses : list Tx.t) (settings : Settings.t) :
  100 <= getFullYear tza now ->
  Settings.cycleMonths settings <> 0 ->
  let cycleMonths := Settings.cycleMonths settings in
  let current := cycleBar tza now cycleMonths expenses 0 in
  let s := summarize tza now categories expenses settings in
  cycleStartDate tza now cycleMonths 0 = currentCycleStart tza now settings /\
  ((forall e, In e expenses -> 0 <= Tx.amount e)%Q ->
   (Bar.Expenses current <= Summary.totalExpenses s)%Q) /\
  ((forall e, In e expenses -> Tx.type e = "expense"%string ->
              Tx.timestamp e <= cycleEndDate tza now cycleMonths 0) ->
   (Bar.Expenses current == Summary.totalExpenses s)%Q).
Proof.
  intros Hy Hc cycleMonths current s.
  assert (Hstart : cycleStartDate tza now cycleMonths 0 = currentCycleStart tza now settings).
  { unfold currentCycleStart. rewrite (cycleMonthsOr1_id _ Hc).
    apply cycleStartDate_0. exact Hy. }
  split; [exact Hstart|].
  unfold current, cycleBar, s, summarize, summary.
  cbn [Bar.Expenses Summary.totalExpenses].
  rewrite !sumAmounts_Qsum, cycleExpenses_filter. split.
  - intros Ha. apply Qsum_filter_mono; [exact Ha|].
    intros e _ He. unfold inCycle in He. rewrite Hstart in He.
    apply andb_true_iff in He. destruct He as [He _]. exact He.
  - intros Hend.
    rewrite (filter_ext_in (inCycle tza now cycleMonths 0)
               (fun e => is_type "expense" e
                         && (currentCycleStart tza now settings <=? Tx.timestamp e))).
    + reflexivity.
    + intros e He. unfold inCycle. rewrite Hstart.
      destruct (is_type "expense" e) eqn:Ty; [|reflexivity].
      apply is_type_true in Ty.
      rewrite (proj2 (Z.leb_le _ _) (Hend e He Ty)), andb_true_r. reflexivity.
Qed.

Lemma cycle_window_order tza now cycleMonths i j :
  100 <= getFullYear tza now -> 1 <= cycleMonths -> getDate tza now <= 28 ->
  0 <= i < j ->
  cycleEndDate tza now cycleMonths j < cycleStartDate tza now cycleMonths i.
Proof.
  intros Hy Hc Hd Hij. apply (local_lt tza).
  rewrite (LocalTime_cycleEndDate tza now cycleMonths Hy),
          (LocalTime_cycleStartDate tza now cycleMonths Hy).
  apply MakeDate_lt; unfold msPerDay; try lia.
  revert Hd. generalize (getDate tza now), (localMonthIndex tza now). intros d K Hd.
  pose proof (daysInMonth_range (K - j * cycleMonths)) as Hdim.
  pose proof (firstOfMonth_succ (K - j * cycleMonths)) as Hs.
  pose proof (firstOfMonth_le (K - j * cycleMonths + 1)
                (K - ((i + 1) * cycleMonths - 1)) ltac:(nia)) as Hle.
  lia.
Qed.

(** X10: when the day of the month of [now] is at most 28, the windows of
    the comparison series do not meet: for [cycleMonths >= 1] the end of
    an older window is before the start of every newer one, so no
    transaction is counted in two entries. *)
Theorem cycle_windows_disjoint (tza now cycleMonths i j : Z) (e : Tx.t) :
  100 <= getFullYear tza now ->
  1 <= cycleMonths ->
  getDate tza now <= 28 ->
  0 <= i < j ->
  cycleEndDate tza now cycleMonths j < cycleStartDate tza now cycleMonths i /\
  (inCycle tza now cycleMonths i e = true -> inCycle tza now cycleMonths j e = false).
Proof.
  intros Hy Hc Hd Hij.
  pose proof (cycle_window_order tza now cycleMonths i j Hy Hc Hd Hij) as Hlt.
  split; [exact Hlt|].
  unfold inCycle. intros Hi.
  apply andb_true_iff in Hi. destruct Hi as [Hi _].
  apply andb_true_iff in Hi. destruct Hi as [_ Hi]. apply Z.leb_le in Hi.
  apply andb_false_iff. right. apply Z.leb_gt.
  revert Hlt Hi.
  generalize (cycleEndDate tza now cycleMonths j), (cycleStartDate tza now cycleMonths i),
    (Tx.timestamp e).
  intros; lia.
Qed.

(** ** The bar of a row *)

Lemma percentage_lt_iff a v l :
  (0 < l -> (a < v / l * 100 <-> a * l < v * 100))%Q.
Proof.
  intros Hl.
  assert (E : (v * 100 == v / l * 100 * l)%Q) by (field; lra).
  rewrite E. symmetry. apply Qmult_lt_r. exact Hl.
Qed.

Lemma percentage_gt_100 data :
  (0 < ChartItem.budgetLimit data)%Q ->
  Qgt_bool (percentage data) 100 = true <->
  (ChartItem.budgetLimit data < ChartItem.value data)%Q.
Proof.
  intros Hl. rewrite Qgt_bool_true, (percentage_pos data Hl), (percentage_lt_iff _ _ _ Hl).
  split; intros H; lra.
Qed.

Lemma percentage_gt_75 data :
  (0 < ChartItem.budgetLimit data)%Q ->
  Qgt_bool (percentage data) 75 = true <->
  (75 * ChartItem.budgetLimit data < ChartItem.value data * 100)%Q.
Proof.
  intros Hl. rewrite Qgt_bool_true, (percentage_pos data Hl), (percentage_lt_iff _ _ _ Hl).
  reflexivity.
Qed.

Lemma barColor_red data :
  barColor data = "bg-red-500"%string <-> Qgt_bool (percentage data) 100 = true.
Proof.
  unfold barColor. destruct (Qgt_bool (percentage data) 100).
  - split; reflexivity.
  - destruct (Qgt_bool (percentage data) 75); split; discriminate.
Qed.

Lemma barColor_yellow data :
  barColor data = "bg-yellow-500"%string <->
  Qgt_bool (percentage data) 100 = false /\ Qgt_bool (percentage data) 75 = true.
Proof.
  unfold barColor. destruct (Qgt_bool (percentage data) 100).
  - split; [discriminate|]. intros [H _]. discriminate.
  - destruct (Qgt_bool (percentage data) 75); split; try discriminate; try tauto.
    intros [_ H]. discriminate.
Qed.

Lemma barWidth_le data : (barWidth data <= 100)%Q.
Proof.
  unfold barWidth. destruct (Qle_bool (percentage data) 100) eqn:E.
  - apply Qle_bool_iff. exact E.
  - lra.
Qed.

Lemma percentage_nonneg data :
  (0 <= ChartItem.value data -> 0 <= percentage data)%Q.
Proof.
  intros Hv. destruct (Qlt_le_dec 0 (ChartItem.budgetLimit data)) as [Hl|Hl].
  - rewrite (percentage_pos data Hl).
    apply Qmult_le_0_compat; [|discriminate].
    apply Qmult_le_0_compat; [exact Hv|].
    apply Qinv_le_0_compat, Qlt_le_weak. exact Hl.
  - rewrite (percentage_zero data Hl). lra.
Qed.

(** X11: for a row with a positive cycle limit the bar is red, and the
    line OVERSPENT is shown, exactly when the spending exceeds the limit,
    and the amount shown as overspent is then positive.  The bar is
    yellow only when the spending is above 75 percent of the limit
    without exceeding it, and it is green whenever the spending is at
    most 75 percent of the limit.  A row without a positive limit always
    has a green bar of width 0 and is never shown as overspent, whatever
    was spent.  The width of the bar never exceeds 100 and is not
    negative when the spending is not. *)
Theorem row_bar_display (data : ChartItem.t) :
  ((0 < ChartItem.budgetLimit data)%Q ->
   (barColor data = "bg-red-500"%string <->
    (ChartItem.budgetLimit data < ChartItem.value data)%Q) /\
   (showsOverspent data = true <->
    (ChartItem.budgetLimit data < ChartItem.value data)%Q) /\
   (showsOverspent data = true ->
    (0 < overspentBy data /\
     overspentBy data == ChartItem.value data - ChartItem.budgetLimit data)%Q) /\
   (barColor data = "bg-yellow-500"%string ->
    (75 * ChartItem.budgetLimit data < ChartItem.value data * 100 /\
     ChartItem.value data <= ChartItem.budgetLimit data)%Q) /\
   ((ChartItem.value data * 100 <= 75 * ChartItem.budgetLimit data)%Q ->
    barColor data = "bg-green-500"%string)) /\
  ((ChartItem.budgetLimit data <= 0)%Q ->
   barColor data = "bg-green-500"%string /\ (barWidth data == 0)%Q /\
   showsOverspent data = false) /\
  (barWidth data <= 100)%Q /\
  ((0 <= ChartItem.value data)%Q -> (0 <= barWidth data)%Q).
Proof.
  split; [|split; [|split]].
  - intros Hl. split; [|split; [|split; [|split]]].
    + rewrite barColor_red. apply percentage_gt_100. exact Hl.
    + unfold showsOverspent. apply percentage_gt_100. exact Hl.
    + unfold showsOverspent. intros H. apply (percentage_gt_100 data Hl) in H.
      unfold overspentBy, rowSpent, rowLimit. rewrite !or0_Num. split; [lra|reflexivity].
    + rewrite barColor_yellow, <- (percentage_gt_75 data Hl).
      intros [H1 H2]. split; [exact H2|]. apply Qnot_lt_le. intros Hlt.
      apply (percentage_gt_100 data Hl) in Hlt. congruence.
    + intros Hle. unfold barColor.
      destruct (Qgt_bool (percentage data) 100) eqn:E100.
      { apply (percentage_gt_100 data Hl) in E100. lra. }
      destruct (Qgt_bool (percentage data) 75) eqn:E75; [|reflexivity].
      apply (percentage_gt_75 data Hl) in E75. lra.
  - intros Hl. pose proof (percentage_zero data Hl) as Hp.
    assert (H100 : Qgt_bool (percentage data) 100 = false)
      by (apply Qgt_bool_false; rewrite Hp; discriminate).
    assert (H75 : Qgt_bool (percentage data) 75 = false)
      by (apply Qgt_bool_false; rewrite Hp; discriminate).
    split; [unfold barColor; rewrite H100, H75; reflexivity|]. split; [|exact H100].
    unfold barWidth.
    assert (Hle : Qle_bool (percentage data) 100 = true)
      by (apply Qle_bool_iff; rewrite Hp; discriminate).
    rewrite Hle. exact Hp.
  - apply barWidth_le.
  - intros Hv. pose proof (percentage_nonneg data Hv) as Hp.
    unfold barWidth. destruct (Qle_bool (percentage data) 100); [exact Hp|discriminate].
Qed.

(** ** The pie chart *)

Lemma spentIn_positive k l :
  (forall e, In e l -> 0 <= Tx.amount e)%Q ->
  Qgt_bool (spentIn k l) 0 =
  existsb (fun e => String.eqb (Tx.categoryId e) k && Qgt_bool (Tx.amount e) 0) l.
Proof.
  induction l as [|e l IH]; intros H.
  - reflexivity.
  - pose proof (H e (or_introl eq_refl)) as He.
    assert (Hl : forall x, In x l -> (0 <= Tx.amount x)%Q)
      by (intros x Hx; apply H; right; exact Hx).
    pose proof (spentIn_nonneg k l Hl) as Hrest.
    rewrite spentIn_cons. cbn [existsb]. rewrite <- (IH Hl).
    destruct (String.eqb (Tx.categoryId e) k); cbn [andb orb]; [|reflexivity].
    destruct (Qgt_bool (Tx.amount e) 0) eqn:Ea; cbn [orb].
    + apply Qgt_bool_true in Ea. apply Qgt_bool_true. lra.
    + apply Qgt_bool_false in Ea.
      apply Qgt_bool_comp. lra.
Qed.

Lemma pieData_chartDataOf categories ebc c :
  pieData (chartDataOf categories ebc c) =
    List.filter (fun d => Qgt_bool (ChartItem.value d) 0) (imap (chartItem ebc c) categories).
Proof.
  unfold pieData, chartDataOf. rewrite filter_filter_andb.
  apply filter_ext_in. intros d _. unfold keepItem.
  destruct (Qgt_bool (ChartItem.value d) 0); [reflexivity|apply andb_false_r].
Qed.

(** X12: for amounts that are not negative and category ids that are not
    names of properties of [Object.prototype], the slices of the pie
    chart are, in the order of the categories, those of exactly the
    categories under which the current cycle has an expense with a
    positive amount, so the chart is empty exactly when there is no such
    expense.  The value of a slice is the sum, in the order of the log,
    of the expenses of the cycle filed under its category; it is positive
    and at most [totalExpenses]. *)
Theorem pie_slices (tza now : Z) (categories : list Cat.t) (expenses : list Tx.t)
    (settings : Settings.t) :
  (forall cat, In cat categories -> ~ In (Cat.id cat) objectPrototypeNames) ->
  (forall e, In e expenses -> 0 <= Tx.amount e)%Q ->
  let s := summarize tza now categories expenses settings in
  let pie := pieData (Summary.chartData s) in
  let l := cycleExpenses tza now expenses settings in
  let spends cat :=
    existsb (fun e => String.eqb (Tx.categoryId e) (Cat.id cat) && Qgt_bool (Tx.amount e) 0) l in
  List.map ChartItem.id pie = List.map Cat.id (List.filter spends categories) /\
  (pie = [] <->
   forall cat e, In cat categories -> In e l -> Tx.categoryId e = Cat.id cat ->
                 (Tx.amount e <= 0)%Q) /\
  (forall d, In d pie ->
     exists cat, In cat categories /\ ChartItem.id d = Cat.id cat /\
       (ChartItem.value d ==
        sumAmounts (List.filter (fun x => String.eqb (Tx.categoryId x) (Cat.id cat)) l))%Q /\
       (0 < ChartItem.value d)%Q /\
       (ChartItem.value d <= Summary.totalExpenses s)%Q).
Proof.
  intros _ Ha s pie l spends.
  assert (Hl : forall e, In e l -> (0 <= Tx.amount e)%Q).
  { intros e He. apply Ha. apply In_cycleExpenses in He. tauto. }
  assert (Hpie : pie = List.filter (fun d => Qgt_bool (ChartItem.value d) 0)
                         (imap (chartItem (expenseByCategoryOf l) (cycleMonthsOr1 settings))
                            categories)).
  { unfold pie, s, summarize, summary. cbn [Summary.chartData].
    apply pieData_chartDataOf. }
  assert (Htot : Summary.totalExpenses s = sumAmounts l) by reflexivity.
  rewrite Htot, Hpie. clearbody l. clear Hpie Htot pie s.
  set (c := cycleMonthsOr1 settings).
  assert (Hspends : forall cat, Qgt_bool (lookupOr0 (expenseByCategoryOf l) (Cat.id cat)) 0
                                = spends cat).
  { intros cat. rewrite (Qgt_bool_comp _ _ 0 (lookupOr0_expenseByCategoryOf l (Cat.id cat))).
    apply spentIn_positive. exact Hl. }
  assert (Hids : List.map ChartItem.id
                   (List.filter (fun d => Qgt_bool (ChartItem.value d) 0)
                      (imap (chartItem (expenseByCategoryOf l) c) categories)) =
                 List.map Cat.id (List.filter spends categories)).
  { apply map_filter_imap.
    - intros i cat. rewrite chartItem_value. apply Hspends.
    - intros i cat. reflexivity. }
  split; [exact Hids|]. split; [split|].
  - intros E cat e Hcat He Hid. rewrite E in Hids. simpl in Hids.
    apply Qgt_bool_false.
    destruct (Qgt_bool (Tx.amount e) 0) eqn:P; [|reflexivity].
    assert (Hs : spends cat = true).
    { unfold spends. apply existsb_exists. exists e. split; [exact He|].
      rewrite Hid, String.eqb_refl, P. reflexivity. }
    assert (Hin : In cat (List.filter spends categories))
      by (apply filter_In; split; assumption).
    destruct (List.filter spends categories); [contradiction|discriminate].
  - intros H. apply filter_none. intros d Hd.
    apply In_imap_inv in Hd. destruct Hd as (i & cat & Hcat & ->).
    rewrite chartItem_value, Hspends.
    destruct (spends cat) eqn:Hs; [|reflexivity].
    unfold spends in Hs. apply existsb_exists in Hs. destruct Hs as (e & He & Hb).
    apply andb_true_iff in Hb. destruct Hb as [Hid Hpos].
    apply String.eqb_eq in Hid. apply Qgt_bool_true in Hpos.
    pose proof (H cat e Hcat He Hid). lra.
  - intros d Hd. apply filter_In in Hd. destruct Hd as [Hin Hpos].
    apply In_imap_inv in Hin. destruct Hin as (i & cat & Hcat & ->).
    exists cat. split; [exact Hcat|]. split; [reflexivity|].
    rewrite chartItem_value in *. split; [apply lookupOr0_sumAmounts|].
    split; [apply Qgt_bool_true; exact Hpos|].
    rewrite lookupOr0_expenseByCategoryOf. apply spentIn_le_sumAmounts. exact Hl.
Qed.

(** ** Objects whose entries are listed *)

Section ObjFacts.

Context {V : Type}.

Implicit Types (o : list (string * V)) (k : string) (v : V).

Lemma Obj_get_set_same o k v : Obj.get (Obj.set o k v) k = Some v.
Proof.
  induction o as [|[k' v'] r IH]; simpl.
  - rewrite String.eqb_refl. reflexivity.
  - destruct (String.eqb_spec k' k) as [->|N]; simpl.
    + rewrite String.eqb_refl. reflexivity.
    + destruct (String.eqb_spec k' k); [contradiction|exact IH].
Qed.

Lemma Obj_get_set_other o k k' v : k' <> k -> Obj.get (Obj.set o k v) k' = Obj.get o k'.
Proof.
  intros N. induction o as [|[k0 v0] r IH]; simpl.
  - destruct (String.eqb_spec k k'); [congruence|reflexivity].
  - destruct (String.eqb_spec k0 k) as [->|N0]; simpl.
    + destruct (String.eqb_spec k k'); [congruence|reflexivity].
    + rewrite IH. reflexivity.
Qed.

Lemma Obj_keys_set o k v x :
  In x (List.map fst (Obj.set o k v)) <-> x = k \/ In x (List.map fst o).
Proof.
  induction o as [|[k0 v0] r IH]; simpl.
  - intuition congruence.
  - destruct (String.eqb_spec k0 k) as [->|N0]; simpl.
    + intuition congruence.
    + rewrite IH. intuition congruence.
Qed.

Lemma Obj_NoDup_set o k v :
  List.NoDup (List.map fst o) -> List.NoDup (List.map fst (Obj.set o k v)).
Proof.
  induction o as [|[k0 v0] r IH]; simpl; intros H.
  - constructor; [intros []|constructor].
  - inversion H as [|? ? Hnot Hnd]; subst.
    destruct (String.eqb_spec k0 k) as [->|N0]; simpl.
    + constructor; assumption.
    + constructor; [|apply IH; exact Hnd].
      rewrite Obj_keys_set. intros [E|Hin]; [congruence|contradiction].
Qed.

Lemma Obj_In_get o k v : List.NoDup (List.map fst o) -> In (k, v) o -> Obj.get o k = Some v.
Proof.
  induction o as [|[k0 v0] r IH]; simpl; intros Hnd Hin; [contradiction|].
  inversion Hnd as [|? ? Hnot Hnd']; subst.
  destruct Hin as [[= -> ->]|Hin].
  - rewrite String.eqb_refl. reflexivity.
  - destruct (String.eqb_spec k0 k) as [->|N0].
    + exfalso. apply Hnot. apply (in_map fst) in Hin. exact Hin.
    + apply IH; assumption.
Qed.

Lemma Obj_get_In o k v : Obj.get o k = Some v -> In (k, v) o.
Proof.
  induction o as [|[k0 v0] r IH]; simpl; [discriminate|].
  destruct (String.eqb_spec k0 k) as [->|N0].
  - intros [= ->]. left. reflexivity.
  - intros H. right. apply IH. exact H.
Qed.

Lemma Obj_get_None o k : Obj.get o k = None <-> ~ In k (List.map fst o).
Proof.
  induction o as [|[k0 v0] r IH]; simpl; [tauto|].
  destruct (String.eqb_spec k0 k) as [->|N0].
  - split; [discriminate|]. intros H. exfalso. apply H. left. reflexivity.
  - rewrite IH. intuition congruence.
Qed.

Lemma insertIndex_perm (x : string * V) l : Permutation (Obj.insertIndex x l) (x :: l).
Proof.
  induction l as [|y r IH]; simpl; [reflexivity|].
  destruct (Obj.indexOf x <=? Obj.indexOf y); [reflexivity|].
  rewrite IH. apply perm_swap.
Qed.

Lemma filter_partition_perm {A : Type} (p : A -> bool) (l : list A) :
  Permutation (List.filter p l ++ List.filter (fun x => negb (p x)) l) l.
Proof.
  induction l as [|x l IH]; simpl; [reflexivity|].
  destruct (p x); simpl.
  - constructor. exact IH.
  - rewrite <- Permutation_middle. constructor. exact IH.
Qed.

Lemma Obj_entries_perm o : Permutation (Obj.entries o) o.
Proof.
  unfold Obj.entries.
  rewrite <- (filter_partition_perm Obj.isIndex o) at 3.
  apply Permutation_app_tail.
  induction (List.filter Obj.isIndex o) as [|x l IH]; simpl; [reflexivity|].
  rewrite insertIndex_perm. constructor. exact IH.
Qed.

(** Keys that are not array indices are listed in the order of insertion. *)
Lemma Obj_entries_no_index o :
  (forall e, In e o -> Obj.isIndex e = false) -> Obj.entries o = o.
Proof.
  intros H. unfold Obj.entries.
  rewrite (filter_none Obj.isIndex o H). simpl.
  apply filter_all. intros e He. rewrite (H e He). reflexivity.
Qed.

End ObjFacts.

(** ** Expense sources *)

Lemma getOr0_addSource acc e k :
  (getOr0 (addSource acc e) k ==
   getOr0 acc k +
   (if is_type "expense" e && String.eqb (Tx.source e) k then Tx.amount e else 0))%Q.
Proof.
  unfold addSource. destruct (is_type "expense" e); simpl; [|lra].
  destruct (String.eqb_spec (Tx.source e) k) as [<-|N].
  - unfold getOr0 at 1. rewrite Obj_get_set_same. apply or0_Num.
  - unfold getOr0 at 1. rewrite Obj_get_set_other by (intros E; apply N; symmetry; exact E).
    fold (getOr0 acc k). lra.
Qed.

Lemma keys_addSource acc e x :
  In x (List.map fst (addSource acc e)) <->
  (is_type "expense" e = true /\ x = Tx.source e) \/ In x (List.map fst acc).
Proof.
  unfold addSource. destruct (is_type "expense" e).
  - rewrite Obj_keys_set. intuition.
  - intuition discriminate.
Qed.

Lemma NoDup_addSource acc e :
  List.NoDup (List.map fst acc) -> List.NoDup (List.map fst (addSource acc e)).
Proof.
  unfold addSource. destruct (is_type "expense" e); [apply Obj_NoDup_set|auto].
Qed.

Lemma fold_addSource_NoDup l acc :
  List.NoDup (List.map fst acc) -> List.NoDup (List.map fst (fold_left addSource l acc)).
Proof.
  revert acc. induction l as [|e l IH]; intros acc H; simpl; [exact H|].
  apply IH, NoDup_addSource, H.
Qed.

Lemma fold_addSource_keys l acc x :
  In x (List.map fst (fold_left addSource l acc)) <->
  In x (List.map fst acc) \/
  exists e, In e l /\ is_type "expense" e = true /\ Tx.source e = x.
Proof.
  revert acc. induction l as [|e l IH]; intros acc; simpl.
  - split; [auto|]. intros [H|(e & [] & _)]. exact H.
  - rewrite IH, keys_addSource. split.
    + intros [[[Ht ->]|H]|(e' & He' & Ht & Hs)].
      * right. exists e. auto.
      * left. exact H.
      * right. exists e'. auto.
    + intros [H|(e' & [<-|He'] & Ht & Hs)].
      * left. right. exact H.
      * left. left. split; [exact Ht|symmetry; exact Hs].
      * right. exists e'. auto.
Qed.

Lemma sourceTotal_cons k e l :
  sourceTotal k (e :: l) =
    if String.eqb (Tx.source e) k then (Tx.amount e + sourceTotal k l)%Q
    else sourceTotal k l.
Proof. unfold sourceTotal. simpl. destruct (String.eqb (Tx.source e) k); reflexivity. Qed.

Lemma fold_addSource_get l acc k :
  (forall e, In e l -> is_type "expense" e = true) ->
  (getOr0 (fold_left addSource l acc) k == getOr0 acc k + sourceTotal k l)%Q.
Proof.
  revert acc. induction l as [|e l IH]; intros acc H; simpl.
  - unfold sourceTotal. simpl. lra.
  - rewrite (IH _ (fun x Hx => H x (or_intror Hx))), getOr0_addSource,
      (H e (or_introl eq_refl)), sourceTotal_cons. simpl.
    destruct (String.eqb (Tx.source e) k); lra.
Qed.

Lemma insertDesc_perm x l : Permutation (insertDesc x l) (x :: l).
Proof.
  induction l as [|y r IH]; simpl; [reflexivity|].
  destruct (Qle_bool (snd y) (snd x)); [reflexivity|].
  rewrite IH. apply perm_swap.
Qed.

Lemma sortDesc_perm l : Permutation (sortDesc l) l.
Proof.
  induction l as [|x l IH]; simpl; [reflexivity|].
  rewrite insertDesc_perm. constructor. exact IH.
Qed.

Lemma insertDesc_sorted x l : Sorted amountDesc l -> Sorted amountDesc (insertDesc x l).
Proof.
  induction l as [|y r IH]; simpl; intros H.
  - repeat constructor.
  - destruct (Qle_bool (snd y) (snd x)) eqn:E.
    + constructor; [exact H|]. constructor. apply Qle_bool_iff. exact E.
    + inversion H as [|? ? Hs Hh]; subst.
      assert (Hyx : (snd x <= snd y)%Q).
      { apply Qlt_le_weak, Qnot_le_lt. intros Hle. apply Qle_bool_iff in Hle. congruence. }
      constructor; [apply IH; exact Hs|].
      destruct r as [|z r']; simpl.
      * constructor. exact Hyx.
      * destruct (Qle_bool (snd z) (snd x)); constructor; [exact Hyx|].
        inversion Hh; assumption.
Qed.

Lemma sortDesc_sorted l : Sorted amountDesc (sortDesc l).
Proof.
  induction l as [|x l IH]; simpl; [constructor|]. apply insertDesc_sorted, IH.
Qed.

Lemma expenseSources_perm l :
  Permutation (expenseSources l) (fold_left addSource l []).
Proof. unfold expenseSources. rewrite sortDesc_perm. apply Obj_entries_perm. Qed.

Lemma cycleExpenses_all_expense tza now expenses settings e :
  In e (cycleExpenses tza now expenses settings) -> is_type "expense" e = true.
Proof. intros H. apply In_cycleExpenses in H. apply is_type_true. tauto. Qed.

(** X13: the rows of the card Expense Sources, for sources that are not
    names of properties of [Object.prototype]: there is exactly one row
    for each source of an expense of the current cycle, its amount is the
    sum, in the order of the log, of the amounts of the expenses of the
    cycle with that source, and the rows come in descending order of
    amount.  For amounts that are not negative, no row exceeds
    [totalExpenses]. *)
Theorem expense_sources_breakdown (tza now : Z) (categories : list Cat.t)
    (expenses : list Tx.t) (settings : Settings.t) :
  (forall e, In e expenses -> ~ In (Tx.source e) objectPrototypeNames) ->
  let l := cycleExpenses tza now expenses settings in
  let rows := expenseSources l in
  Sorted amountDesc rows /\
  List.NoDup (List.map fst rows) /\
  (forall k a, In (k, a) rows ->
     (a == sumAmounts (List.filter (fun e => String.eqb (Tx.source e) k) l))%Q /\
     exists e, In e l /\ Tx.source e = k) /\
  (forall e, In e l -> exists a, In (Tx.source e, a) rows) /\
  ((forall e, In e expenses -> 0 <= Tx.amount e)%Q ->
   forall k a, In (k, a) rows ->
     (a <= Summary.totalExpenses (summarize tza now categories expenses settings))%Q).
Proof.
  intros _ l rows.
  assert (Hty : forall e, In e l -> is_type "expense" e = true)
    by (intros e; apply cycleExpenses_all_expense).
  pose proof (expenseSources_perm l) as Hperm. fold rows in Hperm.
  assert (Hnd : List.NoDup (List.map fst (fold_left addSource l [])))
    by (apply fold_addSource_NoDup; constructor).
  assert (Hamount : forall k a, In (k, a) rows -> (a == sourceTotal k l)%Q).
  { intros k a Hin. apply (Permutation_in _ Hperm) in Hin.
    pose proof (fold_addSource_get l [] k Hty) as Hget.
    unfold getOr0 at 1 in Hget. rewrite (Obj_In_get _ _ _ Hnd Hin), or0_Num in Hget.
    rewrite Hget. unfold getOr0. simpl. lra. }
  split; [apply sortDesc_sorted|]. split.
  { apply (Permutation_NoDup (l := List.map fst (fold_left addSource l []))); [|exact Hnd].
    apply Permutation_map. symmetry. exact Hperm. }
  split.
  { intros k a Hin. split.
    - rewrite (Hamount k a Hin), sumAmounts_Qsum. reflexivity.
    - apply (Permutation_in _ Hperm) in Hin.
      apply (in_map fst) in Hin. apply fold_addSource_keys in Hin.
      destruct Hin as [[]|(e & He & _ & Hs)]. exists e. split; assumption. }
  split.
  { intros e He.
    assert (Hk : In (Tx.source e) (List.map fst (fold_left addSource l []))).
    { apply fold_addSource_keys. right. exists e. repeat split; [exact He|apply Hty, He]. }
    apply in_map_iff in Hk. destruct Hk as ([k a] & Hfst & Hin). simpl in Hfst. subst k.
    exists a. apply (Permutation_in _ (Permutation_sym Hperm)). exact Hin. }
  intros Ha k a Hin. rewrite (Hamount k a Hin).
  unfold summarize, summary. cbn [Summary.totalExpenses]. fold l.
  rewrite sumAmounts_Qsum. unfold sourceTotal. apply Qsum_filter_le.
  intros e He. apply Ha. apply In_cycleExpenses in He. tauto.
Qed.

(** ** The category of a transaction *)

Lemma find_append {A : Type} (p : A -> bool) (l1 l2 : list A) :
  List.find p (l1 ++ l2) =
    match List.find p l1 with
    | Some x => Some x
    | None => List.find p l2
    end.
Proof.
  induction l1 as [|x l1 IH]; simpl; [reflexivity|]. destruct (p x); [reflexivity|exact IH].
Qed.

Lemma categoryMap_fold (categories : list Cat.t) (acc : gmap string Cat.t) (k : string) :
  fold_left (fun acc cat => <[Cat.id cat := cat]> acc) categories acc !! k =
    match List.find (fun c => String.eqb (Cat.id c) k) (rev categories) with
    | Some c => Some c
    | None => acc !! k
    end.
Proof.
  revert acc. induction categories as [|c l IH]; intros acc; simpl; [reflexivity|].
  rewrite IH, find_append.
  destruct (List.find (fun c0 => String.eqb (Cat.id c0) k) (rev l)); [reflexivity|].
  simpl. destruct (String.eqb_spec (Cat.id c) k) as [<-|N].
  - apply lookup_insert_eq.
  - apply lookup_insert_ne. exact N.
Qed.

Lemma categoryMap_lookup categories k :
  categoryMap categories !! k =
    List.find (fun c => String.eqb (Cat.id c) k) (rev categories).
Proof.
  unfold categoryMap. rewrite categoryMap_fold.
  destruct (List.find _ (rev categories)); [reflexivity|apply lookup_empty].
Qed.

Lemma find_unique_id (l : list Cat.t) cat :
  List.NoDup (List.map Cat.id l) -> In cat l ->
  List.find (fun c => String.eqb (Cat.id c) (Cat.id cat)) l = Some cat.
Proof.
  induction l as [|c l IH]; simpl; intros Hnd Hin; [contradiction|].
  inversion Hnd as [|? ? Hnot Hnd']; subst.
  destruct (String.eqb_spec (Cat.id c) (Cat.id cat)) as [E|N].
  - destruct Hin as [->|Hin]; [reflexivity|].
    exfalso. apply Hnot. rewrite E. apply in_map. exact Hin.
  - destruct Hin as [->|Hin]; [contradiction|]. apply IH; assumption.
Qed.

Lemma find_id_none (l : list Cat.t) k :
  ~ In k (List.map Cat.id l) -> List.find (fun c => String.eqb (Cat.id c) k) l = None.
Proof.
  induction l as [|c l IH]; simpl; intros H; [reflexivity|].
  destruct (String.eqb_spec (Cat.id c) k) as [E|N].
  - exfalso. apply H. left. exact E.
  - apply IH. intros Hin. apply H. right. exact Hin.
Qed.

(** X14: for ids that are not names of properties of [Object.prototype],
    [categoryMap] maps an id to the last category of the list with that
    id, so with distinct ids to the category itself, and ids of no
    category are not in it.  In the history, an entry that is not an
    expense is named "Income"; an expense whose category no longer exists,
    or has an empty name, is named "Uncategorized"; and an expense of an
    existing category with a name is shown under that name. *)
Theorem categoryMap_names (categories : list Cat.t) (t : Tx.t) :
  (forall cat, In cat categories -> ~ In (Cat.id cat) objectPrototypeNames) ->
  ~ In (Tx.categoryId t) objectPrototypeNames ->
  (forall k, ~ In k objectPrototypeNames ->
             categoryMap categories !! k =
             List.find (fun c => String.eqb (Cat.id c) k) (rev categories)) /\
  (forall k, ~ In k objectPrototypeNames ->
             (categoryMap categories !! k = None <-> ~ In k (List.map Cat.id categories))) /\
  (List.NoDup (List.map Cat.id categories) ->
   forall cat, In cat categories -> categoryMap categories !! Cat.id cat = Some cat) /\
  (Tx.type t <> "expense"%string ->
   categoryName (categoryMap categories) t = "Income"%string) /\
  (Tx.type t = "expense"%string ->
   ~ In (Tx.categoryId t) (List.map Cat.id categories) ->
   categoryName (categoryMap categories) t = "Uncategorized"%string) /\
  (Tx.type t = "expense"%string ->
   List.NoDup (List.map Cat.id categories) ->
   forall cat, In cat categories -> Cat.id cat = Tx.categoryId t ->
     (Cat.name cat <> ""%string -> categoryName (categoryMap categories) t = Cat.name cat) /\
     (Cat.name cat = ""%string ->
      categoryName (categoryMap categories) t = "Uncategorized"%string)).
Proof.
  assert (Hrev : forall l : list Cat.t, List.NoDup (List.map Cat.id l) ->
                 List.NoDup (List.map Cat.id (rev l))).
  { intros l H. rewrite map_rev. apply NoDup_rev. exact H. }
  assert (Hnone : forall k, categoryMap categories !! k = None <->
                            ~ In k (List.map Cat.id categories)).
  { intros k. rewrite categoryMap_lookup. split.
    - intros Hf Hin. apply in_map_iff in Hin. destruct Hin as (c & Hid & Hc).
      apply in_rev in Hc. apply (find_none _ _ Hf c) in Hc.
      rewrite Hid, String.eqb_refl in Hc. discriminate.
    - intros H. apply find_id_none. rewrite map_rev. intros Hin. apply H.
      apply in_rev. exact Hin. }
  assert (Hsome : List.NoDup (List.map Cat.id categories) ->
                  forall cat, In cat categories ->
                  categoryMap categories !! Cat.id cat = Some cat).
  { intros Hnd cat Hin. rewrite categoryMap_lookup.
    apply find_unique_id; [apply Hrev; exact Hnd|apply in_rev in Hin; exact Hin]. }
  intros _ _.
  split; [intros k _; apply categoryMap_lookup|].
  split; [intros k _; apply Hnone|]. split; [exact Hsome|].
  unfold categoryName. cbv zeta. split.
  - intros N. destruct (String.eqb_spec (Tx.type t) "expense"); [contradiction|reflexivity].
  - split.
    + intros E Hno. rewrite E. simpl. rewrite (proj2 (Hnone _) Hno). reflexivity.
    + intros E Hnd cat Hin Hid. rewrite E. simpl. rewrite <- Hid, (Hsome Hnd cat Hin).
      unfold str_or. destruct (String.eqb_spec (Cat.name cat) ""); split; intros; congruence.
Qed.


(** ** Grouping a list by a key *)

Section ObjMore.

Context {V : Type}.

Implicit Types (o : list (string * V)) (k : string) (v : V).

Lemma Obj_set_absent o k v : Obj.get o k = None -> Obj.set o k v = o ++ [(k, v)].
Proof.
  induction o as [|[k0 v0] r IH]; simpl; [reflexivity|].
  destruct (String.eqb_spec k0 k); [discriminate|]. intros H. rewrite (IH H). reflexivity.
Qed.

Lemma Obj_set_at o1 o2 k v v' :
  ~ In k (List.map fst o1) -> Obj.set (o1 ++ (k, v) :: o2) k v' = o1 ++ (k, v') :: o2.
Proof.
  induction o1 as [|[k0 v0] r IH]; simpl; intros H.
  - rewrite String.eqb_refl. reflexivity.
  - destruct (String.eqb_spec k0 k) as [E|N]; [exfalso; apply H; left; exact E|].
    rewrite IH; [reflexivity|]. intros Hin. apply H. right. exact Hin.
Qed.

End ObjMore.

Lemma NoDup_snoc {A : Type} (l : list A) (a : A) :
  List.NoDup l -> ~ In a l -> List.NoDup (l ++ [a]).
Proof.
  induction l as [|x l IH]; simpl; intros Hnd Hnot.
  - constructor; [intros []|constructor].
  - apply List.NoDup_cons_iff in Hnd. destruct Hnd as [Hx Hnd].
    constructor.
    + intros Hin. apply in_app_or in Hin. destruct Hin as [Hin|[E|[]]]; [contradiction|].
      apply Hnot. left. symmetry. exact E.
    + apply IH; [exact Hnd|]. intros Hin. apply Hnot. right. exact Hin.
Qed.

Lemma StronglySorted_app_inv {A : Type} (R : A -> A -> Prop) (l1 l2 : list A) :
  StronglySorted R (l1 ++ l2) ->
  StronglySorted R l1 /\ StronglySorted R l2 /\
  (forall a b, In a l1 -> In b l2 -> R a b).
Proof.
  induction l1 as [|x l1 IH]; simpl; intros H.
  - split; [constructor|]. split; [exact H|]. intros a b [].
  - inversion H as [|? ? Hs Hall]; subst. destruct (IH Hs) as (H1 & H2 & H12).
    rewrite List.Forall_forall in Hall. split.
    + constructor; [exact H1|]. apply List.Forall_forall. intros y Hy. apply Hall.
      apply in_or_app. left. exact Hy.
    + split; [exact H2|]. intros a b [<-|Ha] Hb.
      * apply Hall. apply in_or_app. right. exact Hb.
      * apply H12; assumption.
Qed.

Section Grouping.

Context {A : Type} (key : A -> string) (rank : A -> Z).

Implicit Types (acc : list (string * list A)) (p l : list A) (x : A).

Lemma addToGroup_new acc x :
  Obj.get acc (key x) = None -> addToGroup key acc x = acc ++ [(key x, [x])].
Proof.
  intros H. unfold addToGroup. cbv zeta. rewrite H, Obj_get_set_same.
  rewrite (Obj_set_absent acc (key x) [] H).
  apply Obj_set_at. apply Obj_get_None. exact H.
Qed.

Lemma addToGroup_old acc x g :
  Obj.get acc (key x) = Some g -> addToGroup key acc x = Obj.set acc (key x) (g ++ [x]).
Proof. intros H. unfold addToGroup. cbv zeta. rewrite H, H. reflexivity. Qed.

Lemma groupsOf_step acc p x :
  groupsOf key acc p -> runEnds key p x -> groupsOf key (addToGroup key acc x) (p ++ [x]).
Proof.
  intros (Hcat & Hnd & Huni) Hrun.
  destruct (Obj.get acc (key x)) as [g|] eqn:G.
  - rewrite (addToGroup_old acc x g G).
    apply Obj_get_In in G. destruct (in_split _ _ G) as (a1 & a2 & Hacc).
    destruct (Huni _ _ G) as [Hne Hkey].
    assert (Hk1 : ~ In (key x) (List.map fst a1)).
    { rewrite Hacc, map_app in Hnd. simpl in Hnd.
      apply NoDup_remove_2 in Hnd. intros Hin. apply Hnd. apply in_or_app. left. exact Hin. }
    assert (Ha2 : a2 = []).
    { destruct a2 as [|[k2 g2] a2']; [reflexivity|]. exfalso.
      assert (Hin2 : In (k2, g2) acc) by (rewrite Hacc; apply in_or_app; right; right; left; reflexivity).
      destruct (Huni _ _ Hin2) as [Hne2 Hkey2].
      destruct g as [|t g']; [congruence|]. destruct g2 as [|u g2']; [congruence|].
      assert (Hu : key u = key x).
      { apply (Hrun (concat (List.map snd a1)) t (g' ++ (u :: g2') ++ concat (List.map snd a2'))).
        - rewrite <- Hcat, Hacc, map_app, concat_app. reflexivity.
        - apply Hkey. left. reflexivity.
        - apply in_or_app. right. left. reflexivity. }
      rewrite (Hkey2 u (or_introl eq_refl)) in Hu.
      rewrite Hacc, map_app in Hnd. simpl in Hnd. apply NoDup_app_remove_l in Hnd.
      apply List.NoDup_cons_iff in Hnd. destruct Hnd as [Hnot _]. apply Hnot. left. exact Hu. }
    subst a2. rewrite Hacc, (Obj_set_at a1 [] (key x) g (g ++ [x]) Hk1).
    split; [|split].
    + rewrite <- Hcat, Hacc, !map_app, !concat_app. simpl. rewrite !app_nil_r, app_assoc.
      reflexivity.
    + rewrite Hacc in Hnd. rewrite map_app in *. exact Hnd.
    + intros k g0 Hin. apply in_app_or in Hin. destruct Hin as [Hin|[[= <- <-]|[]]].
      * apply Huni. rewrite Hacc. apply in_or_app. left. exact Hin.
      * split; [destruct g; discriminate|]. intros t Ht. apply in_app_or in Ht.
        destruct Ht as [Ht|[<-|[]]]; [apply Hkey; exact Ht|reflexivity].
  - rewrite (addToGroup_new acc x G). split; [|split].
    + rewrite map_app, concat_app, Hcat. reflexivity.
    + rewrite map_app. simpl. apply NoDup_snoc; [exact Hnd|].
      apply Obj_get_None. exact G.
    + intros k g0 Hin. apply in_app_or in Hin. destruct Hin as [Hin|[[= <- <-]|[]]].
      * apply Huni. exact Hin.
      * split; [discriminate|]. intros t [<-|[]]. reflexivity.
Qed.

Lemma groupsOf_fold l :
  (forall p x rest, l = p ++ x :: rest -> runEnds key p x) ->
  groupsOf key (fold_left (addToGroup key) l []) l.
Proof.
  induction l as [|x l IH] using rev_ind; intros H.
  - simpl. split; [reflexivity|]. split; [constructor|]. intros k g [].
  - rewrite fold_left_app. simpl. apply groupsOf_step.
    + apply IH. intros p y rest E. apply (H p y (rest ++ [x])).
      rewrite E, <- app_assoc. reflexivity.
    + apply (H l x []). reflexivity.
Qed.

(** In a list in descending order of a rank that decides the key, the
    elements of one key are next to each other. *)
Lemma sorted_runEnds l :
  StronglySorted (fun a b => rank b <= rank a) l ->
  (forall a b, In a l -> In b l -> (key a = key b <-> rank a = rank b)) ->
  forall p x rest, l = p ++ x :: rest -> runEnds key p x.
Proof.
  intros Hs Hkr p x rest El p1 t p2 Ep Hk u Hu.
  assert (Hx : In x l) by (rewrite El; apply in_or_app; right; left; reflexivity).
  assert (Ht : In t l)
    by (rewrite El, Ep; apply in_or_app; left; apply in_or_app; right; left; reflexivity).
  assert (Hul : In u l)
    by (rewrite El, Ep; apply in_or_app; left; apply in_or_app; right; right; exact Hu).
  rewrite El in Hs. destruct (StronglySorted_app_inv _ _ _ Hs) as (Hp & _ & Hpx).
  assert (Hux : rank x <= rank u).
  { apply Hpx; [|left; reflexivity]. rewrite Ep. apply in_or_app. right. right. exact Hu. }
  rewrite Ep in Hp. destruct (StronglySorted_app_inv _ _ _ Hp) as (_ & Htp & _).
  inversion Htp as [|? ? _ Hall]; subst. rewrite List.Forall_forall in Hall.
  pose proof (Hall u Hu) as Htu. simpl in Htu.
  apply (Hkr t x Ht Hx) in Hk. apply (Hkr u x Hul Hx). lia.
Qed.

End Grouping.

(** ** The history by day *)

Lemma insertByTime_perm x l : Permutation (insertByTime x l) (x :: l).
Proof.
  induction l as [|y r IH]; simpl; [reflexivity|].
  destruct (Tx.timestamp y <=? Tx.timestamp x); [reflexivity|].
  rewrite IH. apply perm_swap.
Qed.

Lemma sortedTransactions_perm l : Permutation (sortedTransactions l) l.
Proof.
  induction l as [|x l IH]; simpl; [reflexivity|].
  rewrite insertByTime_perm. constructor. exact IH.
Qed.

Lemma insertByTime_sorted x l : Sorted timeDesc l -> Sorted timeDesc (insertByTime x l).
Proof.
  induction l as [|y r IH]; simpl; intros H.
  - repeat constructor.
  - destruct (Z.leb_spec (Tx.timestamp y) (Tx.timestamp x)) as [E|E].
    + constructor; [exact H|]. constructor. exact E.
    + inversion H as [|? ? Hs Hh]; subst.
      constructor; [apply IH; exact Hs|].
      destruct r as [|z r']; simpl.
      * constructor. unfold timeDesc. lia.
      * destruct (Tx.timestamp z <=? Tx.timestamp x); constructor;
          [unfold timeDesc; lia|inversion Hh; assumption].
Qed.

Lemma sortedTransactions_sorted l : StronglySorted timeDesc (sortedTransactions l).
Proof.
  apply Sorted_StronglySorted.
  - intros a b c Hab Hbc. unfold timeDesc in *. lia.
  - induction l as [|x l IH]; simpl; [constructor|]. apply insertByTime_sorted, IH.
Qed.

Lemma StronglySorted_weaken {A : Type} (R R' : A -> A -> Prop) (l : list A) :
  (forall a b, R a b -> R' a b) -> StronglySorted R l -> StronglySorted R' l.
Proof.
  intros H. induction 1 as [|x l Hs IH Hall]; constructor; [exact IH|].
  rewrite List.Forall_forall in *. intros y Hy. apply H, Hall, Hy.
Qed.

Lemma Day_mono t1 t2 : t1 <= t2 -> Day t1 <= Day t2.
Proof. intros H. unfold Day, msPerDay. Z.div_mod_to_equations. lia. Qed.

(** The date string of a time is decided by its local day. *)
Lemma toDateString_of_day tza a b :
  Day (LocalTime tza a) = Day (LocalTime tza b) -> toDateString tza a = toDateString tza b.
Proof.
  intros H.
  unfold toDateString, WeekDay, DateFromTime, MonthFromTime, DayWithinYear, YearFromTime.
  cbv zeta. rewrite H. reflexivity.
Qed.

Lemma weekDayShort_shape w :
  0 <= w < 7 ->
  exists a b c, weekDayShort w = String a (String b (String c EmptyString)) /\
                is_digit a = false.
Proof.
  intros H.
  assert (C : w = 0 \/ w = 1 \/ w = 2 \/ w = 3 \/ w = 4 \/ w = 5 \/ w = 6) by lia.
  destruct C as [->|[->|[->|[->|[->|[->| ->]]]]]]; do 3 eexists; split; reflexivity.
Qed.

Lemma monthShort_shape m :
  0 <= m < 12 -> exists a b c, monthShort m = String a (String b (String c EmptyString)).
Proof. intros H. each_month H; do 3 eexists; reflexivity. Qed.

Lemma monthShort_inj m1 m2 :
  0 <= m1 < 12 -> 0 <= m2 < 12 -> monthShort m1 = monthShort m2 -> m1 = m2.
Proof.
  intros H1 H2. each_month H1; each_month H2; intros E; try reflexivity; discriminate E.
Qed.

Lemma digitString_inj d1 d2 :
  0 <= d1 < 10 -> 0 <= d2 < 10 ->
  ascii_of_nat (48 + Z.to_nat d1) = ascii_of_nat (48 + Z.to_nat d2) -> d1 = d2.
Proof.
  intros H1 H2 E. apply (f_equal nat_of_ascii) in E.
  rewrite !nat_ascii_embedding in E by lia. lia.
Qed.

Lemma toDateString_shape tza d :
  0 <= getFullYear tza d <= 9999 ->
  let t := LocalTime tza d in
  exists a b c e f g,
    is_digit a = false /\
    monthShort (MonthFromTime t) = String e (String f (String g EmptyString)) /\
    toDateString tza d =
      String a (String b (String c (String " " (String e (String f (String g (String " "
        (String (ascii_of_nat (48 + Z.to_nat (DateFromTime t / 10)))
        (String (ascii_of_nat (48 + Z.to_nat (DateFromTime t mod 10)))
        (String " "
        (String (ascii_of_nat (48 + Z.to_nat (YearFromTime t / 1000)))
        (String (ascii_of_nat (48 + Z.to_nat (YearFromTime t / 100 mod 10)))
        (String (ascii_of_nat (48 + Z.to_nat (YearFromTime t / 10 mod 10)))
        (String (ascii_of_nat (48 + Z.to_nat (YearFromTime t mod 10)))
         EmptyString)))))))))))))).
Proof.
  intros Hy t. unfold getFullYear in Hy. fold t in Hy.
  assert (Hw : 0 <= WeekDay t < 7) by (unfold WeekDay; apply Z.mod_pos_bound; lia).
  destruct (weekDayShort_shape _ Hw) as (a & b & c & Ew & Ha).
  destruct (monthShort_shape _ (MonthFromTime_range t)) as (e & f & g & Em).
  exists a, b, c, e, f, g. split; [exact Ha|]. split; [exact Em|].
  unfold toDateString. cbv zeta. fold t. rewrite Ew, Em.
  pose proof (DateFromTime_range t) as Hd.
  pose proof (daysInMonth_range (monthIndex t)) as Hdim.
  unfold zeroPadded2, zeroPadded4, digitString.
  destruct (Z.ltb_spec (YearFromTime t) 0) as [Hneg|_]; [lia|].
  rewrite Z.abs_eq by lia.
  destruct (Z.ltb_spec (DateFromTime t) 100) as [_|Hbig]; [|lia].
  destruct (Z.ltb_spec (YearFromTime t) 10000) as [_|Hbig]; [|lia].
  reflexivity.
Qed.

Lemma Day_of_fields t : Day t = firstOfMonth (12 * YearFromTime t + MonthFromTime t) + DateFromTime t - 1.
Proof. rewrite DateFromTime_eq. unfold monthIndex. lia. Qed.

(** For years of four digits, times with the same date string are on the
    same local day. *)
Lemma toDateString_inj tza a b :
  0 <= getFullYear tza a <= 9999 -> 0 <= getFullYear tza b <= 9999 ->
  toDateString tza a = toDateString tza b ->
  Day (LocalTime tza a) = Day (LocalTime tza b).
Proof.
  intros Ha Hb E.
  destruct (toDateString_shape tza a Ha) as (a1 & a2 & a3 & a4 & a5 & a6 & _ & Em1 & S1).
  destruct (toDateString_shape tza b Hb) as (b1 & b2 & b3 & b4 & b5 & b6 & _ & Em2 & S2).
  rewrite S1, S2 in E. clear S1 S2.
  unfold getFullYear in Ha, Hb.
  set (ta := LocalTime tza a) in *. set (tb := LocalTime tza b) in *.
  pose proof (DateFromTime_range ta) as Hda. pose proof (DateFromTime_range tb) as Hdb.
  pose proof (daysInMonth_range (monthIndex ta)) as Hma.
  pose proof (daysInMonth_range (monthIndex tb)) as Hmb.
  injection E as _ _ _ E4 E5 E6 D1 D0 Y3 Y2 Y1 Y0.
  assert (Em : MonthFromTime ta = MonthFromTime tb).
  { apply monthShort_inj; try apply MonthFromTime_range. rewrite Em1, Em2. congruence. }
  apply digitString_inj in D1; [|Z.div_mod_to_equations; lia|Z.div_mod_to_equations; lia].
  apply digitString_inj in D0; [|Z.div_mod_to_equations; lia|Z.div_mod_to_equations; lia].
  apply digitString_inj in Y3; [|Z.div_mod_to_equations; lia|Z.div_mod_to_equations; lia].
  apply digitString_inj in Y2; [|Z.div_mod_to_equations; lia|Z.div_mod_to_equations; lia].
  apply digitString_inj in Y1; [|Z.div_mod_to_equations; lia|Z.div_mod_to_equations; lia].
  apply digitString_inj in Y0; [|Z.div_mod_to_equations; lia|Z.div_mod_to_equations; lia].
  assert (Ed : DateFromTime ta = DateFromTime tb) by (Z.div_mod_to_equations; lia).
  assert (Ey : YearFromTime ta = YearFromTime tb) by (Z.div_mod_to_equations; lia).
  rewrite (Day_of_fields ta), (Day_of_fields tb), Em, Ed, Ey. reflexivity.
Qed.

Lemma toDateString_not_index tza d :
  0 <= getFullYear tza d <= 9999 -> Obj.arrayIndex (toDateString tza d) = None.
Proof.
  intros Hy.
  destruct (toDateString_shape tza d Hy) as (a & b & c & e & f & g & Ha & _ & S).
  rewrite S. unfold Obj.arrayIndex. cbn [read_digits]. rewrite Ha. reflexivity.
Qed.

Lemma insertByTime_filter x l t :
  List.filter (fun e => Tx.timestamp e =? t) (insertByTime x l) =
    if Tx.timestamp x =? t then x :: List.filter (fun e => Tx.timestamp e =? t) l
    else List.filter (fun e => Tx.timestamp e =? t) l.
Proof.
  induction l as [|y r IH]; simpl; [reflexivity|].
  destruct (Z.leb_spec (Tx.timestamp y) (Tx.timestamp x)) as [E|E]; simpl.
  - reflexivity.
  - rewrite IH. destruct (Z.eqb_spec (Tx.timestamp x) t) as [Ex|Nx]; [|reflexivity].
    destruct (Z.eqb_spec (Tx.timestamp y) t) as [Ey|Ny]; [lia|reflexivity].
Qed.

(** The sort is stable: transactions with one time stamp keep their
    order. *)
Lemma sortedTransactions_stable l t :
  List.filter (fun e => Tx.timestamp e =? t) (sortedTransactions l) =
    List.filter (fun e => Tx.timestamp e =? t) l.
Proof.
  induction l as [|x l IH]; simpl; [reflexivity|].
  rewrite insertByTime_filter, IH. reflexivity.
Qed.

Lemma history_fold_groups tza expenses :
  (forall e, In e expenses -> 0 <= getFullYear tza (Tx.timestamp e) <= 9999) ->
  groupsOf (dateKeyOf tza)
    (fold_left (addToGroup (dateKeyOf tza)) (sortedTransactions expenses) [])
    (sortedTransactions expenses).
Proof.
  intros Hy. apply groupsOf_fold.
  apply (sorted_runEnds (dateKeyOf tza) (fun e => Day (LocalTime tza (Tx.timestamp e)))).
  - apply (StronglySorted_weaken timeDesc); [|apply sortedTransactions_sorted].
    intros a b H. apply Day_mono. unfold timeDesc, LocalTime in *. lia.
  - intros a b Ha Hb.
    apply (Permutation_in _ (sortedTransactions_perm expenses)) in Ha, Hb.
    split.
    + apply toDateString_inj; [apply Hy, Ha|apply Hy, Hb].
    + apply toDateString_of_day.
Qed.

Lemma history_entries tza expenses :
  (forall e, In e expenses -> 0 <= getFullYear tza (Tx.timestamp e) <= 9999) ->
  historyGroups tza expenses =
    fold_left (addToGroup (dateKeyOf tza)) (sortedTransactions expenses) [].
Proof.
  intros Hy. unfold historyGroups. apply Obj_entries_no_index.
  intros [k g] Hin. destruct (history_fold_groups tza expenses Hy) as (Hcat & _ & Huni).
  destruct (Huni k g Hin) as [Hne Hkey].
  destruct g as [|t g']; [congruence|].
  assert (Ht : In t expenses).
  { apply (Permutation_in _ (sortedTransactions_perm expenses)).
    rewrite <- Hcat. apply in_concat. exists (t :: g'). split; [|left; reflexivity].
    apply (in_map snd) in Hin. exact Hin. }
  unfold Obj.isIndex. cbn [fst]. rewrite <- (Hkey t (or_introl eq_refl)).
  unfold dateKeyOf. rewrite (toDateString_not_index tza _ (Hy t Ht)). reflexivity.
Qed.

(** X15: the history lists the transactions by descending time, those of
    one time stamp in the order of the log, and cuts that list into groups, one for
    each local day (for time stamps in the years 0 to 9999): the groups
    put end to end are the sorted list, no date heads two groups, every
    group is not empty and holds transactions of its date only, and two
    transactions of the log are in one group exactly when they are stamped
    on the same local day. *)
Theorem history_groups_by_day (tza : Z) (expenses : list Tx.t) :
  (forall e, In e expenses -> 0 <= getFullYear tza (Tx.timestamp e) <= 9999) ->
  let sorted := sortedTransactions expenses in
  let groups := historyGroups tza expenses in
  Permutation sorted expenses /\
  StronglySorted timeDesc sorted /\
  (forall ts, List.filter (fun e => Tx.timestamp e =? ts) sorted =
              List.filter (fun e => Tx.timestamp e =? ts) expenses) /\
  concat (List.map snd groups) = sorted /\
  List.NoDup (List.map fst groups) /\
  (forall k g, In (k, g) groups ->
     g <> [] /\ forall t, In t g -> toDateString tza (Tx.timestamp t) = k) /\
  (forall a b, In a expenses -> In b expenses ->
     (exists k g, In (k, g) groups /\ In a g /\ In b g) <->
     Day (LocalTime tza (Tx.timestamp a)) = Day (LocalTime tza (Tx.timestamp b))).
Proof.
  intros Hy sorted groups.
  pose proof (history_fold_groups tza expenses Hy) as (Hcat & Hnd & Huni).
  unfold groups. rewrite (history_entries tza expenses Hy). fold sorted in Hcat |- *.
  split; [apply sortedTransactions_perm|]. split; [apply sortedTransactions_sorted|].
  split; [intros ts; apply sortedTransactions_stable|].
  split; [exact Hcat|]. split; [exact Hnd|]. split; [exact Huni|].
  assert (Hgroup : forall a, In a expenses ->
            exists g, In (dateKeyOf tza a, g)
                        (fold_left (addToGroup (dateKeyOf tza)) sorted []) /\ In a g).
  { intros a Ha.
    apply (Permutation_in _ (Permutation_sym (sortedTransactions_perm expenses))) in Ha.
    fold sorted in Ha. rewrite <- Hcat in Ha. apply in_concat in Ha.
    destruct Ha as (g & Hg & Hag). apply in_map_iff in Hg.
    destruct Hg as ([k g0] & Eg & Hin). simpl in Eg. subst g0.
    exists g. split; [|exact Hag].
    destruct (Huni k g Hin) as [_ Hkey]. rewrite (Hkey a Hag). exact Hin. }
  intros a b Ha Hb. split.
  - intros (k & g & Hin & Hag & Hbg). destruct (Huni k g Hin) as [_ Hkey].
    apply toDateString_inj; [apply Hy, Ha|apply Hy, Hb|].
    change (dateKeyOf tza a = dateKeyOf tza b). rewrite (Hkey a Hag), (Hkey b Hbg). reflexivity.
  - intros Hday. destruct (Hgroup a Ha) as (ga & Hina & Haga).
    destruct (Hgroup b Hb) as (gb & Hinb & Hbgb).
    assert (Ek : dateKeyOf tza b = dateKeyOf tza a)
      by (symmetry; apply toDateString_of_day; exact Hday).
    rewrite Ek in Hinb.
    assert (Eg : gb = ga).
    { pose proof (Obj_In_get _ _ _ Hnd Hina) as G1.
      pose proof (Obj_In_get _ _ _ Hnd Hinb) as G2. congruence. }
    subst gb. exists (dateKeyOf tza a), ga. repeat split; assumption.
Qed.

(** ** The modal forms *)

Lemma reachable_modal categories s :
  reachable categories s ->
  In (UI.activeTab s) tabNames /\
  ((UI.isModalOpen s = false /\ UI.modalType s = None) \/
   (UI.isModalOpen s = true /\
    (UI.modalType s = Some "expense"%string \/ UI.modalType s = Some "budget"%string \/
     UI.modalType s = Some "category"%string))).
Proof.
  induction 1 as [|s ev Hr [Htab IH] Hev].
  - split; [left; reflexivity|]. left. split; reflexivity.
  - destruct ev as [name| |type| |now id|f|f|f]; simpl in *; try (split; assumption).
    + unfold handleFabClick.
      destruct (String.eqb (UI.activeTab s) "overview"); [split; assumption|].
      destruct (String.eqb (UI.activeTab s) "budget");
        [split; [exact Htab|right; split; [reflexivity|left; reflexivity]]|].
      destruct (String.eqb (UI.activeTab s) "manage");
        [split; [exact Htab|right; split; [reflexivity|right; right; reflexivity]]|].
      split; assumption.
    + split; [exact Htab|]. right. split; [reflexivity|].
      destruct Hev as [->| ->]; [right; left|left]; reflexivity.
    + split; [exact Htab|]. left. split; reflexivity.
    + split; [exact Htab|]. left. split; reflexivity.
Qed.

(** X16: in every state the page can reach from its initial state, a
    modal is open exactly when its type is set, and the type is then one
    of expense, budget and category; so submitting the form of an open
    modal adds exactly one document, the one its form describes (an
    expense for the expense form, an income for the budget form, a
    category for the category form), and leaves the modal closed, its
    type cleared and the menu of the action button hidden. *)
Theorem modal_submit_writes_once (categories : list Cat.t) (s : UI.t) (now : Z)
    (id : string) :
  reachable categories s ->
  (UI.isModalOpen s = true <-> UI.modalType s <> None) /\
  (UI.isModalOpen s = true ->
   (UI.modalType s = Some "expense"%string /\
    fst (handleModalSubmit now id s) =
      Some (AddedTx (handleAddExpense (UI.newExpense s) now))) \/
   (UI.modalType s = Some "budget"%string /\
    fst (handleModalSubmit now id s) =
      Some (AddedTx (handleAddBudgetEntry (UI.newBudget s) now))) \/
   (UI.modalType s = Some "category"%string /\
    fst (handleModalSubmit now id s) =
      Some (AddedCategory (handleAddCategory id (UI.newCategory s))))) /\
  (UI.isModalOpen s = false -> fst (handleModalSubmit now id s) = None) /\
  (let s' := snd (handleModalSubmit now id s) in
   UI.isModalOpen s' = false /\ UI.modalType s' = None /\ UI.showFabMenu s' = false /\
   UI.activeTab s' = UI.activeTab s /\ reachable categories s').
Proof.
  intros Hr. destruct (reachable_modal categories s Hr) as [_ Hm].
  split; [|split; [|split]].
  - destruct Hm as [[Hc Hn]|[Ho Ht]].
    + rewrite Hc, Hn. split; [discriminate|congruence].
    + rewrite Ho. split; [|reflexivity]. intros _.
      destruct Ht as [->|[->| ->]]; discriminate.
  - intros Ho. destruct Hm as [[Hc _]|[_ Ht]]; [congruence|].
    unfold handleModalSubmit. cbn [fst].
    destruct Ht as [E|[E|E]]; rewrite E; [left|right; left|right; right];
      split; reflexivity.
  - intros Hc. destruct Hm as [[_ Hn]|[Ho _]]; [|congruence].
    unfold handleModalSubmit. cbn [fst]. rewrite Hn. reflexivity.
  - cbv zeta. repeat split.
    apply (reach_step categories s (Submit now id) Hr). exact I.
Qed.

(** ** Concrete instances of the further properties *)

(** X1, witness: on 15 March 2024, with a cycle of 3 months, an expense of
    20 January 2024 is in the current cycle. *)
Lemma current_cycle_by_month_witness :
  let january := expenseAt "t1" 50 "c1" (newDate 0 2024 0 20) in
  let settings := {| Settings.currencyCode := "USD"; Settings.cycleMonths := 3 |} in
  100 <= getFullYear 0 sampleNow /\
  In january (cycleExpenses 0 sampleNow [january] settings).
Proof.
  intros january settings.
  assert (H : 100 <= getFullYear 0 sampleNow) by (vm_compute; discriminate).
  split; [exact H|].
  assert (Hm : localMonthIndex 0 sampleNow - (cycleMonthsOr1 settings - 1)
               <= localMonthIndex 0 (Tx.timestamp january)) by (vm_compute; discriminate).
  exact (proj2 (proj2 (current_cycle_by_month 0 sampleNow [january] settings H) january)
           (conj (or_introl eq_refl) (conj eq_refl Hm))).
Defined.

(** X2, witness: a daily limit of 100 over 1 month and over 2 months. *)
Lemma cycle_budget_monotone_witness :
  (1 <= 2)%Q /\
  (calculateCycleBudget (JString "100") (JString "daily") 1 <=
   calculateCycleBudget (JString "100") (JString "daily") 2)%Q.
Proof.
  assert (H : (1 <= 2)%Q) by discriminate.
  split; [exact H|].
  exact (proj1 (cycle_budget_monotone (JString "100") [groceries]) (JString "daily") 1%Q 2%Q H).
Defined.

(** X3, witness: a limit of 100 with the unknown frequency ["weekly"] is
    shown as "Monthly". *)
Lemma frequencyName_matches_formula_witness :
  parseFloat (JString "100") = Num 100 /\ (0 < 100)%Q /\
  frequencyName (JString "weekly") = "Monthly"%string.
Proof.
  assert (H1 : parseFloat (JString "100") = Num 100) by (vm_compute; reflexivity).
  assert (H2 : (0 < 100)%Q) by (vm_compute; reflexivity).
  split; [exact H1|]. split; [exact H2|].
  destruct (frequencyName_matches_formula (JString "100") (JString "weekly") 2 100 H1 H2)
    as [(E & _)|[(E & _)|(_ & _ & Hn & _)]]; [discriminate E|discriminate E|exact Hn].
Defined.

(** X4, witness: a record with [baseLimit = 0] and the deprecated
    [budgetLimit = "50"] is normalised to a limit of 50. *)
Lemma sanitize_idempotent_witness :
  let legacy := {| Cat.id := "c9"; Cat.name := "Rent";
                   Cat.baseLimit := JNumber (Num 0); Cat.budgetLimit := JString "50";
                   Cat.baseFrequency := JUndefined;
                   Cat.color := JUndefined; Cat.icon := JUndefined |} in
  Cat.baseLimit (sanitize legacy) = JNumber (Num 50).
Proof.
  intros legacy.
  destruct (sanitize_idempotent legacy) as (_ & _ & _ & _ & Hzero).
  apply (Hzero 0%Q 50%Q).
  - reflexivity.
  - reflexivity.
  - vm_compute. reflexivity.
  - vm_compute. discriminate.
Defined.

(** X6, witness: the groceries category opened and saved unchanged. *)
Lemma saveEdit_validates_witness :
  trim (Cat.name groceries) <> ""%string /\
  exists u, saveEdit (startEdit (sanitize groceries)) = Some ("c1"%string, u) /\
            CatForm.name u = "Groceries"%string.
Proof.
  assert (H : trim (Cat.name groceries) <> ""%string) by (vm_compute; discriminate).
  split; [exact H|].
  destruct (saveEdit_validates (startEdit groceries) groceries) as (_ & _ & Hround).
  eexists. split; [exact (Hround H)|]. vm_compute. reflexivity.
Defined.

(** X7, witness: an expense of 12.5 typed with a blank source, delivered
    between an expense and an income of the same day. *)
Lemma handleAddExpense_counts_witness :
  let form := {| TxForm.amount := JString "12.5"; TxForm.categoryId := "c1";
                 TxForm.source := "   " |} in
  let settings := {| Settings.currencyCode := "USD"; Settings.cycleMonths := 1 |} in
  let l1 := [expenseAt "t1" 50 "c1" sampleNow] in
  let l2 := [incomeAt "t2" 500 sampleNow] in
  100 <= getFullYear 0 sampleNow /\ 0 <= Settings.cycleMonths settings /\
  parseFloat (TxForm.amount form) = Num (125 # 10) /\
  ~ In (TxForm.categoryId form) objectPrototypeNames /\
  (0 <= 125 # 10)%Q /\
  exists tx, fromSnapshot "t9" (handleAddExpense form sampleNow) = Some tx /\
             Tx.amount tx = (125 # 10)%Q /\ Tx.source tx <> ""%string /\
             (Summary.totalExpenses (summarize 0 sampleNow [groceries] (l1 ++ l2) settings)
              <= Summary.totalExpenses
                   (summarize 0 sampleNow [groceries] (l1 ++ tx :: l2) settings))%Q.
Proof.
  intros form settings l1 l2.
  assert (H1 : 100 <= getFullYear 0 sampleNow) by (vm_compute; discriminate).
  assert (H2 : 0 <= Settings.cycleMonths settings) by (vm_compute; discriminate).
  assert (H3 : parseFloat (TxForm.amount form) = Num (125 # 10)) by (vm_compute; reflexivity).
  assert (H4 : ~ In (TxForm.categoryId form) objectPrototypeNames).
  { intros Hin; vm_compute in Hin;
      repeat (destruct Hin as [Hin|Hin]; [discriminate Hin|]); exact Hin. }
  assert (H5 : (0 <= 125 # 10)%Q) by discriminate.
  split; [exact H1|]. split; [exact H2|]. split; [exact H3|]. split; [exact H4|].
  split; [exact H5|].
  destruct (handleAddExpense_counts 0 sampleNow "t9" form (125 # 10) [groceries] l1 l2
              settings H1 H2 H3 H4)
    as (tx & Hs & Ha & Hsrc & _ & _ & _ & _ & _ & _ & _ & _ & Hmono).
  exists tx. split; [exact Hs|]. split; [exact Ha|]. split; [exact Hsrc|].
  exact (proj1 (Hmono H5)).
Defined.

(** X8, witness: an income of 500, delivered between an expense and an
    income of the same day. *)
Lemma handleAddBudgetEntry_counts_witness :
  let form := {| TxForm.amount := JString "500"; TxForm.categoryId := "";
                 TxForm.source := "Salary" |} in
  let settings := {| Settings.currencyCode := "USD"; Settings.cycleMonths := 1 |} in
  let l1 := [expenseAt "t1" 50 "c1" sampleNow] in
  let l2 := [incomeAt "t2" 500 sampleNow] in
  100 <= getFullYear 0 sampleNow /\ 0 <= Settings.cycleMonths settings /\
  parseFloat (TxForm.amount form) = Num 500 /\
  exists tx, fromSnapshot "t9" (handleAddBudgetEntry form sampleNow) = Some tx /\
             Tx.amount tx = 500%Q /\ Tx.categoryId tx = "income"%string /\
             Summary.chartData (summarize 0 sampleNow [groceries] (l1 ++ tx :: l2) settings)
             = Summary.chartData (summarize 0 sampleNow [groceries] (l1 ++ l2) settings).
Proof.
  intros form settings l1 l2.
  assert (H1 : 100 <= getFullYear 0 sampleNow) by (vm_compute; discriminate).
  assert (H2 : 0 <= Settings.cycleMonths settings) by (vm_compute; discriminate).
  assert (H3 : parseFloat (TxForm.amount form) = Num 500) by (vm_compute; reflexivity).
  split; [exact H1|]. split; [exact H2|]. split; [exact H3|].
  destruct (handleAddBudgetEntry_counts 0 sampleNow "t9" form 500 [groceries] l1 l2
              settings H1 H2 H3)
    as (tx & Hs & Ha & _ & Hc & _ & _ & _ & _ & _ & _ & _ & _ & Hrows).
  exists tx. split; [exact Hs|]. split; [exact Ha|]. split; [exact Hc|exact Hrows].
Defined.

(** X9, witness: on 15 March 2024 the window of "Current" starts with the
    current cycle. *)
Lemma current_bar_within_summary_witness :
  let settings := {| Settings.currencyCode := "USD"; Settings.cycleMonths := 2 |} in
  100 <= getFullYear 0 sampleNow /\ Settings.cycleMonths settings <> 0 /\
  cycleStartDate 0 sampleNow 2 0 = currentCycleStart 0 sampleNow settings.
Proof.
  intros settings.
  assert (H1 : 100 <= getFullYear 0 sampleNow) by (vm_compute; discriminate).
  assert (H2 : Settings.cycleMonths settings <> 0) by (vm_compute; discriminate).
  split; [exact H1|]. split; [exact H2|].
  exact (proj1 (current_bar_within_summary 0 sampleNow [groceries] [] settings H1 H2)).
Defined.

(** X10, witness: on 15 March 2024 the window before the current one ends
    before the current one starts. *)
Lemma cycle_windows_disjoint_witness :
  100 <= getFullYear 0 sampleNow /\ 1 <= 1 /\ getDate 0 sampleNow <= 28 /\ 0 <= 0 < 1 /\
  cycleEndDate 0 sampleNow 1 1 < cycleStartDate 0 sampleNow 1 0.
Proof.
  assert (H1 : 100 <= getFullYear 0 sampleNow) by (vm_compute; discriminate).
  assert (H2 : 1 <= 1) by lia.
  assert (H3 : getDate 0 sampleNow <= 28) by (vm_compute; discriminate).
  assert (H4 : 0 <= 0 < 1) by lia.
  split; [exact H1|]. split; [exact H2|]. split; [exact H3|]. split; [exact H4|].
  exact (proj1 (cycle_windows_disjoint 0 sampleNow 1 0 1
                  (expenseAt "t1" 50 "c1" sampleNow) H1 H2 H3 H4)).
Defined.

(** X11, witness: 250 spent of a limit of 200 gives a red bar. *)
Lemma row_bar_display_witness :
  let row := {| ChartItem.name := "Groceries"; ChartItem.value := 250;
                ChartItem.color := JString "#673AB7"; ChartItem.id := "c1";
                ChartItem.budgetLimit := 200;
                ChartItem.baseFrequency := JString "monthly";
                ChartItem.baseLimit := 200 |} in
  (0 < ChartItem.budgetLimit row)%Q /\ barColor row = "bg-red-500"%string.
Proof.
  intros row.
  assert (H : (0 < ChartItem.budgetLimit row)%Q) by (vm_compute; reflexivity).
  split; [exact H|].
  destruct (row_bar_display row) as (Hpos & _).
  destruct (Hpos H) as (Hred & _).
  apply Hred. vm_compute. reflexivity.
Defined.

(** X12, witness: in the Groceries scenario the pie has the one slice of
    Groceries. *)
Lemma pie_slices_witness :
  let settings := {| Settings.currencyCode := "USD"; Settings.cycleMonths := 1 |} in
  let log := [expenseAt "t1" 50 "c1" sampleNow; expenseAt "t2" 30 "c1" sampleNow] in
  (forall cat, In cat [groceries] -> ~ In (Cat.id cat) objectPrototypeNames) /\
  (forall e, In e log -> 0 <= Tx.amount e)%Q /\
  List.map ChartItem.id
    (pieData (Summary.chartData (summarize 0 sampleNow [groceries] log settings)))
  = ["c1"%string].
Proof.
  intros settings log.
  assert (H1 : forall cat, In cat [groceries] -> ~ In (Cat.id cat) objectPrototypeNames).
  { intros cat [<-|[]] Hin; vm_compute in Hin;
      repeat (destruct Hin as [Hin|Hin]; [discriminate Hin|]); exact Hin. }
  assert (H2 : forall e, In e log -> (0 <= Tx.amount e)%Q).
  { intros e [<-|[<-|[]]]; vm_compute; discriminate. }
  split; [exact H1|]. split; [exact H2|].
  eapply eq_trans; [exact (proj1 (pie_slices 0 sampleNow [groceries] log settings H1 H2))|].
  vm_compute. reflexivity.
Defined.

(** X13, witness: 20 paid in cash and then 50 by card; the row of the
    card comes first. *)
Lemma expense_sources_breakdown_witness :
  let settings := {| Settings.currencyCode := "USD"; Settings.cycleMonths := 1 |} in
  let log := [{| Tx.id := "t1"; Tx.amount := 20; Tx.type := "expense";
                 Tx.categoryId := "c1"; Tx.source := "Cash"; Tx.timestamp := sampleNow |};
              {| Tx.id := "t2"; Tx.amount := 50; Tx.type := "expense";
                 Tx.categoryId := "c1"; Tx.source := "Card"; Tx.timestamp := sampleNow |}] in
  (forall e, In e log -> ~ In (Tx.source e) objectPrototypeNames) /\
  Sorted amountDesc (expenseSources (cycleExpenses 0 sampleNow log settings)) /\
  expenseSources (cycleExpenses 0 sampleNow log settings)
  = [("Card", 50); ("Cash", 20)]%Q%string.
Proof.
  intros settings log.
  assert (H : forall e, In e log -> ~ In (Tx.source e) objectPrototypeNames).
  { intros e [<-|[<-|[]]] Hin; vm_compute in Hin;
      repeat (destruct Hin as [Hin|Hin]; [discriminate Hin|]); exact Hin. }
  split; [exact H|]. split.
  - exact (proj1 (expense_sources_breakdown 0 sampleNow [groceries] log settings H)).
  - vm_compute. reflexivity.
Defined.

(** X14, witness: an expense of a deleted category is named
    "Uncategorized". *)
Lemma categoryMap_names_witness :
  (forall cat, In cat [groceries] -> ~ In (Cat.id cat) objectPrototypeNames) /\
  ~ In "c0"%string objectPrototypeNames /\
  categoryName (categoryMap [groceries]) (expenseAt "t2" 30 "c0" sampleNow)
  = "Uncategorized"%string.
Proof.
  assert (H1 : forall cat, In cat [groceries] -> ~ In (Cat.id cat) objectPrototypeNames).
  { intros cat [<-|[]] Hin; vm_compute in Hin;
      repeat (destruct Hin as [Hin|Hin]; [discriminate Hin|]); exact Hin. }
  assert (H2 : ~ In "c0"%string objectPrototypeNames).
  { intros Hin; vm_compute in Hin;
      repeat (destruct Hin as [Hin|Hin]; [discriminate Hin|]); exact Hin. }
  split; [exact H1|]. split; [exact H2|].
  destruct (categoryMap_names [groceries] (expenseAt "t2" 30 "c0" sampleNow) H1 H2)
    as (_ & _ & _ & _ & Horphan & _).
  apply Horphan; [reflexivity|]. simpl. intros [H|[]]. discriminate H.
Defined.

(** X15, witness: a log of two days. *)
Lemma history_groups_by_day_witness :
  let log := [expenseAt "t1" 50 "c1" (sampleNow - 86400000);
              incomeAt "t2" 500 sampleNow; expenseAt "t3" 30 "c1" sampleNow] in
  (forall e, In e log -> 0 <= getFullYear 0 (Tx.timestamp e) <= 9999) /\
  concat (List.map snd (historyGroups 0 log)) = sortedTransactions log.
Proof.
  intros log.
  assert (H : forall e, In e log -> 0 <= getFullYear 0 (Tx.timestamp e) <= 9999).
  { intros e [<-|[<-|[<-|[]]]]; vm_compute; split; discriminate. }
  split; [exact H|].
  exact (proj1 (proj2 (proj2 (proj2 (history_groups_by_day 0 log H))))).
Defined.

(** X16, witness: the expense form opened from the menu of the overview. *)
Lemma modal_submit_writes_once_witness :
  let s := step [groceries] (step [groceries] initialUI FabClick) (MenuClick "expense") in
  reachable [groceries] s /\
  (UI.isModalOpen s = true <-> UI.modalType s <> None).
Proof.
  intros s.
  assert (H : reachable [groceries] s).
  { apply reach_step; [apply reach_step; [apply reach_init|exact I]|right; reflexivity]. }
  split; [exact H|].
  exact (proj1 (modal_submit_writes_once [groceries] s sampleNow "t9" H)).
Defined.

(** ** Further checks of the model on known values *)

Example toDateString_values :
  toDateString 0 sampleNow = "Fri Mar 15 2024"%string /\
  toDateString 0 0 = "Thu Jan 01 1970"%string /\
  toDateString 19800000 (sampleNow + 50400000) = "Sat Mar 16 2024"%string.
Proof. repeat split; vm_compute; reflexivity. Qed.

Example trim_values :
  trim "  Google Pay  " = "Google Pay"%string /\ trim "   " = ""%string /\
  trim "a b" = "a b"%string.
Proof. repeat split; vm_compute; reflexivity. Qed.

Example entries_order :
  List.map fst (Obj.entries [("Cash", 1%Q); ("10", 2%Q); ("Card", 3%Q); ("2", 4%Q);
                             ("02", 5%Q)])
  = ["2"; "10"; "Cash"; "Card"; "02"]%string.
Proof. vm_compute. reflexivity. Qed.

Example expenseSources_values :
  expenseSources [expenseAt "t1" 20 "c1" 0; expenseAt "t2" 50 "c1" 0;
                  {| Tx.id := "t3"; Tx.amount := 15; Tx.type := "expense";
                     Tx.categoryId := "c1"; Tx.source := "Cash"; Tx.timestamp := 0 |}]
  = [("Unknown", 0 + 20 + 50); ("Cash", 0 + 15)]%Q%string.
Proof. vm_compute. reflexivity. Qed.

(** On the 31st the window before the current one runs into March: an
    expense of 1 March is counted in both entries. *)
Example windows_overlap_on_the_31st :
  let now := newDate 0 2024 2 31 + 36000000 in
  let e := expenseAt "t1" 50 "c1" (newDate 0 2024 2 1 + 36000000) in
  inCycle 0 now 1 0 e = true /\ inCycle 0 now 1 1 e = true.
Proof. split; vm_compute; reflexivity. Qed.

(** On binary64 numbers a limit of 0.1 a month budgets
    0.6000000000000001 over 6 months, and 0.1 and 0.5 over 1 month and
    over 5 months, which add to 0.6: the cycle budget is not additive in
    the cycle length there. *)
Example binary64_budget_not_additive :
  let budget := Binary64.calculateCycleBudget 0x1.999999999999ap-4 (JString "monthly") in
  budget 6%float = 0x1.3333333333334p-1%float /\
  (budget 1 + budget 5)%float = 0x1.3333333333333p-1%float.
Proof. split; vm_compute; reflexivity. Qed.

(** On binary64 numbers, 0.33 spent of a limit of 0.44 is shown as exactly
    75 percent, though the quotient of the two numbers is above 3/4: at
    the thresholds the band of a row is decided by rounding. *)
Example binary64_percentage_at_threshold :
  Binary64.percentage
    (Binary64.ChartItem.mk "c1" 0x1.51eb851eb851fp-2 0x1.c28f5c28f5c29p-2) = 75%float.
Proof. vm_compute. reflexivity. Qed.

